(** * Ocean Insights: query interpretation, data resolution and response building

    A shallow embedding of the Python sources

      - [chat/views.py]           (REGION_PRESETS, parse_query_offline,
                                   parse_query_with_openai, chat_view),
      - [argo/utils.py]           (_filter_by_bbox_and_time, fetch_argo_data),
      - [visualization/utils.py]  (make_plot, make_comparison_plot, make_map),

    together with the properties the specification states about them.

    Modelling conventions.
      - A Python [str] is a [string] that holds its UTF-8 bytes.  The
        character classes of [re], [str.strip], [str.isspace] and [int] see
        the code points, with the tables of Unicode 14.0 (CPython 3.11);
        [str.lower] is modelled on the letters A to Z, see [Text.lower].
      - [int] refuses a text of more than 4300 digits with [ValueError].
      - A finite Python [float] is the rational [Q] it stands for; [NaN] /
        [None] / [NaT] in a table is the cell [Null].  The float64 mean
        pandas computes for a column is a parameter of the model
        ([float_mean]).
      - A Python value of dynamic type (a parsed JSON document, the [params]
        dict) is a [pyval]; a dict keeps its insertion order.
      - A statement that can raise returns a [result]; [Raise e] is the
        exception leaving the function.
      - A pandas [Timestamp] is a number of nanoseconds since the epoch
        (UTC); a table records whether its timestamps carry a time zone
        ([zoned]), and [Timestamp.utcnow()] does.
      - What [float()] and [pd.to_datetime] make of a text is a parameter of
        the model ([float_of_str], [datetime_of_str], [datetime_of_num]).
      - The clock, the live source and the demo file are the [world] a
        request runs in. *)

From Stdlib Require Import ZArith QArith Qround List String Ascii Bool Lia.
From Stdlib Require Import DecimalString Permutation Sorted.
Import ListNotations.

Local Open Scope string_scope.
Local Open Scope Z_scope.

(** ** Exceptions *)

Inductive exn : Type :=
| KeyError | TypeError | ValueError | IndexError | AttributeError
| ZeroDivisionError | OutOfBoundsDatetime | IOError.

Inductive result (A : Type) : Type :=
| Ok (a : A)
| Raise (e : exn).
Arguments Ok {A} a.
Arguments Raise {A} e.

Definition bind {A B} (r : result A) (k : A -> result B) : result B :=
  match r with
  | Ok a => k a
  | Raise e => Raise e
  end.

Notation "x <- r ;; k" := (bind r (fun x => k))
  (at level 61, r at next level, right associativity).

(** [try: r except Exception: d] *)
Definition try_except {A} (r : result A) (d : A) : A :=
  match r with
  | Ok a => a
  | Raise _ => d
  end.

Fixpoint mapM {A B} (f : A -> result B) (l : list A) : result (list B) :=
  match l with
  | [] => Ok []
  | a :: l' => b <- f a ;; bs <- mapM f l' ;; Ok (b :: bs)
  end.

(** ** Text

    A Python [str] is a sequence of Unicode code points; a [string] holds
    its UTF-8 bytes.  Substring tests work on the bytes (UTF-8 is
    self-synchronising); the character classes of [re], [str.strip] and
    [int] see the code points. *)

Module Text.

Definition is_upper (c : ascii) : bool :=
  let n := nat_of_ascii c in (65 <=? n)%nat && (n <=? 90)%nat.

Definition lower_char (c : ascii) : ascii :=
  if is_upper c then ascii_of_nat (nat_of_ascii c + 32) else c.

(** [str.lower], on the letters A to Z.  The other upper-case letters of
    Unicode lower to letters outside ASCII, but for U+0130 (an [i] followed
    by U+0307) and U+212A (a [k]); none of the words and patterns looked for
    in a lower-cased query has a [k], or an [i] at its end, so what is found
    in the text is the same. *)
Fixpoint lower (s : string) : string :=
  match s with
  | EmptyString => EmptyString
  | String c s' => String (lower_char c) (lower s')
  end.

(** the digits [0] to [9] of the JSON grammar *)
Definition is_digit (c : ascii) : bool :=
  let n := nat_of_ascii c in (48 <=? n)%nat && (n <=? 57)%nat.

Definition digit_val (c : ascii) : Z := Z.of_nat (nat_of_ascii c) - 48.

(** the number a run of the digits [0] to [9] denotes *)
Definition int_of_digits (s : string) : Z :=
  fold_left (fun acc c => 10 * acc + digit_val c) (list_ascii_of_string s) 0.

(** the text after [p] when [s] starts with [p] *)
Fixpoint strip_prefix (p s : string) : option string :=
  match p, s with
  | EmptyString, _ => Some s
  | String a p', String b s' => if Ascii.eqb a b then strip_prefix p' s' else None
  | String _ _, EmptyString => None
  end.

Definition startswith (s p : string) : bool :=
  match strip_prefix p s with Some _ => true | None => false end.

(** [sub in s] *)
Fixpoint contains (sub s : string) : bool :=
  startswith s sub ||
  match s with
  | EmptyString => false
  | String _ s' => contains sub s'
  end.

(** the longest prefix of [s] whose characters satisfy [p], and the rest *)
Fixpoint span (p : ascii -> bool) (s : string) : string * string :=
  match s with
  | EmptyString => (EmptyString, EmptyString)
  | String c s' =>
      if p c then let (a, b) := span p s' in (String c a, b)
      else (EmptyString, s)
  end.

(** [", ".join(l)] *)
Fixpoint join (sep : string) (l : list string) : string :=
  match l with
  | [] => EmptyString
  | [x] => x
  | x :: l' => x ++ sep ++ join sep l'
  end.

(** *** Code points *)

Definition byte_val (c : ascii) : Z := Z.of_nat (nat_of_ascii c).

(** the six bits a continuation byte carries *)
Definition continuation (c : ascii) : option Z :=
  let n := byte_val c in
  if (128 <=? n) && (n <? 192) then Some (n - 128) else None.

(** The code points of a UTF-8 text.  A byte that is part of no well-formed
    sequence (no [str] encodes to it) is kept as the code point
    [56320 + byte]. *)
Fixpoint code_points (s : string) : list Z :=
  match s with
  | EmptyString => []
  | String a r =>
      let n := byte_val a in
      let one (_ : unit) := (if n <? 128 then n else 56320 + n) :: code_points r in
      match r with
      | String b r1 =>
          match continuation b with
          | Some x =>
              if (194 <=? n) && (n <? 224) then ((n - 192) * 64 + x) :: code_points r1
              else
                match r1 with
                | String c r2 =>
                    match continuation c with
                    | Some y =>
                        let three := ((n - 224) * 64 + x) * 64 + y in
                        if (224 <=? n) && (n <? 240) && (2048 <=? three)
                           && negb ((55296 <=? three) && (three <? 57344))
                        then three :: code_points r2
                        else
                          match r2 with
                          | String d r3 =>
                              match continuation d with
                              | Some z =>
                                  let four := (((n - 240) * 64 + x) * 64 + y) * 64 + z in
                                  if (240 <=? n) && (n <? 245) && (65536 <=? four)
                                     && (four <? 1114112)
                                  then four :: code_points r3
                                  else one tt
                              | None => one tt
                              end
                          | EmptyString => one tt
                          end
                    | None => one tt
                    end
                | EmptyString => one tt
                end
          | None => one tt
          end
      | EmptyString => one tt
      end
  end.

Definition byte (n : Z) : ascii := ascii_of_nat (Z.to_nat n).

(** the UTF-8 bytes of a code point *)
Definition utf8 (cp : Z) : list ascii :=
  if cp <? 128 then [byte cp]
  else if (56448 <=? cp) && (cp <? 56576) then [byte (cp - 56320)]
  else if cp <? 2048 then [byte (192 + cp / 64); byte (128 + cp mod 64)]
  else if cp <? 65536 then
    [byte (224 + cp / 4096); byte (128 + (cp / 64) mod 64); byte (128 + cp mod 64)]
  else
    [byte (240 + cp / 262144); byte (128 + (cp / 4096) mod 64);
     byte (128 + (cp / 64) mod 64); byte (128 + cp mod 64)].

Definition of_code_points (l : list Z) : string :=
  string_of_list_ascii (flat_map utf8 l).

(** The decimal digit characters (category Nd) of Unicode 14.0, the version
    CPython 3.11 carries: each entry is the digit zero of a script, the first
    of ten consecutive code points. *)
Definition DECIMAL_ZEROS : list Z :=
  [ 48; 1632; 1776; 1984; 2406; 2534; 2662; 2790; 2918; 3046; 3174; 3302; 3430; 3558;
    3664; 3792; 3872; 4160; 4240; 6112; 6160; 6470; 6608; 6784; 6800; 6992; 7088; 7232;
    7248; 42528; 43216; 43264; 43472; 43504; 43600; 44016; 65296; 66720; 68912; 69734;
    69872; 69942; 70096; 70384; 70736; 70864; 71248; 71360; 71472; 71904; 72016; 72784;
    73040; 73120; 92768; 92864; 93008; 120782; 120792; 120802; 120812; 120822; 123200;
    123632; 125264; 130032 ].

(** [unicodedata.decimal]: the value of a decimal digit character *)
Definition decimal (cp : Z) : option Z :=
  match find (fun z => (z <=? cp) && (cp <=? z + 9)) DECIMAL_ZEROS with
  | Some z => Some (cp - z)
  | None => None
  end.

(** [\d] of a [str] pattern *)
Definition is_decimal (cp : Z) : bool :=
  match decimal cp with Some _ => true | None => false end.

(** the characters for which [str.isspace] holds *)
Definition WHITE_SPACE : list Z :=
  [ 9; 10; 11; 12; 13; 28; 29; 30; 31; 32; 133; 160; 5760; 8192; 8193; 8194; 8195;
    8196; 8197; 8198; 8199; 8200; 8201; 8202; 8232; 8233; 8239; 8287; 12288 ].

(** [\s] of a [str] pattern, and the characters [str.strip] removes *)
Definition is_space (cp : Z) : bool := existsb (Z.eqb cp) WHITE_SPACE.

(** [sys.int_info.default_max_str_digits] *)
Definition MAX_STR_DIGITS : nat := 4300.

(** [int(s)] for a run of decimal digit characters: a run of more than 4300
    characters is refused *)
Definition int (ds : list Z) : result Z :=
  if (MAX_STR_DIGITS <? List.length ds)%nat then Raise ValueError
  else Ok (fold_left (fun acc c => 10 * acc + match decimal c with
                                              | Some v => v
                                              | None => 0
                                              end) ds 0).

(** the characters after [p] when [l] starts with [p] *)
Fixpoint after (p l : list Z) : option (list Z) :=
  match p, l with
  | [], _ => Some l
  | a :: p', b :: l' => if a =? b then after p' l' else None
  | _ :: _, [] => None
  end.

Definition starts (l : list Z) (p : string) : bool :=
  match after (code_points p) l with Some _ => true | None => false end.

(** the longest run of characters satisfying [p] at the head of [l], and
    the rest *)
Fixpoint run (p : Z -> bool) (l : list Z) : list Z * list Z :=
  match l with
  | [] => ([], [])
  | c :: l' =>
      if p c then let (a, b) := run p l' in (c :: a, b)
      else ([], l)
  end.

(** exactly [n] characters satisfying [p], and the rest *)
Fixpoint exactly (p : Z -> bool) (n : nat) (l : list Z) : option (list Z * list Z) :=
  match n with
  | O => Some ([], l)
  | S n' =>
      match l with
      | c :: l' =>
          if p c then
            match exactly p n' l' with
            | Some (a, b) => Some (c :: a, b)
            | None => None
            end
          else None
      | [] => None
      end
  end.

(** [re.search]: the match at the leftmost position where [m] matches *)
Fixpoint search {A} (m : list Z -> option A) (l : list Z) : option A :=
  match m l with
  | Some x => Some x
  | None =>
      match l with
      | [] => None
      | _ :: l' => search m l'
      end
  end.

Fixpoint lstrip (l : list Z) : list Z :=
  match l with
  | c :: l' => if is_space c then lstrip l' else l
  | [] => []
  end.

(** [str.strip] *)
Definition strip (s : string) : string :=
  of_code_points (rev (lstrip (rev (lstrip (code_points s))))).

End Text.

(** ** Python values *)

#[local] Unset Elimination Schemes.
Inductive pyfloat : Type :=
| Finite (q : Q)
| NaN
| Infinity (negative : bool).

Inductive pyval : Type :=
| PNone
| PBool (b : bool)
| PInt (n : Z)
| PFloat (x : pyfloat)
| PStr (s : string)
| PList (l : list pyval)
| PDict (d : list (string * pyval)).
#[local] Set Elimination Schemes.

(** a dict with string keys, in insertion order *)
Definition dict : Type := list (string * pyval).

Fixpoint dict_get (d : dict) (k : string) : option pyval :=
  match d with
  | [] => None
  | (k', v) :: d' => if String.eqb k' k then Some v else dict_get d' k
  end.

(** [d[k] = v]: overwrite in place, or append a new key *)
Fixpoint dict_set (d : dict) (k : string) (v : pyval) : dict :=
  match d with
  | [] => [(k, v)]
  | (k', v') :: d' =>
      if String.eqb k' k then (k', v) :: d' else (k', v') :: dict_set d' k v
  end.

(** [d.get(k, default)] *)
Definition dict_get_default (d : dict) (k : string) (default : pyval) : pyval :=
  match dict_get d k with
  | Some v => v
  | None => default
  end.

(** [d[k]] *)
Definition dict_index (d : dict) (k : string) : result pyval :=
  match dict_get d k with
  | Some v => Ok v
  | None => Raise KeyError
  end.

(** [bool(v)] *)
Definition truthy (v : pyval) : bool :=
  match v with
  | PNone => false
  | PBool b => b
  | PInt n => negb (n =? 0)
  | PFloat (Finite q) => negb (Qeq_bool q 0)
  | PFloat _ => true
  | PStr s => negb (String.eqb s "")
  | PList l => match l with [] => false | _ => true end
  | PDict d => match d with [] => false | _ => true end
  end.

(** [v == s] for a string literal [s] *)
Definition is_str (v : pyval) (s : string) : bool :=
  match v with
  | PStr t => String.eqb t s
  | _ => false
  end.

(** ** chat/views.py: the heuristic parser *)

(** Region presets, in the order of the dict literal. *)
Definition REGION_PRESETS : list (string * list Z) :=
  [ ("pacific",      [-180; 180; -60; 60]);
    ("indian ocean", [20; 120; -40; 30]);
    ("near india",   [68; 98; 6; 30]);
    ("arabian sea",  [52; 68; 5; 24]) ].

(** [r"last (\d+) (year|years|month|months)"] matched at the start of [s]:
    groups 1 and 2.  The alternatives are tried in the order written. *)
Definition match_relative (s : list Z) : option (list Z * string) :=
  match Text.after (Text.code_points "last ") s with
  | None => None
  | Some r =>
      let (ds, r1) := Text.run Text.is_decimal r in
      match ds, r1 with
      | _ :: _, 32 :: r2 =>
          match find (Text.starts r2) ["year"; "years"; "month"; "months"] with
          | Some u => Some (ds, u)
          | None => None
          end
      | _, _ => None
      end
  end.

(** the characters of the class [[-to]] *)
Definition in_dash_t_o (c : Z) : bool :=
  (c =? 45) || (c =? 116) || (c =? 111).

(** [r"(\d{4})\s*[-to]+\s*(\d{4})"] matched at the start of [s]: groups 1 and 2.
    The three classes are pairwise disjoint, so the greedy runs are the only
    way to match. *)
Definition match_absolute (s : list Z) : option (list Z * list Z) :=
  match Text.exactly Text.is_decimal 4 s with
  | None => None
  | Some (y1, r) =>
      let (_, r1) := Text.run Text.is_space r in
      let (sep, r2) := Text.run in_dash_t_o r1 in
      match sep with
      | [] => None
      | _ :: _ =>
          let (_, r3) := Text.run Text.is_space r2 in
          match Text.exactly Text.is_decimal 4 r3 with
          | Some (y2, _) => Some (y1, y2)
          | None => None
          end
      end
  end.

(** The parser raises where [int] refuses the digits of the count (line 60);
    four digits are never refused. *)
Definition parse_query_offline (q : string) : result dict :=
  let ql := Text.lower q in
  let params : dict :=
    [ ("variables", PList [PStr "temperature"]);
      ("region", PStr "pacific");
      ("years", PInt 5);
      ("query_type", PStr "trend") ] in
  (* variable detection *)
  let params :=
    if Text.contains "salin" ql
    then dict_set params "variables" (PList [PStr "salinity"]) else params in
  let params :=
    if Text.contains "current" ql
    then dict_set params "variables" (PList [PStr "current"]) else params in
  let params :=
    if Text.contains "compare" ql
       || (Text.contains "temperature" ql && Text.contains "salinity" ql)
    then dict_set (dict_set params "variables" (PList [PStr "temperature"; PStr "salinity"]))
                  "query_type" (PStr "comparison")
    else params in
  (* region *)
  let params :=
    match find (fun name => Text.contains name ql) (map fst REGION_PRESETS) with
    | Some name => dict_set params "region" (PStr name)
    | None => params
    end in
  (* query type *)
  let params :=
    if Text.contains "map" ql || Text.contains "location" ql
    then dict_set params "query_type" (PStr "map")
    else if Text.contains "summary" ql || Text.contains "average" ql
    then dict_set params "query_type" (PStr "summary")
    else params in
  (* time horizon *)
  match Text.search match_relative (Text.code_points ql) with
  | Some (num, unit) =>
      n <- Text.int num ;;
      Ok (dict_set (dict_set params "period_num" (PInt n)) "period_unit" (PStr unit))
  | None =>
      match Text.search match_absolute (Text.code_points ql) with
      | Some (y1, y2) =>
          a <- Text.int y1 ;;
          b <- Text.int y2 ;;
          Ok (dict_set (dict_set params "start_year" (PInt a)) "end_year" (PInt b))
      | None => Ok params
      end
  end.


(** ** [json.loads]

    The standard library's JSON decoder, on the text the oracle returned.
    [None] stands for [json.JSONDecodeError]. *)

Module Json.

(** [WHITESPACE]: space, tab, line feed, carriage return *)
Definition is_ws (c : ascii) : bool :=
  let n := nat_of_ascii c in
  (n =? 32)%nat || (n =? 9)%nat || (n =? 10)%nat || (n =? 13)%nat.

Fixpoint skip_ws (s : string) : string :=
  match s with
  | String c s' => if is_ws c then skip_ws s' else s
  | EmptyString => EmptyString
  end.

Definition hex_val (c : ascii) : option Z :=
  let n := Z.of_nat (nat_of_ascii c) in
  if (48 <=? n) && (n <=? 57) then Some (n - 48)
  else if (97 <=? n) && (n <=? 102) then Some (n - 87)
  else if (65 <=? n) && (n <=? 70) then Some (n - 55)
  else None.

Definition hex4 (a b c d : ascii) : option Z :=
  match hex_val a, hex_val b, hex_val c, hex_val d with
  | Some x, Some y, Some z, Some w => Some (((x * 16 + y) * 16 + z) * 16 + w)
  | _, _, _, _ => None
  end.

(** what a string literal is made of: a character of the text, or the
    16-bit unit of a [\uXXXX] escape *)
Inductive unit16 : Type :=
| Chr (c : ascii)
| U16 (u : Z).

(** the body of a string literal, after the opening quote, which is the
    character of code 34 (strict mode:
    no control character, only the escapes of the grammar) *)
Fixpoint scan_string (s : string) : option (list unit16 * string) :=
  match s with
  | EmptyString => None
  | String "034" r => Some ([], r)
  | String "\" (String "u" (String a (String b (String c (String d r))))) =>
      match hex4 a b c d, scan_string r with
      | Some u, Some (us, r') => Some (U16 u :: us, r')
      | _, _ => None
      end
  | String "\" (String e r) =>
      let esc :=
        if Ascii.eqb e "034" then Some "034"%char
        else if Ascii.eqb e "\" then Some "\"%char
        else if Ascii.eqb e "/" then Some "/"%char
        else if Ascii.eqb e "b" then Some (ascii_of_nat 8)
        else if Ascii.eqb e "f" then Some (ascii_of_nat 12)
        else if Ascii.eqb e "n" then Some (ascii_of_nat 10)
        else if Ascii.eqb e "r" then Some (ascii_of_nat 13)
        else if Ascii.eqb e "t" then Some (ascii_of_nat 9)
        else None in
      match esc, scan_string r with
      | Some c, Some (us, r') => Some (Chr c :: us, r')
      | _, _ => None
      end
  | String "\" EmptyString => None
  | String c r =>
      if (nat_of_ascii c <? 32)%nat then None
      else
        match scan_string r with
        | Some (us, r') => Some (Chr c :: us, r')
        | None => None
        end
  end.

Definition byte (n : Z) : ascii := ascii_of_nat (Z.to_nat n).

(** UTF-8 of a code point *)
Definition utf8 (cp : Z) : list ascii :=
  if cp <? 128 then [byte cp]
  else if cp <? 2048 then [byte (192 + cp / 64); byte (128 + cp mod 64)]
  else if cp <? 65536 then
    [byte (224 + cp / 4096); byte (128 + (cp / 64) mod 64); byte (128 + cp mod 64)]
  else
    [byte (240 + cp / 262144); byte (128 + (cp / 4096) mod 64);
     byte (128 + (cp / 64) mod 64); byte (128 + cp mod 64)].

Definition is_high (u : Z) : bool := (55296 <=? u) && (u <=? 56319).
Definition is_low (u : Z) : bool := (56320 <=? u) && (u <=? 57343).

(** a high surrogate directly followed by a low one is one code point *)
Fixpoint decode_units (us : list unit16) : list ascii :=
  match us with
  | [] => []
  | Chr c :: r => c :: decode_units r
  | U16 h :: r =>
      match r with
      | U16 l :: r' =>
          if is_high h && is_low l
          then utf8 (65536 + (h - 55296) * 1024 + (l - 56320)) ++ decode_units r'
          else utf8 h ++ decode_units r
      | _ => utf8 h ++ decode_units r
      end
  end.

Definition parse_string (s : string) : option (string * string) :=
  match scan_string s with
  | Some (us, r) => Some (string_of_list_ascii (decode_units us), r)
  | None => None
  end.

(** [NUMBER_RE] at the start of [s]: an optional minus sign, then [0] or a
    digit run without leading zero, then an optional fraction (a dot and
    digits) and an optional exponent ([e] or [E], an optional sign, digits).
    An integer literal is an [int] (refused, as by [int], when it has more
    than 4300 digits), any other a [float]. *)
Definition parse_number (s : string) : option (pyval * string) :=
  let (neg, s1) :=
    match s with
    | String "-" r => (true, r)
    | _ => (false, s)
    end in
  let int_part :=
    match s1 with
    | String "0" r => Some ("0", r)
    | String c _ =>
        if Text.is_digit c then Some (Text.span Text.is_digit s1) else None
    | EmptyString => None
    end in
  match int_part with
  | None => None
  | Some (ds, s2) =>
      let (frac, s3) :=
        match s2 with
        | String "." r =>
            match Text.span Text.is_digit r with
            | (String c f, r') => (Some (String c f), r')
            | _ => (None, s2)
            end
        | _ => (None, s2)
        end in
      let (ex, s4) :=
        match s3 with
        | String e r =>
            if Ascii.eqb e "e" || Ascii.eqb e "E" then
              let (eneg, r1) :=
                match r with
                | String "-" r' => (true, r')
                | String "+" r' => (false, r')
                | _ => (false, r)
                end in
              match Text.span Text.is_digit r1 with
              | (String c f, r') =>
                  let v := Text.int_of_digits (String c f) in
                  (Some (if eneg then - v else v), r')
              | _ => (None, s3)
              end
            else (None, s3)
        | EmptyString => (None, s3)
        end in
      let sign (z : Z) := if neg then - z else z in
      match frac, ex with
      | None, None =>
          if (Text.MAX_STR_DIGITS <? String.length ds)%nat then None
          else Some (PInt (sign (Text.int_of_digits ds)), s4)
      | _, _ =>
          let f := match frac with Some f => f | None => "" end in
          let e := match ex with Some e => e | None => 0 end in
          let mant := sign (Text.int_of_digits (ds ++ f)) in
          let q := ((mant # 1) * Qpower (10 # 1) (e - Z.of_nat (String.length f)))%Q in
          Some (PFloat (Finite q), s4)
      end
  end.

(** [dict(pairs)]: a repeated key keeps its first position and its last value *)
Definition dict_of_pairs (pairs : list (string * pyval)) : dict :=
  fold_left (fun d kv => dict_set d (fst kv) (snd kv)) pairs [].

(** [scan_once] with its array and object loops; [fuel] bounds the nesting.
    [parse_elements] and [parse_members] start after the opening bracket and
    the white space that follows it or a comma. *)
Fixpoint parse_value (fuel : nat) (s : string) : option (pyval * string) :=
  match fuel with
  | O => None
  | S fuel' =>
      match s with
      | String "034" r =>
          match parse_string r with
          | Some (t, r') => Some (PStr t, r')
          | None => None
          end
      | String "{" r =>
          match Text.strip_prefix "}" (skip_ws r) with
          | Some r' => Some (PDict [], r')
          | None =>
              match parse_members fuel' (skip_ws r) with
              | Some (pairs, r'') => Some (PDict (dict_of_pairs pairs), r'')
              | None => None
              end
          end
      | String "[" r =>
          match Text.strip_prefix "]" (skip_ws r) with
          | Some r' => Some (PList [], r')
          | None =>
              match parse_elements fuel' (skip_ws r) with
              | Some (vs, r'') => Some (PList vs, r'')
              | None => None
              end
          end
      | _ =>
          match Text.strip_prefix "null" s, Text.strip_prefix "true" s,
                Text.strip_prefix "false" s, Text.strip_prefix "NaN" s,
                Text.strip_prefix "Infinity" s, Text.strip_prefix "-Infinity" s with
          | Some r, _, _, _, _, _ => Some (PNone, r)
          | _, Some r, _, _, _, _ => Some (PBool true, r)
          | _, _, Some r, _, _, _ => Some (PBool false, r)
          | _, _, _, Some r, _, _ => Some (PFloat NaN, r)
          | _, _, _, _, Some r, _ => Some (PFloat (Infinity false), r)
          | _, _, _, _, _, Some r => Some (PFloat (Infinity true), r)
          | _, _, _, _, _, _ => parse_number s
          end
      end
  end
with parse_elements (fuel : nat) (s : string) : option (list pyval * string) :=
  match fuel with
  | O => None
  | S fuel' =>
      match parse_value fuel' s with
      | None => None
      | Some (v, r) =>
          match skip_ws r with
          | String "]" r' => Some ([v], r')
          | String "," r' =>
              match parse_elements fuel' (skip_ws r') with
              | Some (vs, r'') => Some (v :: vs, r'')
              | None => None
              end
          | _ => None
          end
      end
  end
with parse_members (fuel : nat) (s : string) : option (list (string * pyval) * string) :=
  match fuel with
  | O => None
  | S fuel' =>
      match s with
      | String "034" r =>
          match parse_string r with
          | None => None
          | Some (k, r1) =>
              match skip_ws r1 with
              | String ":" r2 =>
                  match parse_value fuel' (skip_ws r2) with
                  | None => None
                  | Some (v, r3) =>
                      match skip_ws r3 with
                      | String "}" r4 => Some ([(k, v)], r4)
                      | String "," r4 =>
                          match parse_members fuel' (skip_ws r4) with
                          | Some (kvs, r5) => Some ((k, v) :: kvs, r5)
                          | None => None
                          end
                      | _ => None
                      end
                  end
              | _ => None
              end
          end
      | _ => None
      end
  end.

(** [json.loads(s)]: one value, white space around it, nothing else *)
Definition loads (s : string) : option pyval :=
  match parse_value (2 * String.length s + 2) (skip_ws s) with
  | Some (v, r) =>
      match skip_ws r with
      | EmptyString => Some v
      | String _ _ => None
      end
  | None => None
  end.

End Json.

(** ** chat/views.py: the oracle parser and query interpretation *)

(** The [openai] module as [chat/views.py] sees it: [None] when the import
    failed, otherwise what [openai.Completion.create(...).choices[0].text]
    yields for a prompt (a text, or an exception). *)
Definition oracle : Type := option (string -> result string).

Definition prompt_of (q : string) : string :=
  "Parse this ocean query into JSON object with keys: variables, region, "
  ++ "query_type, period_num, period_unit, start_year, end_year. Query: " ++ q.

Fixpoint from_first_open (s : string) : option string :=
  match s with
  | EmptyString => None
  | String c r => if Ascii.eqb c "{" then Some s else from_first_open r
  end.

(** the longest prefix of [s] that ends with a closing brace *)
Fixpoint upto_last_close (s : string) : option string :=
  match s with
  | EmptyString => None
  | String c r =>
      match upto_last_close r with
      | Some t => Some (String c t)
      | None => if Ascii.eqb c "}" then Some (String c EmptyString) else None
      end
  end.

(** [re.search(r"\{.*\}", txt, re.S)]: from the first opening brace to the
    last closing brace after it *)
Definition search_braces (txt : string) : option string :=
  match from_first_open txt with
  | Some s => upto_last_close s
  | None => None
  end.

(** The returned value is [PNone] for Python's [None]. *)
Definition parse_query_with_openai (o : oracle) (q : string) : pyval :=
  match o with
  | None => PNone
  | Some complete =>
      match complete (prompt_of q) with
      | Raise _ => PNone
      | Ok text =>
          let txt := Text.strip text in
          match search_braces txt with
          | Some m =>
              match Json.loads m with
              | Some j => j
              | None => PNone
              end
          | None => PNone
          end
      end
  end.

(** [parse_query_with_openai(user_query) or parse_query_offline(user_query)] *)
Definition interpret (o : oracle) (q : string) : result pyval :=
  let j := parse_query_with_openai o q in
  if truthy j then Ok j
  else params <- parse_query_offline q ;; Ok (PDict params).

(** ** Tables *)

(** A cell of a pandas frame: missing ([NaN], [None], [NaT]), a number, a
    text, or a timestamp. *)
Inductive cell : Type :=
| Null
| Num (q : Q)
| Text (s : string)
| Stamp (t : Z).

Definition row : Type := list cell.

(** A frame: its column labels and its rows, a row holding one cell per
    column, in the order of the labels. *)
Record DataFrame : Type := mkFrame {
  columns : list string;
  rows : list row;
  (** whether the timestamps of the table carry a time zone: its datetime
      columns have the dtype [datetime64[ns, tz]] and its date texts name
      their offset.  pandas keeps this with the column, whatever rows are
      kept; [read_csv] gives a zone-less column for times written without
      an offset. *)
  zoned : bool
}.

(** [pd.DataFrame()] *)
Definition empty_frame : DataFrame := mkFrame [] [] false.

(** [df.empty]: no row or no column *)
Definition df_empty (df : DataFrame) : bool :=
  match columns df, rows df with
  | [], _ => true
  | _, [] => true
  | _, _ => false
  end.

(** [len(df)] *)
Definition len (df : DataFrame) : nat := List.length (rows df).

Fixpoint index_of (name : string) (cols : list string) : option nat :=
  match cols with
  | [] => None
  | c :: cols' =>
      if String.eqb c name then Some O
      else match index_of name cols' with
           | Some i => Some (S i)
           | None => None
           end
  end.

(** [name in df.columns] *)
Definition has_column (df : DataFrame) (name : string) : bool :=
  match index_of name (columns df) with
  | Some _ => true
  | None => false
  end.

Definition cell_at (i : nat) (r : row) : cell := nth i r Null.

(** [row[name]] for a label known to be a column, [Null] otherwise *)
Definition row_get (cols : list string) (r : row) (name : string) : cell :=
  match index_of name cols with
  | Some i => cell_at i r
  | None => Null
  end.

(** [df[name]] *)
Definition column (df : DataFrame) (name : string) : result (list cell) :=
  match index_of name (columns df) with
  | Some i => Ok (map (cell_at i) (rows df))
  | None => Raise KeyError
  end.

Fixpoint replace_nth (i : nat) (r : row) (v : cell) : row :=
  match i, r with
  | _, [] => []
  | O, _ :: r' => v :: r'
  | S i', c :: r' => c :: replace_nth i' r' v
  end.

(** [df[name] = vals]: overwrite the column, or add it as the last one *)
Definition assign (df : DataFrame) (name : string) (vals : list cell) : DataFrame :=
  match index_of name (columns df) with
  | Some i =>
      mkFrame (columns df)
              (map (fun rv => replace_nth i (fst rv) (snd rv)) (combine (rows df) vals))
              (zoned df)
  | None =>
      mkFrame (columns df ++ [name])%list
              (map (fun rv => (fst rv ++ [snd rv])%list) (combine (rows df) vals))
              (zoned df)
  end.

(** [df[mask]] *)
Fixpoint select_rows (rs : list row) (mask : list bool) : list row :=
  match rs, mask with
  | r :: rs', b :: mask' => if b then r :: select_rows rs' mask' else select_rows rs' mask'
  | _, _ => []
  end.

Definition df_filter (df : DataFrame) (mask : list bool) : DataFrame :=
  mkFrame (columns df) (select_rows (rows df) mask) (zoned df).

(** [df.rename(columns=m)] *)
Definition rename (df : DataFrame) (m : list (string * string)) : DataFrame :=
  mkFrame
    (map (fun c => match find (fun kv => String.eqb (fst kv) c) m with
                   | Some kv => snd kv
                   | None => c
                   end) (columns df))
    (rows df) (zoned df).

(** [df[keep]] for labels that are columns of [df] *)
Definition project (df : DataFrame) (keep : list string) : DataFrame :=
  mkFrame keep (map (fun r => map (row_get (columns df) r) keep) (rows df)) (zoned df).

Definition notna (c : cell) : bool :=
  match c with
  | Null => false
  | _ => true
  end.

(** [df.dropna(subset=names)] *)
Definition dropna (df : DataFrame) (names : list string) : result DataFrame :=
  if forallb (has_column df) names
  then Ok (mkFrame (columns df)
             (filter (fun r => forallb (fun n => notna (row_get (columns df) r n)) names)
                     (rows df))
             (zoned df))
  else Raise KeyError.

(** [df.reset_index()]: the old index becomes the first column *)
Definition reset_index (df : DataFrame) : DataFrame :=
  mkFrame ("index" :: columns df)
          (map (fun ir => Num (inject_Z (Z.of_nat (fst ir))) :: snd ir)
               (combine (seq 0 (List.length (rows df))) (rows df)))
          (zoned df).

(** ** Calendar arithmetic of [pd.DateOffset] *)

Module Calendar.

Definition NS_PER_DAY : Z := 86400 * 1000000000.

Definition TS_MAX : Z := 9223372036854775807.

Definition is_leap (y : Z) : bool :=
  ((y mod 4 =? 0) && negb (y mod 100 =? 0)) || (y mod 400 =? 0).

Definition days_in_month (y m : Z) : Z :=
  if m =? 2 then (if is_leap y then 29 else 28)
  else if (m =? 4) || (m =? 6) || (m =? 9) || (m =? 11) then 30
  else 31.

(** days since 1970-01-01 of a proleptic Gregorian date *)
Definition days_from_civil (y m d : Z) : Z :=
  let y' := if m <=? 2 then y - 1 else y in
  let era := y' / 400 in
  let yoe := y' - era * 400 in
  let mp := if 2 <? m then m - 3 else m + 9 in
  let doy := (153 * mp + 2) / 5 + d - 1 in
  let doe := yoe * 365 + yoe / 4 - yoe / 100 + doy in
  era * 146097 + doe - 719468.

Definition civil_from_days (z : Z) : Z * Z * Z :=
  let z := z + 719468 in
  let era := z / 146097 in
  let doe := z - era * 146097 in
  let yoe := (doe - doe / 1460 + doe / 36524 - doe / 146096) / 365 in
  let doy := doe - (365 * yoe + yoe / 4 - yoe / 100) in
  let mp := (5 * doy + 2) / 153 in
  let d := doy - (153 * mp + 2) / 5 + 1 in
  let m := if mp <? 10 then mp + 3 else mp - 9 in
  let y := yoe + era * 400 in
  (if m <=? 2 then y + 1 else y, m, d).

(** the same time of day on the date [months] months earlier, the day
    clipped to the end of the month; out of pandas' range it raises *)
Definition minus_months (ts months : Z) : result Z :=
  let '(y, m, d) := civil_from_days (ts / NS_PER_DAY) in
  let total := y * 12 + (m - 1) - months in
  let y2 := total / 12 in
  let m2 := total mod 12 + 1 in
  let d2 := Z.min d (days_in_month y2 m2) in
  let r := days_from_civil y2 m2 d2 * NS_PER_DAY + ts mod NS_PER_DAY in
  if (- TS_MAX <=? r) && (r <=? TS_MAX) then Ok r else Raise OutOfBoundsDatetime.

(** [ts - pd.DateOffset(years=n)] and [ts - pd.DateOffset(months=n)] *)
Definition minus_offset (ts : Z) (in_years : bool) (n : Z) : result Z :=
  minus_months ts (if in_years then 12 * n else n).

End Calendar.

(** ** Floats that need not be finite *)

Definition pf_add (x y : pyfloat) : pyfloat :=
  match x, y with
  | NaN, _ | _, NaN => NaN
  | Finite a, Finite b => Finite (a + b)%Q
  | Infinity s, Finite _ | Finite _, Infinity s => Infinity s
  | Infinity s, Infinity t => if Bool.eqb s t then Infinity s else NaN
  end.

(** [sum(l)] *)
Definition pf_sum (l : list pyfloat) : pyfloat := fold_left pf_add l (Finite 0).

(** [x / n] for a length [n] *)
Definition py_div (x : pyfloat) (n : nat) : result pyfloat :=
  match n with
  | O => Raise ZeroDivisionError
  | S _ =>
      match x with
      | Finite a => Ok (Finite (a / inject_Z (Z.of_nat n))%Q)
      | other => Ok other
      end
  end.

(** ** The clock and the files a request can see *)

Record world : Type := mkWorld {
  (** the successive readings of [pd.Timestamp.utcnow()] *)
  clock : nat -> Z;
  (** [HAS_ARGOPY], and what
      [ArgoDataFetcher().region([...]).to_xarray().to_dataframe().reset_index()]
      yields for a box, a first day and a last day *)
  argopy : option (Q * Q * Q * Q -> Z -> Z -> result DataFrame);
  (** [demo_data/argo_sample.csv]: absent, or what
      [pd.read_csv(demo, parse_dates=["time"])] yields *)
  demo_file : option (result DataFrame)
}.

(** A computation that reads the clock: the number of readings made so far
    goes in and comes out, also when an exception leaves the computation. *)
Definition M (A : Type) : Type := nat -> result A * nat.

Definition ret {A} (a : A) : M A := fun n => (Ok a, n).

Definition lift {A} (r : result A) : M A := fun n => (r, n).

Definition bindM {A B} (m : M A) (k : A -> M B) : M B :=
  fun n =>
    match m n with
    | (Ok a, n') => k a n'
    | (Raise e, n') => (Raise e, n')
    end.

Notation "x <~ m ;; k" := (bindM m (fun x => k))
  (at level 61, m at next level, right associativity).

(** [try: m except Exception: h] *)
Definition try_M {A} (m h : M A) : M A :=
  fun n =>
    match m n with
    | (Ok a, n') => (Ok a, n')
    | (Raise _, n') => h n'
    end.

Definition utcnow (w : world) : M Z := fun n => (Ok (clock w n), S n).

Section Pandas.

(** What the libraries make of a text: [float(s)] ([None]: [ValueError]),
    and [pd.to_datetime] of a text or of a number ([None]: it cannot be
    read as a timestamp). *)
Variable float_of_str : string -> option pyfloat.
Variable datetime_of_str : string -> option Z.
Variable datetime_of_num : Q -> option Z.

(** [float(c)] *)
Definition py_float (c : cell) : result pyfloat :=
  match c with
  | Null => Ok NaN
  | Num q => Ok (Finite q)
  | Text s =>
      match float_of_str s with
      | Some x => Ok x
      | None => Raise ValueError
      end
  | Stamp _ => Raise TypeError
  end.

(** [pd.to_datetime(c)] *)
Definition to_datetime (c : cell) : result cell :=
  match c with
  | Null => Ok Null
  | Stamp t => Ok (Stamp t)
  | Text s =>
      match datetime_of_str s with
      | Some t => Ok (Stamp t)
      | None => Raise ValueError
      end
  | Num q =>
      match datetime_of_num q with
      | Some t => Ok (Stamp t)
      | None => Raise OutOfBoundsDatetime
      end
  end.

(** [pd.to_datetime(c, errors="coerce")] *)
Definition to_datetime_coerce (c : cell) : cell :=
  match to_datetime c with
  | Ok c' => c'
  | Raise _ => Null
  end.

(** ** argo/utils.py *)

(** [c >= x] and [c <= x] for a cell of a column and a number *)
Definition cell_ge (x : Q) (c : cell) : result bool :=
  match c with
  | Num q => Ok (Qle_bool x q)
  | Null => Ok false
  | Text _ | Stamp _ => Raise TypeError
  end.

Definition cell_le (x : Q) (c : cell) : result bool :=
  match c with
  | Num q => Ok (Qle_bool q x)
  | Null => Ok false
  | Text _ | Stamp _ => Raise TypeError
  end.

Fixpoint and_masks (a b : list bool) : list bool :=
  match a, b with
  | x :: a', y :: b' => (x && y) :: and_masks a' b'
  | _, _ => []
  end.

(** line 15: the box filter *)
Definition filter_bbox (df : DataFrame) (b : Q * Q * Q * Q) : result DataFrame :=
  let '(lon_min, lon_max, lat_min, lat_max) := b in
  lons <- column df "lon" ;;
  m1 <- mapM (cell_ge lon_min) lons ;;
  lons' <- column df "lon" ;;
  m2 <- mapM (cell_le lon_max) lons' ;;
  lats <- column df "lat" ;;
  m3 <- mapM (cell_ge lat_min) lats ;;
  lats' <- column df "lat" ;;
  m4 <- mapM (cell_le lat_max) lats' ;;
  Ok (df_filter df (and_masks (and_masks (and_masks m1 m2) m3) m4)).

(** [period_unit.startswith("year")] *)
Definition startswith_year (period_unit : pyval) : result bool :=
  match period_unit with
  | PStr s => Ok (Text.startswith s "year")
  | _ => Raise AttributeError
  end.

(** the count a [pd.DateOffset(years=n)] or [(months=n)] accepts *)
Definition offset_count (period_num : pyval) : result Z :=
  match period_num with
  | PInt n => Ok n
  | PBool b => Ok (if b then 1 else 0)
  | PFloat (Finite q) =>
      if Qeq_bool q (inject_Z (Qfloor q)) then Ok (Qfloor q) else Raise ValueError
  | PFloat _ => Raise ValueError
  | PStr _ => Raise ValueError
  | PNone | PList _ | PDict _ => Raise TypeError
  end.

(** [start], lines 19-22 *)
Definition window_start (now : Z) (period_num period_unit : pyval) : result Z :=
  in_years <- startswith_year period_unit ;;
  n <- offset_count period_num ;;
  Calendar.minus_offset now in_years n.

(** [c >= start] for a cell of the converted time column *)
Definition not_before (start : Z) (c : cell) : bool :=
  match c with
  | Stamp t => start <=? t
  | _ => false
  end.

(** whether [pd.to_datetime] of a column of the table carries a time zone;
    numbers convert to zone-less timestamps *)
Definition zoned_times (df : DataFrame) (times : list cell) : bool :=
  zoned df && forallb (fun c => match c with Num _ => false | _ => true end) times.

(** lines 18-24: the relative time window, [now] being the clock reading of
    line 17.  [start] carries the time zone of [utcnow()]: pandas refuses
    to compare a zone-less column with it. *)
Definition filter_time (now : Z) (df : DataFrame) (period_num period_unit : pyval)
  : result DataFrame :=
  if truthy period_unit && truthy period_num then
    start <- window_start now period_num period_unit ;;
    if has_column df "time" then
      times <- column df "time" ;;
      ts <- mapM to_datetime times ;;
      if zoned_times df times
      then Ok (df_filter df (map (not_before start) ts))
      else Raise TypeError
    else Ok df
  else Ok df.

Definition _filter_by_bbox_and_time (w : world) (df : DataFrame) (b : Q * Q * Q * Q)
    (period_num period_unit : pyval) : M DataFrame :=
  df1 <~ lift (filter_bbox df b) ;;
  now <~ utcnow w ;;
  lift (filter_time now df1 period_num period_unit).

(** a number of the [bbox] list *)
Definition bound_of (v : pyval) : result Q :=
  match v with
  | PInt n => Ok (inject_Z n)
  | PFloat (Finite q) => Ok q
  | _ => Raise TypeError
  end.

(** the four numbers of [bbox] *)
Definition bbox_of (v : pyval) : result (Q * Q * Q * Q) :=
  match v with
  | PList [a; b; c; d] =>
      a' <- bound_of a ;; b' <- bound_of b ;; c' <- bound_of c ;; d' <- bound_of d ;;
      Ok (a', b', c', d')
  | _ => Raise ValueError
  end.

(** [df[dst] = df[src]] when [cond] holds *)
Definition copy_column_if (cond : bool) (df : DataFrame) (dst src : string) : DataFrame :=
  if cond then
    match column df src with
    | Ok vals => assign df dst vals
    | Raise _ => df
    end
  else df.

(** [isinstance(v, int)] *)
Definition is_int (v : pyval) : bool :=
  match v with
  | PInt _ | PBool _ => true
  | _ => false
  end.

(** lines 55-72: the live frame brought to the canonical labels *)
Definition normalize_live (df : DataFrame) : result DataFrame :=
  let rename_map :=
    ((if has_column df "TEMP" then [("TEMP", "temperature")] else [])
     ++ (if has_column df "PSAL" then [("PSAL", "salinity")] else []))%list in
  let df := rename df rename_map in
  let df := copy_column_if (has_column df "longitude") df "lon" "longitude" in
  let df := copy_column_if (has_column df "latitude") df "lat" "latitude" in
  df <- (if has_column df "JULD" then
           juld <- column df "JULD" ;;
           ts <- mapM to_datetime juld ;;
           Ok (assign df "time" ts)
         else Ok df) ;;
  let keep := filter (has_column df)
                ["platform_number"; "lon"; "lat"; "time"; "temperature"; "salinity"] in
  let df := project df keep in
  Ok (if has_column df "platform_number"
      then rename df [("platform_number", "float_id")] else df).

(** lines 44-50: the first day asked of the live source *)
Definition live_start (now : Z) (period_num period_unit : pyval) : result Z :=
  if is_int period_num then
    if truthy period_unit then
      in_years <- startswith_year period_unit ;;
      n <- offset_count period_num ;;
      Calendar.minus_offset now in_years n
    else
      n <- offset_count period_num ;;
      Calendar.minus_offset now false n
  else Calendar.minus_offset now true 5.

(** lines 84-87: [lon] and [lat] taken from [longitude] and [latitude] when
    they are missing *)
Definition ensure_lon_lat (df : DataFrame) : DataFrame :=
  let df := copy_column_if (negb (has_column df "lon") && has_column df "longitude")
                           df "lon" "longitude" in
  copy_column_if (negb (has_column df "lat") && has_column df "latitude")
                 df "lat" "latitude".

Definition fetch_argo_data (w : world) (params : dict) : M DataFrame :=
  let bbox := dict_get_default params "bbox"
                (PList [PInt (-180); PInt 180; PInt (-90); PInt 90]) in
  let period_num := dict_get_default params "period_num"
                      (dict_get_default params "years" (PInt 5)) in
  let period_unit := dict_get_default params "period_unit" (PStr "years") in
  (* Fallback: demo CSV shipped with project *)
  let fallback : M DataFrame :=
    match demo_file w with
    | Some read =>
        df <~ lift read ;;
        let df := ensure_lon_lat df in
        b <~ lift (bbox_of bbox) ;;
        _filter_by_bbox_and_time w df b period_num period_unit
    | None => ret empty_frame
    end in
  match argopy w with
  | Some region =>
      try_M
        (now <~ utcnow w ;;
         start <~ lift (live_start now period_num period_unit) ;;
         b <~ lift (bbox_of bbox) ;;
         raw <~ lift (region b (start / Calendar.NS_PER_DAY) (now / Calendar.NS_PER_DAY)) ;;
         df <~ lift (normalize_live raw) ;;
         _filter_by_bbox_and_time w df b period_num period_unit)
        fallback
  | None => fallback
  end.

(** ** visualization/utils.py *)

(** A marker of the map: [properties] and the point's coordinates. *)
Record feature : Type := mkFeature {
  f_float_id : cell;                 (* the value [str()] is applied to *)
  f_time : option cell;              (* likewise *)
  f_temperature : option pyfloat;
  f_salinity : option pyfloat;
  f_lon : pyfloat;
  f_lat : pyfloat
}.

(** A fragment of markup: a literal text, or what the charting and mapping
    code renders from the data it was given. *)
Inductive html : Type :=
| Markup (s : string)
| LineChart (ts : DataFrame) (variable : string)
| ComparisonChart (traces : list (string * DataFrame))
| LeafletMap (features : list feature) (center_lat center_lon : pyfloat).

(** [v in df.columns] for a value of any type *)
Definition in_columns (v : pyval) (df : DataFrame) : result bool :=
  match v with
  | PStr s => Ok (has_column df s)
  | PList _ | PDict _ => Raise TypeError
  | _ => Ok false
  end.

Definition time_key (cols : list string) (r : row) : Z :=
  match row_get cols r "time" with
  | Stamp t => t
  | _ => 0
  end.

Fixpoint insert_by (key : row -> Z) (r : row) (l : list row) : list row :=
  match l with
  | [] => [r]
  | x :: l' => if key r <=? key x then r :: l else x :: insert_by key r l'
  end.

(** [df.sort_values("time")], rows with equal times kept in their order *)
Definition sort_values_time (df : DataFrame) : DataFrame :=
  mkFrame (columns df) (fold_right (insert_by (time_key (columns df))) [] (rows df))
          (zoned df).

(** [df["time"] = pd.to_datetime(df["time"], errors="coerce")] *)
Definition coerce_time (df : DataFrame) : DataFrame :=
  match column df "time" with
  | Ok times => assign df "time" (map to_datetime_coerce times)
  | Raise _ => df
  end.

(** The frame is passed by reference: the second component is the caller's
    frame as the call leaves it. *)
Definition make_plot (df : DataFrame) (variable : pyval) : result (html * DataFrame) :=
  let no_series := Markup "<div><em>No timeseries data available for plotting.</em></div>" in
  if df_empty df then Ok (no_series, df)
  else
    present <- in_columns variable df ;;
    match present, variable with
    | true, PStr v =>
        if has_column df "time" then
          let df := coerce_time df in
          ts <- dropna df ["time"; v] ;;
          let ts := sort_values_time ts in
          if df_empty ts
          then Ok (Markup "<div><em>No valid data to plot.</em></div>", df)
          else Ok (LineChart ts v, df)
        else
          let ts := reset_index df in
          if df_empty ts
          then Ok (Markup "<div><em>No valid data to plot.</em></div>", df)
          else Raise ValueError (* px.line: x="time" is not a column of ts *)
    | _, _ => Ok (no_series, df)
    end.

Definition make_comparison_plot (df : DataFrame) (variables : list string)
  : result (html * DataFrame) :=
  if df_empty df
  then Ok (Markup "<div><em>No data available for comparison plot.</em></div>", df)
  else if negb (has_column df "time")
  then Ok (Markup "<div><em>No time column found for plotting.</em></div>", df)
  else
    let df := coerce_time df in
    ts <- dropna df ["time"] ;;
    let ts := sort_values_time ts in
    let traces :=
      flat_map (fun var =>
                  if has_column ts var then
                    match dropna ts [var] with
                    | Ok ts_clean => if df_empty ts_clean then [] else [(var, ts_clean)]
                    | Raise _ => []
                    end
                  else []) variables in
    match traces with
    | [] => Ok (Markup "<div><em>Requested variables not found in dataset.</em></div>", df)
    | _ => Ok (ComparisonChart traces, df)
    end.

(** [float(row[name])] when the label is a column and the cell is not null *)
Definition float_property (cols : list string) (r : row) (name : string)
  : result (option pyfloat) :=
  match index_of name cols with
  | Some i =>
      if notna (cell_at i r) then x <- py_float (cell_at i r) ;; Ok (Some x)
      else Ok None
  | None => Ok None
  end.

(** one turn of the loop of lines 108-125: the feature of a row, or [None]
    when the coordinates cannot be read and the row is skipped *)
Definition feature_of_row (cols : list string) (r : row) : result (option feature) :=
  match py_float (row_get cols r "lat"), py_float (row_get cols r "lon") with
  | Ok lat, Ok lon =>
      let float_id :=
        match index_of "float_id" cols with
        | Some i => cell_at i r
        | None => Text ""
        end in
      let time :=
        match index_of "time" cols with
        | Some i => if notna (cell_at i r) then Some (cell_at i r) else None
        | None => None
        end in
      temperature <- float_property cols r "temperature" ;;
      salinity <- float_property cols r "salinity" ;;
      Ok (Some (mkFeature float_id time temperature salinity lon lat))
  | _, _ => Ok None
  end.

Fixpoint collect_features (cols : list string) (rs : list row) : result (list feature) :=
  match rs with
  | [] => Ok []
  | r :: rs' =>
      f <- feature_of_row cols r ;;
      fs <- collect_features cols rs' ;;
      Ok (match f with Some x => x :: fs | None => fs end)
  end.

(** [l or [0]] *)
Definition or_zero (l : list pyfloat) : list pyfloat :=
  match l with
  | [] => [Finite 0]
  | _ => l
  end.

(** lines 130-133 *)
Definition map_center (features : list feature) : result (pyfloat * pyfloat) :=
  let lats := or_zero (map f_lat features) in
  let lons := or_zero (map f_lon features) in
  center_lat <- py_div (pf_sum lats) (List.length lats) ;;
  center_lon <- py_div (pf_sum lons) (List.length lons) ;;
  Ok (center_lat, center_lon).

Definition make_map (df : DataFrame) : result html :=
  if df_empty df
  then Ok (Markup "<div><em>No float location data available for map.</em></div>")
  else
    located <- dropna df ["lat"; "lon"] ;;
    features <- collect_features (columns located) (rows located) ;;
    center <- map_center features ;;
    Ok (LeafletMap features (fst center) (snd center)).

End Pandas.

(** ** chat/views.py: chat_view *)

(** [str(n)] for a count *)
Definition dec (n : Z) : string := NilZero.string_of_uint (N.to_uint (Z.to_N n)).

Definition two_digits (n : Z) : string := dec (n / 10) ++ dec (n mod 10).

(** the integer nearest to [q], a tie going to the even one *)
Definition round_half_even (q : Q) : Z :=
  let n := Qnum q in
  let d := Zpos (Qden q) in
  let fl := n / d in
  let r2 := 2 * (n mod d) in
  if r2 <? d then fl
  else if d <? r2 then fl + 1
  else if Z.even fl then fl else fl + 1.

(** [f"{x:.2f}"] *)
Definition format_2f (x : pyfloat) : string :=
  match x with
  | NaN => "nan"
  | Infinity negative => if negative then "-inf" else "inf"
  | Finite q =>
      let h := Z.abs (round_half_even (q * (100 # 1))%Q) in
      (if Qle_bool 0 q then "" else "-") ++ dec (h / 100) ++ "." ++ two_digits (h mod 100)
  end.

Definition numbers (cells : list cell) : list Q :=
  flat_map (fun c => match c with Num q => [q] | _ => [] end) cells.

Definition Qsum (l : list Q) : Q := fold_right Qplus 0%Q l.

Section ChatView.

Variable float_of_str : string -> option pyfloat.
Variable datetime_of_str : string -> option Z.
Variable datetime_of_num : Q -> option Z.

(** What pandas computes as the mean of a non-empty list of float64 values:
    a float64, from a sum and a quotient that are rounded (and can overflow),
    in an order that is the library's. *)
Variable float_mean : list Q -> pyfloat.

(** [float(series.mean())]: the mean of the cells that are not null, [NaN]
    when there is none; a column of texts or timestamps has no float mean *)
Definition series_mean (cells : list cell) : result pyfloat :=
  if existsb (fun c => match c with Text _ | Stamp _ => true | _ => false end) cells
  then Raise TypeError
  else
    match numbers cells with
    | [] => Ok NaN
    | xs => Ok (float_mean xs)
    end.

Definition NO_DATA : string := "No data found for the requested region/time.".

(** [len(v)] *)
Definition py_len (v : pyval) : result nat :=
  match v with
  | PStr s => Ok (String.length s)
  | PList l => Ok (List.length l)
  | PDict d => Ok (List.length d)
  | _ => Raise TypeError
  end.

(** [v[0]] *)
Definition first_item (v : pyval) : result pyval :=
  match v with
  | PList (x :: _) => Ok x
  | PList [] => Raise IndexError
  | PStr (String c _) => Ok (PStr (String c EmptyString))
  | PStr EmptyString => Raise IndexError
  | PDict _ => Raise KeyError
  | _ => Raise TypeError
  end.

(** the values a [for] loop over [v] visits *)
Definition iter_values (v : pyval) : result (list pyval) :=
  match v with
  | PList l => Ok l
  | PStr s => Ok (map (fun c => PStr (String c EmptyString)) (list_ascii_of_string s))
  | PDict d => Ok (map (fun kv => PStr (fst kv)) d)
  | _ => Raise TypeError
  end.

(** [', '.join(v)] *)
Definition join_names (v : pyval) : result string :=
  items <- iter_values v ;;
  names <- mapM (fun x => match x with PStr s => Ok s | _ => Raise TypeError end) items ;;
  Ok (Text.join ", " names).

(** [f"Average {v}: {meanv:.2f} (from {len(df)} data points)."] *)
Definition average_text (v : string) (meanv : pyfloat) (df : DataFrame) : string :=
  "Average " ++ v ++ ": " ++ format_2f meanv
  ++ " (from " ++ dec (Z.of_nat (len df)) ++ " data points).".

(** lines 153-156 and 159-162: the summary of the first requested variable *)
Definition average_summary (params : dict) (df : DataFrame) : result (pyval * string) :=
  vars <- dict_index params "variables" ;;
  v <- first_item vars ;;
  present <- in_columns v df ;;
  match present, v with
  | true, PStr name =>
      cells <- column df name ;;
      meanv <- series_mean cells ;;
      Ok (v, average_text name meanv df)
  | _, _ => Ok (v, NO_DATA)
  end.


(** lines 139-164: summary text, chart, map, and the frame as the calls to
    the renderers leave it *)
Definition build (params : dict) (df : DataFrame)
  : result (string * html * html * DataFrame) :=
  let summary_text := NO_DATA in
  let plot_html := Markup "" in
  let map_html := Markup "" in
  if negb (df_empty df) then
    query_type <- dict_index params "query_type" ;;
    comparison <-
      (if is_str query_type "comparison" then
         vars <- dict_index params "variables" ;;
         n <- py_len vars ;;
         Ok (1 <? n)%nat
       else Ok false) ;;
    if comparison then
      vars <- dict_index params "variables" ;;
      names <- join_names vars ;;
      pd <- make_comparison_plot datetime_of_str datetime_of_num df
              ["temperature"; "salinity"] ;;
      Ok ("Comparison of " ++ names ++ ".", fst pd, map_html, snd pd)
    else if is_str query_type "map" then
      m <- make_map float_of_str df ;;
      Ok ("Showing float locations on the map.", plot_html, m, df)
    else if is_str query_type "summary" then
      vs <- average_summary params df ;;
      Ok (snd vs, plot_html, map_html, df)
    else
      vs <- average_summary params df ;;
      pd <- make_plot datetime_of_str datetime_of_num df (fst vs) ;;
      m <- make_map float_of_str (snd pd) ;;
      Ok (snd vs, fst pd, m, snd pd)
  else Ok (summary_text, plot_html, map_html, df).

(** lines 113-115 *)
Definition resolve_region (params : dict) : result dict :=
  let region_name := dict_get_default params "region" (PStr "pacific") in
  let pacific := [-180; 180; -60; 60] in
  bbox <-
    match region_name with
    | PStr s =>
        Ok (match find (fun kv => String.eqb (fst kv) s) REGION_PRESETS with
            | Some kv => snd kv
            | None => pacific
            end)
    | PList _ | PDict _ => Raise TypeError (* unhashable *)
    | _ => Ok pacific
    end ;;
  Ok (dict_set params "bbox" (PList (map PInt bbox))).

(** [pd.read_csv(path, parse_dates=["time"])] of line 127 *)
Definition read_demo (w : world) : result DataFrame :=
  match demo_file w with
  | Some read => read
  | None => Raise IOError
  end.

(** lines 118-129: the fetched table, or the demo table read again when the
    fetch gave nothing *)
Definition load_table (w : world) (params : dict) : DataFrame :=
  let df := try_except
              (fst (fetch_argo_data datetime_of_str datetime_of_num w params 0%nat))
              empty_frame in
  if df_empty df then try_except (read_demo w) empty_frame else df.

(** lines 132-137 *)
Fixpoint ensure_variables (vs : list pyval) (df : DataFrame) : result DataFrame :=
  match vs with
  | [] => Ok df
  | v :: vs' =>
      present <- in_columns v df ;;
      let df :=
        if negb present then
          if is_str v "temperature" && has_column df "temp"
          then copy_column_if true df "temperature" "temp"
          else if is_str v "salinity" && has_column df "sal"
          then copy_column_if true df "salinity" "sal"
          else df
        else df in
      ensure_variables vs' df
  end.

(** lines 112-137: the table handed to the response builder *)
Definition resolve (w : world) (params : dict) : result DataFrame :=
  let df := load_table w params in
  vs <- iter_values (dict_get_default params "variables" (PList [])) ;;
  ensure_variables vs df.

(** the context [results.html] is rendered with *)
Record response : Type := mkResponse {
  r_query : string;
  r_summary : string;
  r_plot_html : html;
  r_map_html : html;
  r_map_only : bool;
  r_comparison_only : bool
}.

Inductive http : Type :=
| Redirect (name : string)
| Form                               (* chat.html *)
| Results (context : response).      (* results.html *)

(** [params.get], [params[...]] need a dict *)
Definition as_dict (v : pyval) : result dict :=
  match v with
  | PDict d => Ok d
  | _ => Raise AttributeError
  end.

(** The request's method and its [query] field; the rows written to the
    query log are left out. *)
Definition chat_view (w : world) (o : oracle) (method query : string) : result http :=
  if String.eqb method "POST" then
    let user_query := Text.strip query in
    if String.eqb user_query "" then Ok (Redirect "chat")
    else
      params <- interpret o user_query ;;
      params <- as_dict params ;;
      params <- resolve_region params ;;
      df <- resolve w params ;;
      out <- build params df ;;
      let '(summary_text, plot_html, map_html, _) := out in
      qt <- dict_index params "query_type" ;;
      qt' <- dict_index params "query_type" ;;
      Ok (Results (mkResponse user_query summary_text plot_html map_html
                              (is_str qt "map") (is_str qt' "comparison")))
  else Ok Form.

End ChatView.

(** ** The schema of the query parameters, in the specification's words *)

Definition VOCABULARY : list string := ["temperature"; "salinity"; "current"].

Definition is_variable (v : pyval) : bool :=
  match v with
  | PStr s => existsb (String.eqb s) VOCABULARY
  | _ => false
  end.

Definition QUERY_TYPES : list string := ["trend"; "map"; "summary"; "comparison"].

Definition optional_key (d : dict) (k : string) (p : pyval -> bool) : bool :=
  match dict_get d k with
  | Some v => p v
  | None => true
  end.

Definition is_text (v : pyval) : bool :=
  match v with
  | PStr _ => true
  | _ => false
  end.

(** [variables] is a non-empty list *)
Definition variables_non_empty (d : dict) : bool :=
  match dict_get d "variables" with
  | Some (PList (_ :: _)) => true
  | _ => false
  end.

(** every entry of [variables] is a name of the vocabulary *)
Definition variables_known (d : dict) : bool :=
  match dict_get d "variables" with
  | Some (PList l) => forallb is_variable l
  | _ => false
  end.

(** [query_type] is one of the four query types *)
Definition query_type_known (d : dict) : bool :=
  match dict_get d "query_type" with
  | Some (PStr t) => existsb (String.eqb t) QUERY_TYPES
  | _ => false
  end.

(** a structured object with [variables], [region], [query_type] and the
    optional [period_num] / [period_unit], [start_year] / [end_year] *)
Definition matches_schema (v : pyval) : bool :=
  match v with
  | PDict d =>
      match dict_get d "variables" with
      | Some (PList (x :: l)) => forallb is_variable (x :: l)
      | _ => false
      end
      && optional_key d "region" is_text
      && query_type_known d
      && optional_key d "period_num" is_int
      && optional_key d "period_unit" is_text
      && optional_key d "start_year" is_int
      && optional_key d "end_year" is_int
  | _ => false
  end.


(** ** Predicates on tables *)

Definition numeric (c : cell) : bool :=
  match c with
  | Null | Num _ => true
  | Text _ | Stamp _ => false
  end.

(** the [lon] and [lat] cells are numbers or missing *)
Definition numeric_coordinates (df : DataFrame) : bool :=
  forallb (fun r => numeric (row_get (columns df) r "lon")
                    && numeric (row_get (columns df) r "lat")) (rows df).

Definition ge_num (x : Q) (c : cell) : bool :=
  match c with
  | Num q => Qle_bool x q
  | _ => false
  end.

Definition le_num (x : Q) (c : cell) : bool :=
  match c with
  | Num q => Qle_bool q x
  | _ => false
  end.

(** the condition of line 15 on one row *)
Definition in_box (b : Q * Q * Q * Q) (cols : list string) (r : row) : bool :=
  let '(lon_min, lon_max, lat_min, lat_max) := b in
  ge_num lon_min (row_get cols r "lon") && le_num lon_max (row_get cols r "lon")
  && ge_num lat_min (row_get cols r "lat") && le_num lat_max (row_get cols r "lat").


(** the condition of line 24 on one row, for a window starting at [start] *)
Definition in_window (start : Z) (cols : list string) (r : row) : bool :=
  not_before start (row_get cols r "time").

(** the cells of a column that are not null *)
Definition non_null (cells : list cell) : list cell := filter notna cells.

(** the arithmetic mean of a list of numbers, [NaN] for the empty list *)
Definition arithmetic_mean (xs : list Q) : pyfloat :=
  match xs with
  | [] => NaN
  | _ => Finite (Qsum xs / inject_Z (Z.of_nat (List.length xs)))%Q
  end.


(** what [series.mean()] gives for a column: [float_mean] of the values that
    are not null, [NaN] when there is none *)
Definition column_mean (float_mean : list Q -> pyfloat) (cells : list cell) : pyfloat :=
  match numbers (non_null cells) with
  | [] => NaN
  | xs => float_mean xs
  end.

(** the [time] cells are timestamps or missing: the column already has a
    datetime type *)
Definition time_is_datetime (df : DataFrame) : bool :=
  forallb (fun r => match row_get (columns df) r "time" with
                    | Null | Stamp _ => true
                    | _ => false
                    end) (rows df).


(** [float(c)] does not raise *)
Definition readable (float_of_str : string -> option pyfloat) (c : cell) : bool :=
  match py_float float_of_str c with
  | Ok _ => true
  | Raise _ => false
  end.

(** the row has coordinates that are present and can be read as floats *)
Definition locatable (float_of_str : string -> option pyfloat)
    (cols : list string) (r : row) : bool :=
  notna (row_get cols r "lat") && notna (row_get cols r "lon")
  && readable float_of_str (row_get cols r "lat")
  && readable float_of_str (row_get cols r "lon").

(** the [temperature] and [salinity] cells, where there are any, are
    missing or can be read as floats *)
Definition measurements_readable (float_of_str : string -> option pyfloat)
    (df : DataFrame) : bool :=
  forallb (fun r => readable float_of_str (row_get (columns df) r "temperature")
                    && readable float_of_str (row_get (columns df) r "salinity"))
          (rows df).


(** ** Data resolution, step by step *)

(** the filter both tiers of [fetch_argo_data] apply: the call
    [_filter_by_bbox_and_time(df, bbox, period_num, period_unit)] with the
    values read from [params] *)
Definition requested_filter
    (datetime_of_str : string -> option Z) (datetime_of_num : Q -> option Z)
    (w : world) (params : dict) (df : DataFrame) : M DataFrame :=
  b <~ lift (bbox_of (dict_get_default params "bbox"
                        (PList [PInt (-180); PInt 180; PInt (-90); PInt 90]))) ;;
  _filter_by_bbox_and_time datetime_of_str datetime_of_num w df b
    (dict_get_default params "period_num" (dict_get_default params "years" (PInt 5)))
    (dict_get_default params "period_unit" (PStr "years")).

(** what [chat_view] holds after line 121 *)
Definition fetched
    (datetime_of_str : string -> option Z) (datetime_of_num : Q -> option Z)
    (w : world) (params : dict) : DataFrame :=
  try_except (fst (fetch_argo_data datetime_of_str datetime_of_num w params 0%nat))
             empty_frame.

(** what [chat_view] reads at line 127 *)
Definition reread (w : world) : DataFrame := try_except (read_demo w) empty_frame.


(** ** Sample data *)

(** Conversions for tables whose texts are neither numbers nor dates. *)
Definition no_float_text : string -> option pyfloat := fun _ => None.
Definition no_datetime_text : string -> option Z := fun _ => None.
Definition no_datetime_number : Q -> option Z := fun _ => None.

(** The mean of values whose sum and quotient float64 represents exactly,
    as it does for the tables below: the arithmetic mean. *)
Definition exact_mean : list Q -> pyfloat := arithmetic_mean.

Definition ARGO_COLUMNS : list string :=
  ["float_id"; "lon"; "lat"; "time"; "temperature"; "salinity"].

(** 2024-01-01, 2026-01-01, 2020-06-01 and 2023-11-14 22:13:20 (UTC) *)
Definition T_2024 : Z := 1704067200 * 1000000000.
Definition T_2026 : Z := 1767225600 * 1000000000.
Definition T_2020_06 : Z := 1590969600 * 1000000000.
Definition T_2023_11 : Z := 1700000000 * 1000000000.

(** the parameters [chat_view] derives from "temperature trend" *)
Definition pacific_params : dict :=
  [ ("variables", PList [PStr "temperature"]);
    ("region", PStr "pacific");
    ("years", PInt 5);
    ("query_type", PStr "trend");
    ("bbox", PList [PInt (-180); PInt 180; PInt (-60); PInt 60]) ].

(** the parameters [chat_view] derives from "temperature summary" *)
Definition summary_params : dict :=
  [ ("variables", PList [PStr "temperature"]);
    ("region", PStr "pacific");
    ("years", PInt 5);
    ("query_type", PStr "summary");
    ("bbox", PList [PInt (-180); PInt 180; PInt (-60); PInt 60]) ].

(** one float outside every preset box *)
Definition far_frame : DataFrame :=
  mkFrame ARGO_COLUMNS
    [ [Text "F9"; Num (200 # 1); Num (15 # 1); Stamp T_2023_11; Num (20 # 1); Num (35 # 1)] ]
    true.

Definition far_world : world :=
  mkWorld (fun _ => T_2024) None (Some (Ok far_frame)).

(** two floats, one of them without a temperature *)
Definition gappy_frame : DataFrame :=
  mkFrame ARGO_COLUMNS
    [ [Text "F1"; Num (75 # 1); Num (15 # 1); Stamp T_2023_11; Num (10 # 1); Num (35 # 1)];
      [Text "F2"; Num (80 # 1); Num (10 # 1); Stamp T_2023_11; Null; Num (34 # 1)] ]
    true.

Definition gappy_world : world :=
  mkWorld (fun _ => T_2024) None (Some (Ok gappy_frame)).

(** Scenario E: a row at lon 75, lat 15 and a row at lon 200 *)
Definition scenario_E_frame : DataFrame :=
  mkFrame ["lon"; "lat"] [ [Num (75 # 1); Num (15 # 1)]; [Num (200 # 1); Num (15 # 1)] ]
    true.

(** one observation of June 2020 *)
Definition old_frame : DataFrame :=
  mkFrame ARGO_COLUMNS
    [ [Text "F1"; Num (75 # 1); Num (15 # 1); Stamp T_2020_06; Num (28 # 1); Num (35 # 1)] ]
    true.

(** the same files, the clock read in 2024 and in 2026 *)
Definition world_2024 : world := mkWorld (fun _ => T_2024) None (Some (Ok old_frame)).
Definition world_2026 : world := mkWorld (fun _ => T_2026) None (Some (Ok old_frame)).

(** the parameters [chat_view] derives from "temperature last 1 year" *)
Definition last_year_params : dict :=
  [ ("variables", PList [PStr "temperature"]);
    ("region", PStr "pacific");
    ("years", PInt 5);
    ("query_type", PStr "trend");
    ("period_num", PInt 1);
    ("period_unit", PStr "year");
    ("bbox", PList [PInt (-180); PInt 180; PInt (-60); PInt 60]) ].

(** 2024-02-28, 2024-02-29 and 2023-02-28 (UTC): one year before either of
    the first two is the third *)
Definition T_FEB_28 : Z := 1709078400 * 1000000000.
Definition T_FEB_29 : Z := 1709164800 * 1000000000.
Definition T_FEB_28_2023 : Z := 1677542400 * 1000000000.

Definition world_feb_28 : world := mkWorld (fun _ => T_FEB_28) None (Some (Ok old_frame)).
Definition world_feb_29 : world := mkWorld (fun _ => T_FEB_29) None (Some (Ok old_frame)).

(** no live source and no demo file *)
Definition bare_world : world := mkWorld (fun _ => T_2024) None None.

(** a table whose [time] column holds a text that is no date *)
Definition text_time_frame : DataFrame :=
  mkFrame ["lon"; "lat"; "time"; "temperature"]
    [ [Num (75 # 1); Num (15 # 1); Text "unknown"; Num (28 # 1)] ]
    true.

(** a table whose [temperature] column holds a text that is no number *)
Definition warm_frame : DataFrame :=
  mkFrame ["lat"; "lon"; "temperature"]
    [ [Num (15 # 1); Num (75 # 1); Text "warm"] ]
    true.

(** an oracle whose answer is a JSON object outside the schema *)
Definition quoted (s : string) : string := String "034" s ++ String "034" EmptyString.

Definition plot_answer : string :=
  "Here you go: {" ++ quoted "variables" ++ ": [], "
  ++ quoted "query_type" ++ ": " ++ quoted "plot" ++ "}".

Definition plot_oracle : oracle := Some (fun _ => Ok plot_answer).

(** ** The decisions of the heuristic parser, as tables *)

(** the region the heuristic parser records for a lower-cased text: the
    first preset name, in the order of the presets, that occurs in it *)
Definition detected_region (ql : string) : string :=
  match find (fun name => Text.contains name ql) (map fst REGION_PRESETS) with
  | Some name => name
  | None => "pacific"
  end.

(** the query type the heuristic parser records for a lower-cased text *)
Definition detected_query_type (ql : string) : string :=
  if Text.contains "map" ql || Text.contains "location" ql then "map"
  else if Text.contains "summary" ql || Text.contains "average" ql then "summary"
  else if Text.contains "compare" ql
          || (Text.contains "temperature" ql && Text.contains "salinity" ql)
  then "comparison"
  else "trend".

(** the variables the heuristic parser records for a lower-cased text *)
Definition detected_variables (ql : string) : list string :=
  if Text.contains "compare" ql
     || (Text.contains "temperature" ql && Text.contains "salinity" ql)
  then ["temperature"; "salinity"]
  else if Text.contains "current" ql then ["current"]
  else if Text.contains "salin" ql then ["salinity"]
  else ["temperature"].

(** ** Further predicates on tables and texts *)

(** the condition of line 24 on one row, the [time] cell converted as
    [pd.to_datetime] converts it *)
Definition time_mask (datetime_of_str : string -> option Z)
    (datetime_of_num : Q -> option Z) (start : Z) (cols : list string) (r : row) : bool :=
  match to_datetime datetime_of_str datetime_of_num (row_get cols r "time") with
  | Ok c => not_before start c
  | Raise _ => false
  end.

(** [c in s] for a character *)
Fixpoint has_char (c : ascii) (s : string) : bool :=
  match s with
  | EmptyString => false
  | String x s' => Ascii.eqb x c || has_char c s'
  end.

(** the float a numeric cell is read as *)
Definition coordinate (c : cell) : pyfloat :=
  match c with
  | Num q => Finite q
  | _ => NaN
  end.

(** the rows [make_map] iterates over: both coordinates present *)
Definition located (cols : list string) (r : row) : bool :=
  notna (row_get cols r "lat") && notna (row_get cols r "lon").

(** the [temperature] and [salinity] cells are numbers or missing *)
Definition numeric_measurements (df : DataFrame) : bool :=
  forallb (fun r => numeric (row_get (columns df) r "temperature")
                    && numeric (row_get (columns df) r "salinity")) (rows df).

(** the rows [make_plot] charts: a time and a value present *)
Definition chartable (cols : list string) (v : string) (r : row) : bool :=
  notna (row_get cols r "time") && notna (row_get cols r v).

(** every row holds one cell per column *)
Definition rectangular (df : DataFrame) : bool :=
  forallb (fun r => Nat.eqb (List.length r) (List.length (columns df))) (rows df).

(** the text holds white space only *)
Definition blank (s : string) : bool := forallb Text.is_space (Text.code_points s).

(** the keys of the parameters whose values data resolution and response
    building use *)
Definition READ_KEYS : list string :=
  ["bbox"; "period_num"; "years"; "period_unit"; "variables"; "query_type"].

(** two parameter sets hold the same under each of [keys] *)
Definition agree_on (keys : list string) (p p' : dict) : Prop :=
  forall k, In k keys -> dict_get p k = dict_get p' k.

(** a row of the table [fetch_argo_data] documents: the coordinates and the
    measurements are numbers or missing, the time is a timestamp or missing *)
Definition typed_row (cols : list string) (r : row) : bool :=
  numeric (row_get cols r "lon") && numeric (row_get cols r "lat")
  && match row_get cols r "time" with
     | Null | Stamp _ => true
     | _ => false
     end
  && numeric (row_get cols r "temperature") && numeric (row_get cols r "salinity").

(** the table of the docstring of [fetch_argo_data]: the columns float_id,
    lon, lat, time, temperature, salinity, with their types *)
Definition documented (df : DataFrame) : Prop :=
  columns df = ARGO_COLUMNS /\ forallb (typed_row ARGO_COLUMNS) (rows df) = true.

(** ** Further sample data *)

(** a demo table that names its columns [longitude], [latitude], [temp]
    and [sal] *)
Definition alias_frame : DataFrame :=
  mkFrame ["float_id"; "longitude"; "latitude"; "time"; "temp"; "sal"]
    [ [Text "F1"; Num (75 # 1); Num (15 # 1); Stamp T_2023_11; Num (28 # 1); Num (35 # 1)];
      [Text "F2"; Num (80 # 1); Num (10 # 1); Stamp T_2023_11; Null; Num (34 # 1)] ]
    true.

(** a live table as argopy labels it; its [JULD] times carry no zone *)
Definition live_frame : DataFrame :=
  mkFrame ["N_POINTS"; "platform_number"; "longitude"; "latitude"; "JULD"; "TEMP"; "PSAL"]
    [ [Num (0 # 1); Text "2902746"; Num (75 # 1); Num (15 # 1); Stamp T_2023_11;
       Num (28 # 1); Num (35 # 1)] ]
    false.

(** the two floats again, as [read_csv] gives them when the file writes its
    times without an offset: the [time] column carries no zone *)
Definition naive_frame : DataFrame :=
  mkFrame ARGO_COLUMNS
    [ [Text "F1"; Num (75 # 1); Num (15 # 1); Stamp T_2023_11; Num (10 # 1); Num (35 # 1)];
      [Text "F2"; Num (200 # 1); Num (10 # 1); Stamp T_2020_06; Null; Num (34 # 1)] ]
    false.

Definition naive_world : world :=
  mkWorld (fun _ => T_2024) None (Some (Ok naive_frame)).

(** a text of [n] copies of one character *)
Fixpoint repeated (c : ascii) (n : nat) : string :=
  match n with
  | O => ""
  | S n' => String c (repeated c n')
  end.

(** a query whose count has 4301 digits *)
Definition long_count_query : string := "last " ++ repeated "9" 4301 ++ " years".

(** the UTF-8 bytes of the Arabic-Indic digit three, U+0663, and of the
    no-break space, U+00A0 *)
Definition ARABIC_INDIC_THREE : string :=
  String (ascii_of_nat 217) (String (ascii_of_nat 163) "").
Definition NO_BREAK_SPACE : string :=
  String (ascii_of_nat 194) (String (ascii_of_nat 160) "").

(** an oracle whose answer is a JSON object without a query type *)
Definition bare_answer : string :=
  "{" ++ quoted "variables" ++ ": [" ++ quoted "temperature" ++ "]}".

Definition bare_oracle : oracle := Some (fun _ => Ok bare_answer).


(** * Properties *)

(** ** Dictionaries *)

Lemma dict_get_set (d : dict) (k k' : string) (v : pyval) :
  dict_get (dict_set d k v) k' = if String.eqb k k' then Some v else dict_get d k'.
Proof.
  induction d as [|[k0 v0] d IH]; simpl.
  - reflexivity.
  - destruct (String.eqb k0 k) eqn:E0; simpl.
    + apply String.eqb_eq in E0; subst k0.
      destruct (String.eqb k k'); reflexivity.
    + destruct (String.eqb k0 k') eqn:E1.
      * apply String.eqb_eq in E1; subst k0.
        rewrite String.eqb_sym, E0. reflexivity.
      * exact IH.
Qed.

(** ** The heuristic parser *)

Lemma int_cases (ds : list Z) :
  ((List.length ds <= Text.MAX_STR_DIGITS)%nat /\ exists n, Text.int ds = Ok n /\ 0 <= n)
  \/ ((Text.MAX_STR_DIGITS < List.length ds)%nat /\ Text.int ds = Raise ValueError).
Proof.
  unfold Text.int.
  destruct (Text.MAX_STR_DIGITS <? List.length ds)%nat eqn:E.
  - right. apply Nat.ltb_lt in E. split; [exact E|reflexivity].
  - left. apply Nat.ltb_ge in E. split; [exact E|]. eexists. split; [reflexivity|].
    assert (G : forall l acc, 0 <= acc ->
              0 <= fold_left (fun acc c => 10 * acc + match Text.decimal c with
                                                     | Some v => v
                                                     | None => 0
                                                     end) l acc).
    { induction l as [|c l IH]; intros acc Hacc; cbn [fold_left]; [exact Hacc|].
      apply IH. unfold Text.decimal.
      destruct (find _ Text.DECIMAL_ZEROS) as [z|] eqn:F; [|lia].
      apply find_some in F. destruct F as [_ F].
      apply andb_true_iff in F. destruct F as [F _]. apply Z.leb_le in F. lia. }
    apply G. lia.
Qed.

Lemma search_some {A} (m : list Z -> option A) (l : list Z) (x : A) :
  Text.search m l = Some x -> exists l', m l' = Some x.
Proof.
  induction l as [|c l IH]; simpl.
  - destruct (m []) eqn:E; [intros H; inversion H; subst; eauto|discriminate].
  - destruct (m (c :: l)) eqn:E; [intros H; inversion H; subst; eauto|exact IH].
Qed.

Lemma exactly_length (p : Z -> bool) (n : nat) (l a b : list Z) :
  Text.exactly p n l = Some (a, b) -> List.length a = n.
Proof.
  revert l a b. induction n as [|n IH]; intros l a b; cbn [Text.exactly].
  - intros H; inversion H. reflexivity.
  - destruct l as [|c l]; [discriminate|].
    destruct (p c); [|discriminate].
    destruct (Text.exactly p n l) as [[a' b']|] eqn:E; [|discriminate].
    intros H; inversion H; subst. cbn [List.length]. f_equal. now apply IH with l b.
Qed.

(** The two years of the absolute pattern have four digits each, which
    [int] never refuses. *)
Lemma match_absolute_years (l y1 y2 : list Z) :
  Text.search match_absolute l = Some (y1, y2) ->
  exists a b, Text.int y1 = Ok a /\ Text.int y2 = Ok b.
Proof.
  intros H. apply search_some in H. destruct H as [l' H].
  unfold match_absolute in H.
  destruct (Text.exactly Text.is_decimal 4 l') as [[a r]|] eqn:E1; [|discriminate].
  destruct (Text.run Text.is_space r) as [w1 r1].
  destruct (Text.run in_dash_t_o r1) as [sep r2].
  destruct sep as [|c sep]; [discriminate|].
  destruct (Text.run Text.is_space r2) as [w2 r3].
  destruct (Text.exactly Text.is_decimal 4 r3) as [[b r4]|] eqn:E2; [|discriminate].
  inversion H; subst a b; clear H.
  apply exactly_length in E1. apply exactly_length in E2.
  unfold Text.int. rewrite E1, E2. cbn. eauto.
Qed.

Ltac split_decisions q :=
  destruct (find (fun name => Text.contains name (Text.lower q)) (map fst REGION_PRESETS));
  destruct (Text.contains "salin" (Text.lower q));
  destruct (Text.contains "current" (Text.lower q));
  destruct (Text.contains "compare" (Text.lower q)
            || Text.contains "temperature" (Text.lower q)
               && Text.contains "salinity" (Text.lower q));
  destruct (Text.contains "map" (Text.lower q) || Text.contains "location" (Text.lower q));
  destruct (Text.contains "summary" (Text.lower q) || Text.contains "average" (Text.lower q)).

(** Everything the parser returns, when it returns: its three decisions,
    the [years] entry, and the one window it found. *)
Lemma parse_query_offline_ok (q : string) (p : dict) :
  parse_query_offline q = Ok p ->
  dict_get p "region" = Some (PStr (detected_region (Text.lower q)))
  /\ dict_get p "query_type" = Some (PStr (detected_query_type (Text.lower q)))
  /\ dict_get p "variables" = Some (PList (map PStr (detected_variables (Text.lower q))))
  /\ dict_get p "years" = Some (PInt 5)
  /\ match Text.search match_relative (Text.code_points (Text.lower q)) with
     | Some (num, unit) =>
         exists n,
           Text.int num = Ok n
           /\ dict_get p "period_num" = Some (PInt n)
           /\ dict_get p "period_unit" = Some (PStr unit)
           /\ dict_get p "start_year" = None
           /\ dict_get p "end_year" = None
     | None =>
         dict_get p "period_num" = None
         /\ dict_get p "period_unit" = None
         /\ match Text.search match_absolute (Text.code_points (Text.lower q)) with
            | Some (y1, y2) =>
                exists a b,
                  Text.int y1 = Ok a /\ Text.int y2 = Ok b
                  /\ dict_get p "start_year" = Some (PInt a)
                  /\ dict_get p "end_year" = Some (PInt b)
            | None =>
                dict_get p "start_year" = None /\ dict_get p "end_year" = None
            end
     end.
Proof.
  unfold parse_query_offline, detected_region, detected_query_type, detected_variables.
  destruct (Text.search match_relative (Text.code_points (Text.lower q))) as [[num unit]|].
  - destruct (Text.int num) as [n|e]; cbn [bind]; [|discriminate].
    split_decisions q; intros H; inversion H; subst p; clear H;
      (repeat split; try reflexivity);
      exists n; repeat split; reflexivity.
  - destruct (Text.search match_absolute (Text.code_points (Text.lower q))) as [[y1 y2]|].
    + destruct (Text.int y1) as [a|e]; cbn [bind]; [|discriminate].
      destruct (Text.int y2) as [b|e]; cbn [bind]; [|discriminate].
      split_decisions q; intros H; inversion H; subst p; clear H;
        (repeat split; try reflexivity);
        exists a, b; repeat split; reflexivity.
    + split_decisions q; intros H; inversion H; subst p; clear H;
        repeat split; reflexivity.
Qed.

(** When the parser returns and when it raises. *)
Lemma parse_query_offline_returns (q : string) :
  match Text.search match_relative (Text.code_points (Text.lower q)) with
  | Some (num, unit) =>
      match Text.int num with
      | Ok n => exists p, parse_query_offline q = Ok p
      | Raise e => parse_query_offline q = Raise e
      end
  | None => exists p, parse_query_offline q = Ok p
  end.
Proof.
  unfold parse_query_offline.
  destruct (Text.search match_relative (Text.code_points (Text.lower q))) as [[num unit]|].
  - destruct (Text.int num) as [n|e]; cbn [bind]; [eauto|reflexivity].
  - destruct (Text.search match_absolute (Text.code_points (Text.lower q)))
      as [[y1 y2]|] eqn:E; [|eauto].
    destruct (match_absolute_years _ _ _ E) as (a & b & -> & ->). cbn [bind]. eauto.
Qed.

Lemma detected_variables_known (ql : string) :
  exists v vs,
    detected_variables ql = v :: vs
    /\ forallb is_variable (map PStr (v :: vs)) = true.
Proof.
  unfold detected_variables.
  destruct (Text.contains "compare" ql || _); [eexists; eexists; split; reflexivity|].
  destruct (Text.contains "current" ql); [eexists; eexists; split; reflexivity|].
  destruct (Text.contains "salin" ql); eexists; eexists; split; reflexivity.
Qed.

Lemma detected_query_type_known (ql : string) :
  existsb (String.eqb (detected_query_type ql)) QUERY_TYPES = true.
Proof.
  unfold detected_query_type.
  destruct (Text.contains "map" ql || _); [reflexivity|].
  destruct (Text.contains "summary" ql || _); [reflexivity|].
  destruct (Text.contains "compare" ql || _); reflexivity.
Qed.

Lemma parse_query_offline_usable (q : string) (p : dict) :
  parse_query_offline q = Ok p ->
  variables_non_empty p = true
  /\ variables_known p = true
  /\ query_type_known p = true.
Proof.
  intros H. destruct (parse_query_offline_ok q p H) as (_ & Hq & Hv & _).
  unfold variables_non_empty, variables_known, query_type_known. rewrite Hq, Hv.
  destruct (detected_variables_known (Text.lower q)) as (v & vs & E & K). rewrite E.
  split; [reflexivity|]. split; [exact K|apply detected_query_type_known].
Qed.

(** ** The oracle parser *)

Lemma from_first_open_brace (txt s : string) :
  from_first_open txt = Some s -> exists r, s = String "{" r.
Proof.
  induction txt as [|c txt IH]; simpl; [discriminate|].
  destruct (Ascii.eqb c "{") eqn:E.
  - apply Ascii.eqb_eq in E; subst c. intros H; inversion H. eauto.
  - exact IH.
Qed.

Lemma search_braces_open (txt m : string) :
  search_braces txt = Some m -> exists r, m = String "{" r.
Proof.
  unfold search_braces.
  destruct (from_first_open txt) as [s|] eqn:E; [|discriminate].
  apply from_first_open_brace in E. destruct E as [r ->].
  simpl. destruct (upto_last_close r) as [t|]; [|discriminate].
  intros H; inversion H. eauto.
Qed.

Lemma parse_value_open_brace (fuel : nat) (r : string) (v : pyval) (rest : string) :
  Json.parse_value fuel (String "{" r) = Some (v, rest) -> exists d, v = PDict d.
Proof.
  destruct fuel as [|fuel]; [discriminate|].
  cbn [Json.parse_value].
  destruct (Text.strip_prefix "}" (Json.skip_ws r)).
  - intros H; inversion H; eauto.
  - destruct (Json.parse_members fuel (Json.skip_ws r)) as [[pairs r'']|]; [|discriminate].
    intros H; inversion H; eauto.
Qed.

Lemma loads_open_brace (r : string) (j : pyval) :
  Json.loads (String "{" r) = Some j -> exists d, j = PDict d.
Proof.
  unfold Json.loads.
  change (Json.skip_ws (String "{" r)) with (String "{" r).
  destruct (Json.parse_value _ (String "{" r)) as [[v rest]|] eqn:E; [|discriminate].
  apply parse_value_open_brace in E. destruct E as [d ->].
  destruct (Json.skip_ws rest); [|discriminate].
  intros H; inversion H; eauto.
Qed.

(** What the oracle parser returns is [None] or a dict. *)
Lemma parse_query_with_openai_shape (o : oracle) (q : string) :
  parse_query_with_openai o q = PNone
  \/ exists d, parse_query_with_openai o q = PDict d.
Proof.
  unfold parse_query_with_openai.
  destruct o as [complete|]; [|now left].
  destruct (complete (prompt_of q)) as [text|]; [|now left].
  destruct (search_braces (Text.strip text)) as [m|] eqn:E; [|now left].
  destruct (Json.loads m) as [j|] eqn:L; [|now left].
  apply search_braces_open in E. destruct E as [r ->].
  apply loads_open_brace in L. destruct L as [d ->].
  right; eauto.
Qed.

(** ** Query interpretation *)

(** C3 (as amended).  The heuristic parser records one time window only.
    When the relative pattern [last N year|years|month|months] matches, the
    parser reads the count with [int]: it raises [ValueError] when the count
    has more than 4300 digits, and otherwise sets [period_num] and
    [period_unit] and leaves [start_year] and [end_year] unset, whether or
    not the absolute pattern matches too.  The absolute pattern sets
    [start_year] and [end_year] only when the relative one does not match. *)
Theorem relative_window_shadows_absolute (q : string) :
  (forall num unit,
      Text.search match_relative (Text.code_points (Text.lower q)) = Some (num, unit) ->
      ((List.length num <= Text.MAX_STR_DIGITS)%nat ->
       exists p n,
         parse_query_offline q = Ok p
         /\ Text.int num = Ok n
         /\ dict_get p "period_num" = Some (PInt n)
         /\ dict_get p "period_unit" = Some (PStr unit)
         /\ dict_get p "start_year" = None
         /\ dict_get p "end_year" = None)
      /\ ((Text.MAX_STR_DIGITS < List.length num)%nat ->
          parse_query_offline q = Raise ValueError))
  /\ (Text.search match_relative (Text.code_points (Text.lower q)) = None ->
      forall y1 y2,
        Text.search match_absolute (Text.code_points (Text.lower q)) = Some (y1, y2) ->
        exists p a b,
          parse_query_offline q = Ok p
          /\ Text.int y1 = Ok a /\ Text.int y2 = Ok b
          /\ dict_get p "start_year" = Some (PInt a)
          /\ dict_get p "end_year" = Some (PInt b)
          /\ dict_get p "period_num" = None
          /\ dict_get p "period_unit" = None).
Proof.
  pose proof (parse_query_offline_returns q) as R.
  split.
  - intros num unit E. rewrite E in R.
    destruct (int_cases num) as [[L (n & Hn & _)]|[L Hn]]; rewrite Hn in R.
    + split; [|intros L'; lia]. intros _. destruct R as [p Hp].
      pose proof (parse_query_offline_ok q p Hp) as (_ & _ & _ & _ & T).
      rewrite E in T. destruct T as (n' & Hn' & T).
      assert (n' = n) by congruence. subst n'.
      exists p, n. tauto.
    + split; [intros L'; lia|]. intros _. exact R.
  - intros E y1 y2 A. rewrite E in R. destruct R as [p Hp].
    pose proof (parse_query_offline_ok q p Hp) as (_ & _ & _ & _ & T).
    rewrite E, A in T. destruct T as (Tn & Tu & a & b & Ha & Hb & Ts & Te).
    exists p, a, b. tauto.
Qed.

(** C5 (as amended).  The heuristic parser can raise: when the count of the
    relative pattern has more than 4300 digits, [int] refuses it and the
    [ValueError] leaves the parser, and query interpretation with it.  For
    every other text the parser returns parameters whose [variables] list is
    not empty (and holds names of the vocabulary only) and whose
    [query_type] is one of trend, map, summary, comparison.  Query
    interpretation gives the parser's outcome or, when the oracle answered
    with a non-empty JSON object, that object as it is. *)
Theorem interpret_heuristic_or_oracle_object (o : oracle) (q : string) :
  ((exists p,
       parse_query_offline q = Ok p
       /\ variables_non_empty p = true
       /\ variables_known p = true
       /\ query_type_known p = true)
   \/ (parse_query_offline q = Raise ValueError
       /\ exists num unit,
            Text.search match_relative (Text.code_points (Text.lower q)) = Some (num, unit)
            /\ (Text.MAX_STR_DIGITS < List.length num)%nat))
  /\ (interpret o q = (p <- parse_query_offline q ;; Ok (PDict p))
      \/ exists kv d,
           parse_query_with_openai o q = PDict (kv :: d)
           /\ interpret o q = Ok (PDict (kv :: d))).
Proof.
  split.
  - pose proof (parse_query_offline_returns q) as R.
    destruct (Text.search match_relative (Text.code_points (Text.lower q)))
      as [[num unit]|] eqn:E.
    + destruct (int_cases num) as [[L (n & Hn & _)]|[L Hn]]; rewrite Hn in R.
      * left. destruct R as [p Hp]. exists p. split; [exact Hp|].
        now apply parse_query_offline_usable with q.
      * right. split; [exact R|]. exists num, unit. split; [reflexivity|exact L].
    + left. destruct R as [p Hp]. exists p. split; [exact Hp|].
      now apply parse_query_offline_usable with q.
  - unfold interpret.
    destruct (parse_query_with_openai_shape o q) as [E|[d E]]; rewrite E.
    + now left.
    + destruct d as [|kv d]; [now left|]. right. exists kv, d. split; reflexivity.
Qed.

(** C4 (as amended).  The oracle's answer is adopted exactly when the text
    from its first opening brace to its last closing brace decodes, as JSON,
    to a non-empty object; the object is not compared with any schema.  With
    no oracle, a failed call, no braces, undecodable text or the empty
    object, the heuristic parser's result is used. *)
Theorem oracle_adopted_iff_non_empty_object (o : oracle) (q : string) :
  match o with
  | None => interpret o q = (p <- parse_query_offline q ;; Ok (PDict p))
  | Some complete =>
      match complete (prompt_of q) with
      | Raise _ => interpret o q = (p <- parse_query_offline q ;; Ok (PDict p))
      | Ok text =>
          match search_braces (Text.strip text) with
          | None => interpret o q = (p <- parse_query_offline q ;; Ok (PDict p))
          | Some m =>
              match Json.loads m with
              | Some (PDict (kv :: d)) => interpret o q = Ok (PDict (kv :: d))
              | Some (PDict []) =>
                  interpret o q = (p <- parse_query_offline q ;; Ok (PDict p))
              | Some _ => False
              | None => interpret o q = (p <- parse_query_offline q ;; Ok (PDict p))
              end
          end
      end
  end.
Proof.
  unfold interpret, parse_query_with_openai.
  destruct o as [complete|]; [|reflexivity].
  destruct (complete (prompt_of q)) as [text|]; [|reflexivity].
  destruct (search_braces (Text.strip text)) as [m|] eqn:E; [|reflexivity].
  destruct (Json.loads m) as [j|] eqn:L; [|reflexivity].
  apply search_braces_open in E. destruct E as [r ->].
  apply loads_open_brace in L. destruct L as [d ->].
  destruct d; reflexivity.
Qed.

(** ** Masks and row selection *)

Lemma mapM_pure {A B} (f : A -> result B) (g : A -> B) (l : list A) :
  (forall x, In x l -> f x = Ok (g x)) -> mapM f l = Ok (map g l).
Proof.
  induction l as [|a l IH]; intros H; simpl.
  - reflexivity.
  - rewrite (H a (or_introl eq_refl)). simpl.
    rewrite IH by (intros x Hx; apply H; now right). reflexivity.
Qed.

(** When [mapM] succeeds, every element was mapped without an exception. *)
Lemma mapM_ok_inv {A B} (f : A -> result B) (l : list A) (m : list B) :
  mapM f l = Ok m ->
  List.length m = List.length l /\ forall x, In x l -> exists y, f x = Ok y.
Proof.
  revert m. induction l as [|a l IH]; simpl; intros m H.
  - inversion H. split; [reflexivity|contradiction].
  - destruct (f a) as [b|] eqn:Ea; simpl in H; [|discriminate].
    destruct (mapM f l) as [bs|] eqn:El; simpl in H; [|discriminate].
    inversion H; subst m. destruct (IH bs eq_refl) as [Hl Hx].
    split; [simpl; now rewrite Hl|].
    intros x [<-|Hin]; eauto.
Qed.

Lemma and_masks_map {A} (f g : A -> bool) (l : list A) :
  and_masks (map f l) (map g l) = map (fun x => f x && g x) l.
Proof.
  induction l as [|a l IH]; simpl; [reflexivity|now rewrite IH].
Qed.

Lemma select_rows_map (p : row -> bool) (rs : list row) :
  select_rows rs (map p rs) = filter p rs.
Proof.
  induction rs as [|r rs IH]; simpl; [reflexivity|].
  destruct (p r); now rewrite IH.
Qed.

Lemma has_column_index (df : DataFrame) (name : string) :
  has_column df name = true -> exists i, index_of name (columns df) = Some i.
Proof.
  unfold has_column. destruct (index_of name (columns df)); [eauto|discriminate].
Qed.

(** ** The bounding-box filter *)

Lemma cell_ge_numeric (x : Q) (c : cell) :
  numeric c = true -> cell_ge x c = Ok (ge_num x c).
Proof. destruct c; simpl; intros H; try discriminate; reflexivity. Qed.

Lemma cell_le_numeric (x : Q) (c : cell) :
  numeric c = true -> cell_le x c = Ok (le_num x c).
Proof. destruct c; simpl; intros H; try discriminate; reflexivity. Qed.

Lemma filter_bbox_numeric (df : DataFrame) (b : Q * Q * Q * Q) :
  has_column df "lon" = true ->
  has_column df "lat" = true ->
  numeric_coordinates df = true ->
  filter_bbox df b
  = Ok (mkFrame (columns df) (filter (in_box b (columns df)) (rows df)) (zoned df)).
Proof.
  intros Hlon Hlat Hnum.
  destruct b as [[[lon_min lon_max] lat_min] lat_max].
  destruct (has_column_index _ _ Hlon) as [i Hi].
  destruct (has_column_index _ _ Hlat) as [j Hj].
  unfold numeric_coordinates in Hnum. rewrite forallb_forall in Hnum.
  assert (Ni : forall r, In r (rows df) -> numeric (cell_at i r) = true).
  { intros r Hr. specialize (Hnum r Hr). apply andb_true_iff in Hnum.
    unfold row_get in Hnum. rewrite Hi in Hnum. tauto. }
  assert (Nj : forall r, In r (rows df) -> numeric (cell_at j r) = true).
  { intros r Hr. specialize (Hnum r Hr). apply andb_true_iff in Hnum.
    unfold row_get in Hnum. rewrite Hj in Hnum. tauto. }
  unfold filter_bbox, column. rewrite Hi, Hj. cbn [bind].
  rewrite (mapM_pure _ (ge_num lon_min) (map (cell_at i) (rows df))).
  2:{ intros c Hc. apply in_map_iff in Hc. destruct Hc as [r [<- Hr]].
      apply cell_ge_numeric; auto. }
  cbn [bind].
  rewrite (mapM_pure _ (le_num lon_max) (map (cell_at i) (rows df))).
  2:{ intros c Hc. apply in_map_iff in Hc. destruct Hc as [r [<- Hr]].
      apply cell_le_numeric; auto. }
  cbn [bind].
  rewrite (mapM_pure _ (ge_num lat_min) (map (cell_at j) (rows df))).
  2:{ intros c Hc. apply in_map_iff in Hc. destruct Hc as [r [<- Hr]].
      apply cell_ge_numeric; auto. }
  cbn [bind].
  rewrite (mapM_pure _ (le_num lat_max) (map (cell_at j) (rows df))).
  2:{ intros c Hc. apply in_map_iff in Hc. destruct Hc as [r [<- Hr]].
      apply cell_le_numeric; auto. }
  cbn [bind]. unfold df_filter. f_equal. f_equal.
  rewrite !map_map, !and_masks_map.
  rewrite select_rows_map.
  apply filter_ext. intros r. unfold in_box, row_get. rewrite Hi, Hj. reflexivity.
Qed.

Lemma cell_ge_ok (x : Q) (c : cell) (b : bool) :
  cell_ge x c = Ok b -> numeric c = true.
Proof. destruct c; simpl; intros H; try discriminate; reflexivity. Qed.

(** When the box filter returns, both columns exist and hold numbers or
    missing values only. *)
Lemma filter_bbox_ok_inv (df : DataFrame) (b : Q * Q * Q * Q) (out : DataFrame) :
  filter_bbox df b = Ok out ->
  has_column df "lon" = true /\ has_column df "lat" = true
  /\ numeric_coordinates df = true.
Proof.
  destruct b as [[[lon_min lon_max] lat_min] lat_max].
  unfold filter_bbox, column, has_column.
  destruct (index_of "lon" (columns df)) as [i|] eqn:Hi; [|discriminate].
  cbn [bind].
  destruct (mapM (cell_ge lon_min) (map (cell_at i) (rows df))) as [m1|] eqn:E1;
    [|discriminate].
  cbn [bind].
  destruct (mapM (cell_le lon_max) (map (cell_at i) (rows df))) as [m2|]; [|discriminate].
  cbn [bind].
  destruct (index_of "lat" (columns df)) as [j|] eqn:Hj; [|discriminate].
  cbn [bind].
  destruct (mapM (cell_ge lat_min) (map (cell_at j) (rows df))) as [m3|] eqn:E3;
    [|discriminate].
  intros _. split; [reflexivity|]. split; [reflexivity|].
  apply mapM_ok_inv in E1. destruct E1 as [_ E1].
  apply mapM_ok_inv in E3. destruct E3 as [_ E3].
  unfold numeric_coordinates. apply forallb_forall. intros r Hr.
  unfold row_get. rewrite Hi, Hj. apply andb_true_iff. split.
  - destruct (E1 (cell_at i r)) as [y Hy]; [now apply in_map|].
    eapply cell_ge_ok; eassumption.
  - destruct (E3 (cell_at j r)) as [y Hy]; [now apply in_map|].
    eapply cell_ge_ok; eassumption.
Qed.

Lemma in_box_spec (lon_min lon_max lat_min lat_max : Q) (cols : list string) (r : row) :
  in_box (lon_min, lon_max, lat_min, lat_max) cols r = true <->
  exists lon lat,
    row_get cols r "lon" = Num lon /\ row_get cols r "lat" = Num lat
    /\ (lon_min <= lon)%Q /\ (lon <= lon_max)%Q
    /\ (lat_min <= lat)%Q /\ (lat <= lat_max)%Q.
Proof.
  unfold in_box. split.
  - intros H. repeat (apply andb_true_iff in H; destruct H as [H ?]).
    destruct (row_get cols r "lon") as [|lon| |]; try discriminate.
    destruct (row_get cols r "lat") as [|lat| |]; try discriminate.
    simpl in *. exists lon, lat.
    repeat split; try reflexivity; apply Qle_bool_iff; assumption.
  - intros (lon & lat & -> & -> & H1 & H2 & H3 & H4). simpl.
    repeat (apply andb_true_iff; split); apply Qle_bool_iff; assumption.
Qed.

(** C6.  The bounding-box filter of [_filter_by_bbox_and_time] is inclusive
    on all four bounds: the table it returns holds exactly the rows with
    [lon_min <= lon <= lon_max] and [lat_min <= lat <= lat_max], and it
    returns one whenever the [lon] and [lat] columns hold numbers; in
    particular, under the box [68, 98, 6, 30] a row with lon 75 and lat 15
    is retained and a row with lon 200 is excluded. *)
Theorem bbox_filter_inclusive (df : DataFrame) (lon_min lon_max lat_min lat_max : Q) :
  (forall out,
      filter_bbox df (lon_min, lon_max, lat_min, lat_max) = Ok out ->
      columns out = columns df
      /\ forall r,
           In r (rows out) <->
           In r (rows df)
           /\ exists lon lat,
                row_get (columns df) r "lon" = Num lon
                /\ row_get (columns df) r "lat" = Num lat
                /\ (lon_min <= lon)%Q /\ (lon <= lon_max)%Q
                /\ (lat_min <= lat)%Q /\ (lat <= lat_max)%Q)
  /\ (has_column df "lon" = true ->
      has_column df "lat" = true ->
      numeric_coordinates df = true ->
      exists out, filter_bbox df (lon_min, lon_max, lat_min, lat_max) = Ok out)
  /\ (forall r out,
         filter_bbox df (68 # 1, 98 # 1, 6 # 1, 30 # 1)%Q = Ok out ->
         In r (rows df) ->
         (row_get (columns df) r "lon" = Num (75 # 1)
          /\ row_get (columns df) r "lat" = Num (15 # 1) -> In r (rows out))
         /\ (row_get (columns df) r "lon" = Num (200 # 1) -> ~ In r (rows out))).
Proof.
  assert (R : forall b out, filter_bbox df b = Ok out ->
              out = mkFrame (columns df) (filter (in_box b (columns df)) (rows df))
                            (zoned df)).
  { intros b out E. destruct (filter_bbox_ok_inv df b out E) as (Hlon & Hlat & Hnum).
    rewrite (filter_bbox_numeric df b Hlon Hlat Hnum) in E. now inversion E. }
  split; [|split].
  - intros out E. rewrite (R _ _ E). cbn [columns rows]. split; [reflexivity|].
    intros r. rewrite filter_In, in_box_spec. reflexivity.
  - intros Hlon Hlat Hnum. eexists. apply filter_bbox_numeric; assumption.
  - intros r out E Hr. rewrite (R _ _ E). cbn [rows]. split.
    + intros [E1 E2]. apply filter_In. split; [assumption|].
      unfold in_box. rewrite E1, E2. reflexivity.
    + intros E1 H. apply filter_In in H. destruct H as [_ H].
      unfold in_box in H. rewrite E1 in H. simpl in H. discriminate.
Qed.

(** ** The response builder *)

(** C7.  If the table is empty when response building starts, the response
    is the fixed no-data message with empty chart and map fragments,
    whatever the parameters (and so whatever the query type) are. *)
Theorem empty_table_gives_no_data
    (float_of_str : string -> option pyfloat)
    (datetime_of_str : string -> option Z) (datetime_of_num : Q -> option Z)
    (float_mean : list Q -> pyfloat)
    (params : dict) (df : DataFrame) :
  df_empty df = true ->
  build float_of_str datetime_of_str datetime_of_num float_mean params df
  = Ok ("No data found for the requested region/time.", Markup "", Markup "", df).
Proof.
  intros E. unfold build. rewrite E. reflexivity.
Qed.

Lemma numbers_non_null (cells : list cell) :
  numbers (non_null cells) = numbers cells.
Proof.
  induction cells as [|c cells IH]; simpl; [reflexivity|].
  destruct c; simpl; rewrite ?IH; reflexivity.
Qed.

Lemma series_mean_numeric (float_mean : list Q -> pyfloat) (cells : list cell) :
  forallb numeric cells = true ->
  series_mean float_mean cells = Ok (column_mean float_mean cells).
Proof.
  intros H. unfold series_mean, column_mean.
  assert (E : existsb (fun c => match c with Text _ | Stamp _ => true | _ => false end) cells
              = false).
  { induction cells as [|c cells IH]; simpl in *; [reflexivity|].
    apply andb_true_iff in H. destruct H as [Hc H].
    rewrite (IH H). destruct c; simpl in *; try discriminate; reflexivity. }
  rewrite E, numbers_non_null.
  destruct (numbers cells); reflexivity.
Qed.

Lemma non_null_count_numeric (cells : list cell) :
  forallb numeric cells = true ->
  List.length (numbers (non_null cells)) = List.length (non_null cells).
Proof.
  induction cells as [|c cells IH]; simpl; [reflexivity|].
  intros H. apply andb_true_iff in H. destruct H as [Hc H].
  destruct c; simpl in *; try discriminate; rewrite ?IH; auto.
Qed.

Lemma non_null_count_le (df : DataFrame) (name : string) (cells : list cell) :
  column df name = Ok cells -> (List.length (non_null cells) <= len df)%nat.
Proof.
  unfold column, len, non_null.
  destruct (index_of name (columns df)); [|discriminate].
  intros H; inversion H; subst cells.
  eapply Nat.le_trans; [apply filter_length_le|]. now rewrite length_map.
Qed.

(** C2 (as amended).  When [query_type] is summary, the table is not empty
    and holds the first requested variable as a numeric column, the summary
    text reports, to 2 decimal places, the mean pandas computes in float64
    over the non-null values of that column: the arithmetic mean when that
    computation is exact, a rounded value otherwise.  The data-point count
    it reports is [len(df)], the total number of rows of the table; the
    number of non-null values is at most that count. *)
Theorem summary_reports_mean_and_total_rows
    (float_of_str : string -> option pyfloat)
    (datetime_of_str : string -> option Z) (datetime_of_num : Q -> option Z)
    (float_mean : list Q -> pyfloat)
    (params : dict) (df : DataFrame) (v : string) (others : list pyval)
    (cells : list cell) :
  df_empty df = false ->
  dict_get params "query_type" = Some (PStr "summary") ->
  dict_get params "variables" = Some (PList (PStr v :: others)) ->
  column df v = Ok cells ->
  forallb numeric cells = true ->
  build float_of_str datetime_of_str datetime_of_num float_mean params df
  = Ok ("Average " ++ v ++ ": "
        ++ format_2f (column_mean float_mean cells)
        ++ " (from " ++ dec (Z.of_nat (len df)) ++ " data points).",
        Markup "", Markup "", df)
  /\ (float_mean (numbers (non_null cells)) = arithmetic_mean (numbers (non_null cells)) ->
      column_mean float_mean cells = arithmetic_mean (numbers (non_null cells)))
  /\ List.length (numbers (non_null cells)) = List.length (non_null cells)
  /\ (List.length (non_null cells) <= len df)%nat.
Proof.
  intros Hne Hqt Hvars Hcol Hnum.
  split; [|split; [|split; [now apply non_null_count_numeric
                           |now apply (non_null_count_le df v)]]].
  - unfold build. rewrite Hne. cbn [negb].
    unfold dict_index. rewrite Hqt. cbn [bind is_str].
    change (String.eqb "summary" "comparison") with false.
    change (String.eqb "summary" "map") with false.
    change (String.eqb "summary" "summary") with true.
    cbn [bind].
    unfold average_summary, dict_index. rewrite Hvars. cbn [bind first_item in_columns].
    assert (Hhas : has_column df v = true).
    { unfold has_column. unfold column in Hcol.
      destruct (index_of v (columns df)); [reflexivity|discriminate]. }
    rewrite Hhas, Hcol. cbn [bind].
    rewrite (series_mean_numeric float_mean cells Hnum). reflexivity.
  - intros E. unfold column_mean.
    destruct (numbers (non_null cells)); [reflexivity|exact E].
Qed.

(** ** What the renderers do to the caller's table *)

Lemma replace_nth_same (i : nat) (r : row) :
  replace_nth i r (cell_at i r) = r.
Proof.
  unfold cell_at. revert i. induction r as [|c r IH]; intros [|i]; simpl; try reflexivity.
  now rewrite IH.
Qed.

Lemma combine_map_r {A B} (f : A -> B) (l : list A) :
  combine l (map f l) = map (fun x => (x, f x)) l.
Proof.
  induction l as [|a l IH]; simpl; [reflexivity|now rewrite IH].
Qed.

Section Coercion.

Variable datetime_of_str : string -> option Z.
Variable datetime_of_num : Q -> option Z.

Lemma coerce_time_datetime (df : DataFrame) :
  time_is_datetime df = true ->
  coerce_time datetime_of_str datetime_of_num df = df.
Proof.
  intros H. unfold coerce_time, column, assign.
  destruct (index_of "time" (columns df)) as [i|] eqn:Ei; [|reflexivity].
  destruct df as [cols rs z]. cbn [columns rows zoned] in *. f_equal.
  rewrite map_map, combine_map_r, map_map. cbn [fst snd].
  rewrite <- (map_id rs) at 2. apply map_ext_in. intros r Hr.
  unfold time_is_datetime in H. cbn [columns rows] in H.
  rewrite forallb_forall in H. specialize (H r Hr).
  unfold row_get in H. rewrite Ei in H.
  replace (to_datetime_coerce datetime_of_str datetime_of_num (cell_at i r))
    with (cell_at i r).
  - apply replace_nth_same.
  - destruct (cell_at i r); try discriminate; reflexivity.
Qed.

Lemma make_plot_frame (df : DataFrame) (variable : pyval) (h : html) (df' : DataFrame) :
  make_plot datetime_of_str datetime_of_num df variable = Ok (h, df') ->
  df' = df \/ df' = coerce_time datetime_of_str datetime_of_num df.
Proof.
  unfold make_plot.
  destruct (df_empty df); [intros H; inversion H; now left|].
  destruct (in_columns variable df) as [present|]; cbn [bind]; [|discriminate].
  destruct present; [|intros H; inversion H; now left].
  destruct variable; try (intros H; inversion H; now left).
  destruct (has_column df "time").
  - destruct (dropna _ _) as [ts|]; cbn [bind]; [|discriminate].
    destruct (df_empty (sort_values_time ts)); intros H; inversion H; now right.
  - destruct (df_empty (reset_index df)); [|discriminate].
    intros H; inversion H; now left.
Qed.

Lemma make_comparison_plot_frame (df : DataFrame) (variables : list string)
    (h : html) (df' : DataFrame) :
  make_comparison_plot datetime_of_str datetime_of_num df variables = Ok (h, df') ->
  df' = df \/ df' = coerce_time datetime_of_str datetime_of_num df.
Proof.
  unfold make_comparison_plot.
  destruct (df_empty df); [intros H; inversion H; now left|].
  destruct (has_column df "time"); cbn [negb]; [|intros H; inversion H; now left].
  destruct (dropna _ _) as [ts|]; cbn [bind]; [|discriminate].
  match goal with |- context [flat_map ?f ?l] => destruct (flat_map f l) end;
    intros H; inversion H; now right.
Qed.

End Coercion.

(** C9 (as amended).  [make_map] never changes the table.  [make_plot] and
    [make_comparison_plot] leave the caller's table either as it was or with
    its [time] column overwritten by the column's conversion to timestamps
    (a value that cannot be converted becoming missing); so does response
    building as a whole.  When the [time] column already consists of
    timestamps and missing values, the table is unchanged after response
    building. *)
Theorem renderers_change_at_most_the_time_column
    (float_of_str : string -> option pyfloat)
    (datetime_of_str : string -> option Z) (datetime_of_num : Q -> option Z)
    (float_mean : list Q -> pyfloat)
    (df : DataFrame) :
  (forall variable h df',
      make_plot datetime_of_str datetime_of_num df variable = Ok (h, df') ->
      df' = df \/ df' = coerce_time datetime_of_str datetime_of_num df)
  /\ (forall variables h df',
         make_comparison_plot datetime_of_str datetime_of_num df variables = Ok (h, df') ->
         df' = df \/ df' = coerce_time datetime_of_str datetime_of_num df)
  /\ (forall params summary plot_html map_html df',
         build float_of_str datetime_of_str datetime_of_num float_mean params df
         = Ok (summary, plot_html, map_html, df') ->
         df' = df \/ df' = coerce_time datetime_of_str datetime_of_num df)
  /\ (time_is_datetime df = true ->
      forall params summary plot_html map_html df',
        build float_of_str datetime_of_str datetime_of_num float_mean params df
        = Ok (summary, plot_html, map_html, df') ->
        df' = df).
Proof.
  assert (B : forall params summary plot_html map_html df',
             build float_of_str datetime_of_str datetime_of_num float_mean params df
             = Ok (summary, plot_html, map_html, df') ->
             df' = df \/ df' = coerce_time datetime_of_str datetime_of_num df).
  { intros params summary plot_html map_html df'. unfold build.
    destruct (df_empty df); cbn [negb]; [intros H; inversion H; now left|].
    destruct (dict_index params "query_type") as [qt|]; cbn [bind]; [|discriminate].
    match goal with |- context [bind ?c _] => destruct c as [cmp|] end;
      cbn [bind]; [|discriminate].
    destruct cmp.
    - destruct (dict_index params "variables") as [vars|]; cbn [bind]; [|discriminate].
      destruct (join_names vars) as [names|]; cbn [bind]; [|discriminate].
      destruct (make_comparison_plot _ _ df _) as [[h d]|] eqn:E; cbn [bind fst snd];
        [|discriminate].
      intros H; inversion H; subst.
      eapply make_comparison_plot_frame; eassumption.
    - destruct (is_str qt "map").
      + destruct (make_map float_of_str df); cbn [bind]; [|discriminate].
        intros H; inversion H; now left.
      + destruct (is_str qt "summary").
        * destruct (average_summary float_mean params df) as [vs|]; cbn [bind]; [|discriminate].
          intros H; inversion H; now left.
        * destruct (average_summary float_mean params df) as [vs|]; cbn [bind]; [|discriminate].
          destruct (make_plot _ _ df (fst vs)) as [[h d]|] eqn:E; cbn [bind fst snd];
            [|discriminate].
          destruct (make_map float_of_str d); cbn [bind]; [|discriminate].
          intros H; inversion H; subst.
          eapply make_plot_frame; eassumption. }
  split; [intros; eapply make_plot_frame; eassumption|].
  split; [intros; eapply make_comparison_plot_frame; eassumption|].
  split; [exact B|].
  intros T params summary plot_html map_html df' H.
  destruct (B _ _ _ _ _ H) as [->| ->]; [reflexivity|].
  now apply coerce_time_datetime.
Qed.

(** ** The map *)

Section Map.

Variable float_of_str : string -> option pyfloat.

Lemma py_div_length (x : pyfloat) (l : list pyfloat) :
  exists y, py_div x (List.length (or_zero l)) = Ok y.
Proof.
  destruct l as [|a l]; simpl; destruct x; eauto.
Qed.

Lemma map_center_total (features : list feature) :
  exists c, map_center features = Ok c.
Proof.
  unfold map_center.
  destruct (py_div_length (pf_sum (or_zero (map f_lat features))) (map f_lat features))
    as [a ->].
  destruct (py_div_length (pf_sum (or_zero (map f_lon features))) (map f_lon features))
    as [b ->].
  cbn [bind]. eauto.
Qed.

Lemma py_float_raises (c : cell) (e : exn) :
  py_float float_of_str c = Raise e -> e = ValueError \/ e = TypeError.
Proof.
  destruct c; simpl; try discriminate.
  - destruct (float_of_str s); [discriminate|]. intros H; inversion H; now left.
  - intros H; inversion H; now right.
Qed.

Lemma float_property_raises (cols : list string) (r : row) (name : string) (e : exn) :
  float_property float_of_str cols r name = Raise e -> e = ValueError \/ e = TypeError.
Proof.
  unfold float_property.
  destruct (index_of name cols) as [i|]; [|discriminate].
  destruct (notna (cell_at i r)); [|discriminate].
  destruct (py_float float_of_str (cell_at i r)) eqn:E; cbn [bind]; [discriminate|].
  intros H; inversion H; subst. eapply py_float_raises; eassumption.
Qed.

Lemma float_property_readable (cols : list string) (r : row) (name : string) :
  readable float_of_str (row_get cols r name) = true ->
  exists x, float_property float_of_str cols r name = Ok x.
Proof.
  unfold float_property, readable, row_get.
  destruct (index_of name cols) as [i|]; [|eauto].
  destruct (notna (cell_at i r)); [|eauto].
  destruct (py_float float_of_str (cell_at i r)); [|discriminate].
  cbn [bind]. eauto.
Qed.

Lemma feature_of_row_raises (cols : list string) (r : row) (e : exn) :
  feature_of_row float_of_str cols r = Raise e -> e = ValueError \/ e = TypeError.
Proof.
  unfold feature_of_row.
  destruct (py_float float_of_str (row_get cols r "lat")); [|discriminate].
  destruct (py_float float_of_str (row_get cols r "lon")); [|discriminate].
  destruct (float_property float_of_str cols r "temperature") eqn:Et; cbn [bind].
  - destruct (float_property float_of_str cols r "salinity") eqn:Es; cbn [bind];
      [discriminate|].
    intros H; inversion H; subst. eapply float_property_raises; eassumption.
  - intros H; inversion H; subst. eapply float_property_raises; eassumption.
Qed.

Lemma collect_features_raises (cols : list string) (rs : list row) (e : exn) :
  collect_features float_of_str cols rs = Raise e -> e = ValueError \/ e = TypeError.
Proof.
  induction rs as [|r rs IH]; simpl; [discriminate|].
  destruct (feature_of_row float_of_str cols r) eqn:E; cbn [bind].
  - destruct (collect_features float_of_str cols rs); cbn [bind]; [discriminate|].
    intros H; inversion H; subst. now apply IH.
  - intros H; inversion H; subst. eapply feature_of_row_raises; eassumption.
Qed.

Lemma collect_features_readable (cols : list string) (rs : list row) :
  (forall r, In r rs ->
             readable float_of_str (row_get cols r "temperature") = true
             /\ readable float_of_str (row_get cols r "salinity") = true) ->
  exists fs, collect_features float_of_str cols rs = Ok fs.
Proof.
  induction rs as [|r rs IH]; intros H; simpl; [eauto|].
  destruct IH as [fs ->]; [intros; apply H; now right|].
  destruct (H r (or_introl eq_refl)) as [Ht Hs].
  unfold feature_of_row.
  destruct (py_float float_of_str (row_get cols r "lat")); cbn [bind]; [|eauto].
  destruct (py_float float_of_str (row_get cols r "lon")); cbn [bind]; [|eauto].
  destruct (float_property_readable cols r "temperature" Ht) as [t ->].
  destruct (float_property_readable cols r "salinity" Hs) as [s ->].
  cbn [bind]. eauto.
Qed.

Lemma collect_features_none (cols : list string) (rs : list row) :
  (forall r, In r rs ->
             readable float_of_str (row_get cols r "lat") && readable float_of_str (row_get cols r "lon") = false) ->
  collect_features float_of_str cols rs = Ok [].
Proof.
  induction rs as [|r rs IH]; intros H; simpl; [reflexivity|].
  rewrite IH by (intros; apply H; now right).
  specialize (H r (or_introl eq_refl)). unfold readable in H. unfold feature_of_row.
  destruct (py_float float_of_str (row_get cols r "lat"));
    destruct (py_float float_of_str (row_get cols r "lon"));
    try discriminate; reflexivity.
Qed.

Lemma dropna_lat_lon (df : DataFrame) :
  has_column df "lat" = true ->
  has_column df "lon" = true ->
  dropna df ["lat"; "lon"]
  = Ok (mkFrame (columns df)
          (filter (fun r => notna (row_get (columns df) r "lat")
                            && (notna (row_get (columns df) r "lon") && true))
                  (rows df))
          (zoned df)).
Proof.
  intros Hlat Hlon. unfold dropna. cbn [forallb]. rewrite Hlat, Hlon. reflexivity.
Qed.

(** C10 (as amended).  For every non-empty table with [lat] and [lon]
    columns the map-centre computation never divides by zero, and when no
    row has coordinates that can be read as numbers the coordinate lists
    default to [0] and the centre is (0, 0).  [make_map] returns a map
    fragment whenever the [temperature] and [salinity] cells are missing or
    can be read as floats. *)
Theorem make_map_center_defined (df : DataFrame) :
  df_empty df = false ->
  has_column df "lat" = true ->
  has_column df "lon" = true ->
  (forall features, exists center, map_center features = Ok center)
  /\ make_map float_of_str df <> Raise ZeroDivisionError
  /\ ((forall r, In r (rows df) -> locatable float_of_str (columns df) r = false) ->
      make_map float_of_str df = Ok (LeafletMap [] (Finite 0) (Finite 0)))
  /\ (measurements_readable float_of_str df = true ->
      exists features center_lat center_lon,
        make_map float_of_str df = Ok (LeafletMap features center_lat center_lon)).
Proof.
  intros Hne Hlat Hlon.
  split; [apply map_center_total|].
  unfold make_map. rewrite Hne, (dropna_lat_lon df Hlat Hlon). cbn [bind columns rows].
  split; [|split].
  - destruct (collect_features float_of_str (columns df) _) as [fs|e] eqn:E; cbn [bind].
    + destruct (map_center_total fs) as [c ->]. cbn [bind]. discriminate.
    + apply collect_features_raises in E. intros H; inversion H; subst.
      destruct E; discriminate.
  - intros Hnone. rewrite collect_features_none; [reflexivity|].
    intros r Hr. apply filter_In in Hr. destruct Hr as [Hr Hn].
    specialize (Hnone r Hr). unfold locatable in Hnone.
    apply andb_true_iff in Hn. destruct Hn as [H1 H2].
    apply andb_true_iff in H2. destruct H2 as [H2 _].
    rewrite H1, H2 in Hnone. exact Hnone.
  - intros Hm. unfold measurements_readable in Hm. rewrite forallb_forall in Hm.
    destruct (collect_features_readable (columns df)
                (filter (fun r => notna (row_get (columns df) r "lat")
                                  && (notna (row_get (columns df) r "lon") && true))
                        (rows df))) as [fs ->].
    { intros r Hr. apply filter_In in Hr. destruct Hr as [Hr _].
      specialize (Hm r Hr). apply andb_true_iff in Hm. exact Hm. }
    cbn [bind]. destruct (map_center_total fs) as [[a b] ->]. cbn [bind fst snd]. eauto.
Qed.

End Map.

(** ** Data resolution *)

Section Resolution.

Variable datetime_of_str : string -> option Z.
Variable datetime_of_num : Q -> option Z.

Lemma forallb_filter {A} (p q : A -> bool) (l : list A) :
  forallb p l = true -> forallb p (filter q l) = true.
Proof.
  rewrite !forallb_forall. intros H x Hx. apply filter_In in Hx. apply H, Hx.
Qed.

(** the [time] cells of a table whose [time] column has a datetime type *)
Lemma datetime_cells (df : DataFrame) (i : nat) :
  index_of "time" (columns df) = Some i ->
  time_is_datetime df = true ->
  forall c, In c (map (cell_at i) (rows df)) ->
            to_datetime datetime_of_str datetime_of_num c = Ok c
            /\ match c with Num _ => false | _ => true end = true.
Proof.
  intros Hi Hdt c Hc.
  unfold time_is_datetime in Hdt. rewrite forallb_forall in Hdt.
  apply in_map_iff in Hc. destruct Hc as [r [<- Hr]].
  specialize (Hdt r Hr). unfold row_get in Hdt. rewrite Hi in Hdt.
  destruct (cell_at i r); try discriminate; split; reflexivity.
Qed.

(** On a table whose [time] column has a datetime type with a time zone, an
    active time window keeps exactly the rows at or after its start. *)
Lemma filter_time_datetime (now : Z) (df : DataFrame) (period_num period_unit : pyval)
    (start : Z) :
  truthy period_unit && truthy period_num = true ->
  window_start now period_num period_unit = Ok start ->
  has_column df "time" = true ->
  time_is_datetime df = true ->
  zoned df = true ->
  filter_time datetime_of_str datetime_of_num now df period_num period_unit
  = Ok (mkFrame (columns df) (filter (in_window start (columns df)) (rows df)) (zoned df)).
Proof.
  intros Hact Hs Hhas Hdt Hz.
  unfold filter_time. rewrite Hact, Hs. cbn [bind]. rewrite Hhas.
  destruct (has_column_index _ _ Hhas) as [i Hi].
  unfold column. rewrite Hi. cbn [bind].
  rewrite (mapM_pure _ (fun c => c)).
  2:{ intros c Hc. apply (datetime_cells df i Hi Hdt c Hc). }
  cbn [bind]. unfold zoned_times. rewrite Hz.
  replace (forallb _ (map (cell_at i) (rows df))) with true.
  2:{ symmetry. apply forallb_forall. intros c Hc.
      apply (datetime_cells df i Hi Hdt c Hc). }
  cbn [andb]. unfold df_filter. rewrite Hz. f_equal. f_equal.
  rewrite map_id, map_map, select_rows_map.
  apply filter_ext. intros r. unfold in_window, row_get. now rewrite Hi.
Qed.

(** On a table whose [time] column has a datetime type without a time
    zone, an active time window ends in the [TypeError] of the comparison
    of line 24. *)
Lemma filter_time_zoneless (now : Z) (df : DataFrame) (period_num period_unit : pyval)
    (start : Z) :
  truthy period_unit && truthy period_num = true ->
  window_start now period_num period_unit = Ok start ->
  has_column df "time" = true ->
  time_is_datetime df = true ->
  zoned df = false ->
  filter_time datetime_of_str datetime_of_num now df period_num period_unit
  = Raise TypeError.
Proof.
  intros Hact Hs Hhas Hdt Hz.
  unfold filter_time. rewrite Hact, Hs. cbn [bind]. rewrite Hhas.
  destruct (has_column_index _ _ Hhas) as [i Hi].
  unfold column. rewrite Hi. cbn [bind].
  rewrite (mapM_pure _ (fun c => c)).
  2:{ intros c Hc. apply (datetime_cells df i Hi Hdt c Hc). }
  cbn [bind]. unfold zoned_times. rewrite Hz. reflexivity.
Qed.

(** The whole filter on a well-typed table: the rows inside the box that
    are not older than the window start, and one reading of the clock. *)
Lemma filter_by_bbox_and_time_rows (w : world) (df : DataFrame) (b : Q * Q * Q * Q)
    (period_num period_unit : pyval) (start : Z) (n : nat) :
  has_column df "lon" = true ->
  has_column df "lat" = true ->
  numeric_coordinates df = true ->
  has_column df "time" = true ->
  time_is_datetime df = true ->
  zoned df = true ->
  truthy period_unit && truthy period_num = true ->
  window_start (clock w n) period_num period_unit = Ok start ->
  _filter_by_bbox_and_time datetime_of_str datetime_of_num w df b period_num period_unit n
  = (Ok (mkFrame (columns df)
           (filter (in_window start (columns df)) (filter (in_box b (columns df)) (rows df)))
           (zoned df)),
     S n).
Proof.
  intros Hlon Hlat Hnum Htime Hdt Hz Hact Hs.
  unfold _filter_by_bbox_and_time, bindM, lift, utcnow.
  rewrite (filter_bbox_numeric df b Hlon Hlat Hnum).
  rewrite (filter_time_datetime _ _ _ _ start Hact Hs).
  - reflexivity.
  - exact Htime.
  - unfold time_is_datetime in *. cbn [columns rows]. now apply forallb_filter.
  - exact Hz.
Qed.

(** The whole filter on a table whose times carry no zone. *)
Lemma filter_by_bbox_and_time_zoneless (w : world) (df : DataFrame) (b : Q * Q * Q * Q)
    (period_num period_unit : pyval) (start : Z) (n : nat) :
  has_column df "lon" = true ->
  has_column df "lat" = true ->
  numeric_coordinates df = true ->
  has_column df "time" = true ->
  time_is_datetime df = true ->
  zoned df = false ->
  truthy period_unit && truthy period_num = true ->
  window_start (clock w n) period_num period_unit = Ok start ->
  _filter_by_bbox_and_time datetime_of_str datetime_of_num w df b period_num period_unit n
  = (Raise TypeError, S n).
Proof.
  intros Hlon Hlat Hnum Htime Hdt Hz Hact Hs.
  unfold _filter_by_bbox_and_time, bindM, lift, utcnow.
  rewrite (filter_bbox_numeric df b Hlon Hlat Hnum).
  rewrite (filter_time_zoneless _ _ _ _ start Hact Hs).
  - reflexivity.
  - exact Htime.
  - unfold time_is_datetime in *. cbn [columns rows]. now apply forallb_filter.
  - exact Hz.
Qed.

Lemma fetch_static (w : world) (params : dict) (raw : DataFrame) (n : nat) :
  argopy w = None ->
  demo_file w = Some (Ok raw) ->
  fetch_argo_data datetime_of_str datetime_of_num w params n
  = requested_filter datetime_of_str datetime_of_num w params (ensure_lon_lat raw) n.
Proof.
  intros Ha Hd. unfold fetch_argo_data, requested_filter. rewrite Ha, Hd.
  reflexivity.
Qed.

Lemma fetch_live (w : world) (params : dict)
    (region : Q * Q * Q * Q -> Z -> Z -> result DataFrame)
    (start : Z) (b : Q * Q * Q * Q) (raw df out : DataFrame) (n : nat) :
  argopy w = Some region ->
  live_start (clock w 0%nat)
    (dict_get_default params "period_num" (dict_get_default params "years" (PInt 5)))
    (dict_get_default params "period_unit" (PStr "years")) = Ok start ->
  bbox_of (dict_get_default params "bbox"
             (PList [PInt (-180); PInt 180; PInt (-90); PInt 90])) = Ok b ->
  region b (start / Calendar.NS_PER_DAY) (clock w 0%nat / Calendar.NS_PER_DAY) = Ok raw ->
  normalize_live datetime_of_str datetime_of_num raw = Ok df ->
  requested_filter datetime_of_str datetime_of_num w params df 1%nat = (Ok out, n) ->
  fetch_argo_data datetime_of_str datetime_of_num w params 0%nat = (Ok out, n).
Proof.
  intros Ha Hs Hb Hr Hn Hf.
  unfold fetch_argo_data. rewrite Ha.
  unfold try_M, bindM, utcnow, lift. rewrite Hs, Hb, Hr, Hn.
  unfold requested_filter, bindM, lift in Hf. rewrite Hb in Hf.
  unfold bindM, lift in Hf |- *.
  destruct (_filter_by_bbox_and_time _ _ w df b _ _ 1%nat) as [[o|e] n'] eqn:E.
  - exact Hf.
  - discriminate.
Qed.

(** *** The alias loop of lines 132-137 *)

Lemma len_assign (df : DataFrame) (name : string) (vals : list cell) :
  List.length vals = len df -> len (assign df name vals) = len df.
Proof.
  unfold assign, len. intros H.
  destruct (index_of name (columns df)); cbn [rows];
    rewrite length_map, length_combine, H; apply Nat.min_id.
Qed.

Lemma len_copy (cond : bool) (df : DataFrame) (dst src : string) :
  len (copy_column_if cond df dst src) = len df.
Proof.
  unfold copy_column_if. destruct cond; [|reflexivity].
  unfold column. destruct (index_of src (columns df)); [|reflexivity].
  apply len_assign. apply length_map.
Qed.

Lemma df_empty_len (df : DataFrame) :
  df_empty df = match columns df with [] => true | _ => (len df =? 0)%nat end.
Proof.
  unfold df_empty, len. destruct (columns df), (rows df); reflexivity.
Qed.

(** a copied column leaves an empty table empty and a table with rows and
    columns with both *)
Lemma df_empty_copy (df : DataFrame) (dst src : string) :
  has_column df src = true ->
  df_empty (copy_column_if true df dst src) = df_empty df.
Proof.
  intros Hs. rewrite !df_empty_len, len_copy.
  destruct (has_column_index _ _ Hs) as [j Hj].
  unfold copy_column_if, column. rewrite Hj. unfold assign.
  destruct (index_of dst (columns df)); cbn [columns]; [reflexivity|].
  destruct (columns df); [discriminate|reflexivity].
Qed.

(** The loop hands on a table with the same number of rows, empty exactly
    when the table it was given is, and the very table it was given when
    that has neither a [temp] nor a [sal] column. *)
Lemma ensure_variables_keeps (vs : list pyval) (df out : DataFrame) :
  ensure_variables vs df = Ok out ->
  len out = len df
  /\ df_empty out = df_empty df
  /\ (has_column df "temp" = false -> has_column df "sal" = false -> out = df).
Proof.
  revert df. induction vs as [|v vs IH]; intros df H; cbn [ensure_variables] in H.
  - injection H as <-. repeat split; reflexivity.
  - destruct (in_columns v df) as [present|e]; [|discriminate]. cbn [bind] in H.
    destruct (IH _ H) as [L [E U]]. clear IH H.
    destruct (negb present); [|repeat split; assumption].
    destruct (is_str v "temperature" && has_column df "temp") eqn:T.
    { apply andb_true_iff in T. destruct T as [_ T].
      rewrite L, E, len_copy, (df_empty_copy _ _ _ T).
      repeat split. intros T'. rewrite T in T'. discriminate. }
    destruct (is_str v "salinity" && has_column df "sal") eqn:S.
    { apply andb_true_iff in S. destruct S as [_ S].
      rewrite L, E, len_copy, (df_empty_copy _ _ _ S).
      repeat split. intros _ S'. rewrite S in S'. discriminate. }
    repeat split; assumption.
Qed.

(** The loop returns for every list of names. *)
Lemma ensure_variables_returns (vs : list pyval) (df : DataFrame) :
  forallb is_text vs = true -> exists out, ensure_variables vs df = Ok out.
Proof.
  revert df. induction vs as [|v vs IH]; intros df H; cbn [ensure_variables].
  - eauto.
  - cbn [forallb] in H. apply andb_true_iff in H. destruct H as [Hv Hvs].
    destruct v; try discriminate. cbn [in_columns bind]. now apply IH.
Qed.

(** C1 (as amended).  The table [chat_view] hands to the response builder
    is what the alias loop of lines 132-137 makes of the fetched table when
    that has rows, and of the bundled demo table read again, without any
    filter, when the fetch gave nothing (no usable source, an error, or
    filters that exclude every row).  The loop returns whenever the
    requested variables are a list of names; it keeps the number of rows and
    changes nothing on a table without [temp] and [sal] columns, so the
    handed table is empty only when the fetch gave nothing and the demo
    table cannot be read or is itself empty.  Static-fallback data returned
    by [fetch_argo_data] has had the same
    [_filter_by_bbox_and_time(df, bbox, period_num, period_unit)] applied as
    the live path applies to the live table.  On a table with numeric
    coordinates and a [time] column of datetimes that carry a time zone it
    keeps the rows inside the box that are not older than the start of the
    relative window; when the datetimes carry no zone, the comparison with
    the zone-aware start raises [TypeError], so a static fallback whose
    times are zone-less returns nothing and the whole demo table is handed
    over. *)
Theorem handed_table_is_fetched_or_unfiltered_demo (w : world) (params : dict) :
  let fetched_table := fetched datetime_of_str datetime_of_num w params in
  let source := if df_empty fetched_table then reread w else fetched_table in
  (forall vs,
      dict_get_default params "variables" (PList []) = PList vs ->
      forallb is_text vs = true ->
      exists out, resolve datetime_of_str datetime_of_num w params = Ok out)
  /\ (forall out,
         resolve datetime_of_str datetime_of_num w params = Ok out ->
         len out = len source
         /\ (has_column source "temp" = false -> has_column source "sal" = false ->
             out = source)
         /\ (df_empty out = true <->
             df_empty fetched_table = true /\ df_empty (reread w) = true))
  /\ (forall raw n,
         argopy w = None ->
         demo_file w = Some (Ok raw) ->
         fetch_argo_data datetime_of_str datetime_of_num w params n
         = requested_filter datetime_of_str datetime_of_num w params (ensure_lon_lat raw) n)
  /\ (forall region start b raw df out n,
         argopy w = Some region ->
         live_start (clock w 0%nat)
           (dict_get_default params "period_num" (dict_get_default params "years" (PInt 5)))
           (dict_get_default params "period_unit" (PStr "years")) = Ok start ->
         bbox_of (dict_get_default params "bbox"
                    (PList [PInt (-180); PInt 180; PInt (-90); PInt 90])) = Ok b ->
         region b (start / Calendar.NS_PER_DAY) (clock w 0%nat / Calendar.NS_PER_DAY)
         = Ok raw ->
         normalize_live datetime_of_str datetime_of_num raw = Ok df ->
         requested_filter datetime_of_str datetime_of_num w params df 1%nat = (Ok out, n) ->
         fetch_argo_data datetime_of_str datetime_of_num w params 0%nat = (Ok out, n))
  /\ (forall df b start n,
         has_column df "lon" = true ->
         has_column df "lat" = true ->
         numeric_coordinates df = true ->
         has_column df "time" = true ->
         time_is_datetime df = true ->
         bbox_of (dict_get_default params "bbox"
                    (PList [PInt (-180); PInt 180; PInt (-90); PInt 90])) = Ok b ->
         truthy (dict_get_default params "period_unit" (PStr "years"))
         && truthy (dict_get_default params "period_num"
                      (dict_get_default params "years" (PInt 5))) = true ->
         window_start (clock w n)
           (dict_get_default params "period_num" (dict_get_default params "years" (PInt 5)))
           (dict_get_default params "period_unit" (PStr "years")) = Ok start ->
         requested_filter datetime_of_str datetime_of_num w params df n
         = (if zoned df
            then Ok (mkFrame (columns df)
                       (filter (in_window start (columns df))
                               (filter (in_box b (columns df)) (rows df)))
                       (zoned df))
            else Raise TypeError,
            S n))
  /\ (forall raw b start,
         argopy w = None ->
         demo_file w = Some (Ok raw) ->
         has_column (ensure_lon_lat raw) "lon" = true ->
         has_column (ensure_lon_lat raw) "lat" = true ->
         numeric_coordinates (ensure_lon_lat raw) = true ->
         has_column (ensure_lon_lat raw) "time" = true ->
         time_is_datetime (ensure_lon_lat raw) = true ->
         zoned (ensure_lon_lat raw) = false ->
         bbox_of (dict_get_default params "bbox"
                    (PList [PInt (-180); PInt 180; PInt (-90); PInt 90])) = Ok b ->
         truthy (dict_get_default params "period_unit" (PStr "years"))
         && truthy (dict_get_default params "period_num"
                      (dict_get_default params "years" (PInt 5))) = true ->
         window_start (clock w 0%nat)
           (dict_get_default params "period_num" (dict_get_default params "years" (PInt 5)))
           (dict_get_default params "period_unit" (PStr "years")) = Ok start ->
         fst (fetch_argo_data datetime_of_str datetime_of_num w params 0%nat)
         = Raise TypeError
         /\ source = raw).
Proof.
  intros fetched_table source.
  assert (Filter : forall df b start n,
         has_column df "lon" = true ->
         has_column df "lat" = true ->
         numeric_coordinates df = true ->
         has_column df "time" = true ->
         time_is_datetime df = true ->
         bbox_of (dict_get_default params "bbox"
                    (PList [PInt (-180); PInt 180; PInt (-90); PInt 90])) = Ok b ->
         truthy (dict_get_default params "period_unit" (PStr "years"))
         && truthy (dict_get_default params "period_num"
                      (dict_get_default params "years" (PInt 5))) = true ->
         window_start (clock w n)
           (dict_get_default params "period_num" (dict_get_default params "years" (PInt 5)))
           (dict_get_default params "period_unit" (PStr "years")) = Ok start ->
         requested_filter datetime_of_str datetime_of_num w params df n
         = (if zoned df
            then Ok (mkFrame (columns df)
                       (filter (in_window start (columns df))
                               (filter (in_box b (columns df)) (rows df)))
                       (zoned df))
            else Raise TypeError,
            S n)).
  { intros df b start n Hlon Hlat Hnum Htime Hdt Hb Hact Hs.
    unfold requested_filter, bindM, lift. rewrite Hb.
    destruct (zoned df) eqn:Hz.
    - rewrite (filter_by_bbox_and_time_rows w df b _ _ start n
                 Hlon Hlat Hnum Htime Hdt Hz Hact Hs), Hz.
      reflexivity.
    - exact (filter_by_bbox_and_time_zoneless w df b _ _ start n
               Hlon Hlat Hnum Htime Hdt Hz Hact Hs). }
  assert (R : resolve datetime_of_str datetime_of_num w params
              = (vs <- iter_values (dict_get_default params "variables" (PList [])) ;;
                 ensure_variables vs source)) by reflexivity.
  split.
  { intros vs Hv Ht. rewrite R, Hv. cbn [iter_values bind].
    now apply ensure_variables_returns. }
  split; [|split; [|split; [|split]]].
  - intros out H. rewrite R in H.
    destruct (iter_values _) as [vs|e]; [|discriminate]. cbn [bind] in H.
    destruct (ensure_variables_keeps _ _ _ H) as [L [E U]].
    split; [exact L|]. split; [exact U|].
    rewrite E. subst source.
    destruct (df_empty fetched_table) eqn:F.
    + split; [intros H'; split; [reflexivity|exact H']|intros [_ H']; exact H'].
    + split; [intros H'; rewrite H' in F; discriminate|intros [H' _]; discriminate].
  - intros raw n. apply fetch_static.
  - intros region start b raw df out n. apply fetch_live.
  - exact Filter.
  - intros raw b start Ha Hd Hlon Hlat Hnum Htime Hdt Hz Hb Hact Hs.
    assert (F : fst (fetch_argo_data datetime_of_str datetime_of_num w params 0%nat)
                = Raise TypeError).
    { rewrite (fetch_static w params raw 0%nat Ha Hd).
      rewrite (Filter _ b start 0%nat Hlon Hlat Hnum Htime Hdt Hb Hact Hs).
      rewrite Hz. reflexivity. }
    split; [exact F|].
    subst source fetched_table. unfold fetched. rewrite F.
    cbn [try_except df_empty empty_frame columns].
    unfold reread, read_demo. rewrite Hd. reflexivity.
Qed.

(** C8 (as amended).  [_filter_by_bbox_and_time] reads the UTC clock on
    every call and computes the start of the time window from it, so two
    calls made at different times can return different tables.  Two
    resolutions against the static fallback dataset, with identical
    parameters and the same dataset, yield identical tables when the window
    starts computed from their clock readings are the same, in particular
    when they read the same clock value. *)
Theorem static_resolve_deterministic_given_clock (w1 w2 : world) (params : dict) :
  argopy w1 = None ->
  argopy w2 = None ->
  demo_file w1 = demo_file w2 ->
  window_start (clock w1 0%nat)
    (dict_get_default params "period_num" (dict_get_default params "years" (PInt 5)))
    (dict_get_default params "period_unit" (PStr "years"))
  = window_start (clock w2 0%nat)
      (dict_get_default params "period_num" (dict_get_default params "years" (PInt 5)))
      (dict_get_default params "period_unit" (PStr "years")) ->
  fst (fetch_argo_data datetime_of_str datetime_of_num w1 params 0%nat)
  = fst (fetch_argo_data datetime_of_str datetime_of_num w2 params 0%nat)
  /\ load_table datetime_of_str datetime_of_num w1 params
     = load_table datetime_of_str datetime_of_num w2 params.
Proof.
  intros A1 A2 D C.
  assert (F : fst (fetch_argo_data datetime_of_str datetime_of_num w1 params 0%nat)
              = fst (fetch_argo_data datetime_of_str datetime_of_num w2 params 0%nat)).
  { unfold fetch_argo_data. rewrite A1, A2, <- D.
    destruct (demo_file w1) as [[raw|e]|]; try reflexivity.
    unfold bindM, lift.
    destruct (bbox_of _) as [b|e]; [|reflexivity].
    unfold _filter_by_bbox_and_time, bindM, lift, utcnow.
    destruct (filter_bbox (ensure_lon_lat raw) b) as [df1|e]; [|reflexivity].
    cbn [fst]. unfold filter_time. rewrite C. reflexivity. }
  split; [exact F|].
  unfold load_table, read_demo. rewrite F, D. reflexivity.
Qed.

End Resolution.

(** ** Counterexamples to the claims as stated, and witnesses *)

(** C1 as stated fails: the filters exclude every row of the static
    dataset, yet the table handed on has a row, one outside the requested
    box. *)
Lemma filtered_out_yet_demo_handed_over :
  (p <- parse_query_offline "temperature trend" ;; resolve_region p) = Ok pacific_params
  /\ fst (fetch_argo_data no_datetime_text no_datetime_number far_world pacific_params 0%nat)
     = Ok (mkFrame ARGO_COLUMNS [] true)
  /\ resolve no_datetime_text no_datetime_number far_world pacific_params = Ok far_frame
  /\ len far_frame = 1%nat
  /\ filter (in_box (-180 # 1, 180 # 1, -60 # 1, 60 # 1)%Q ARGO_COLUMNS) (rows far_frame) = [].
Proof. repeat split; vm_compute; reflexivity. Qed.

(** A static dataset whose times carry no zone: the filter raises, and the
    whole table is handed on, the float outside the box and the observation
    older than the window with it. *)
Lemma handed_table_witness :
  argopy naive_world = None
  /\ demo_file naive_world = Some (Ok naive_frame)
  /\ zoned (ensure_lon_lat naive_frame) = false
  /\ fst (fetch_argo_data no_datetime_text no_datetime_number naive_world pacific_params 0%nat)
     = Raise TypeError
  /\ (if df_empty (fetched no_datetime_text no_datetime_number naive_world pacific_params)
      then reread naive_world
      else fetched no_datetime_text no_datetime_number naive_world pacific_params)
     = naive_frame.
Proof.
  split; [reflexivity|]. split; [reflexivity|]. split; [reflexivity|].
  refine (proj2 (proj2 (proj2 (proj2 (proj2
           (handed_table_is_fetched_or_unfiltered_demo
              no_datetime_text no_datetime_number naive_world pacific_params)))))
           naive_frame (-180 # 1, 180 # 1, -60 # 1, 60 # 1)%Q
           (1546300800 * 1000000000) _ _ _ _ _ _ _ _ _ _ _);
    vm_compute; reflexivity.
Defined.

(** C2 as stated fails: one of two rows has a temperature, and the summary
    reports two data points. *)
Lemma summary_counts_all_rows :
  (p <- parse_query_offline "temperature summary" ;; resolve_region p) = Ok summary_params
  /\ build no_float_text no_datetime_text no_datetime_number exact_mean summary_params gappy_frame
     = Ok ("Average temperature: 10.00 (from 2 data points).",
           Markup "", Markup "", gappy_frame)
  /\ column gappy_frame "temperature" = Ok [Num (10 # 1); Null]
  /\ List.length (non_null [Num (10 # 1); Null]) = 1%nat
  /\ chat_view no_float_text no_datetime_text no_datetime_number exact_mean gappy_world None
       "POST" "temperature summary"
     = Ok (Results (mkResponse "temperature summary"
                      "Average temperature: 10.00 (from 2 data points)."
                      (Markup "") (Markup "") false false)).
Proof. repeat split; vm_compute; reflexivity. Qed.

Lemma summary_witness :
  df_empty gappy_frame = false
  /\ build no_float_text no_datetime_text no_datetime_number exact_mean summary_params gappy_frame
     = Ok ("Average " ++ "temperature" ++ ": "
           ++ format_2f (column_mean exact_mean [Num (10 # 1); Null])
           ++ " (from " ++ dec (Z.of_nat (len gappy_frame)) ++ " data points).",
           Markup "", Markup "", gappy_frame).
Proof.
  split; [reflexivity|].
  exact (proj1 (summary_reports_mean_and_total_rows
                  no_float_text no_datetime_text no_datetime_number exact_mean
                  summary_params gappy_frame "temperature" [] [Num (10 # 1); Null]
                  eq_refl eq_refl eq_refl eq_refl eq_refl)).
Defined.

(** C3 as stated fails: both patterns match, and only the relative window
    is recorded. *)
Lemma both_patterns_match_one_window_set :
  Text.search match_relative
    (Text.code_points (Text.lower "Temperature last 2 years 2010 to 2020"))
  = Some (Text.code_points "2", "year")
  /\ Text.search match_absolute
       (Text.code_points (Text.lower "Temperature last 2 years 2010 to 2020"))
     = Some (Text.code_points "2010", Text.code_points "2020")
  /\ exists p,
       parse_query_offline "Temperature last 2 years 2010 to 2020" = Ok p
       /\ dict_get p "period_num" = Some (PInt 2)
       /\ dict_get p "period_unit" = Some (PStr "year")
       /\ dict_get p "start_year" = None
       /\ dict_get p "end_year" = None.
Proof.
  split; [vm_compute; reflexivity|]. split; [vm_compute; reflexivity|].
  eexists. split; [vm_compute; reflexivity|].
  repeat split; vm_compute; reflexivity.
Qed.

Lemma relative_window_witness :
  Text.search match_relative
    (Text.code_points (Text.lower "Temperature last 2 years 2010 to 2020"))
  = Some ([50], "year")
  /\ (List.length [50] <= Text.MAX_STR_DIGITS)%nat
  /\ exists p n,
       parse_query_offline "Temperature last 2 years 2010 to 2020" = Ok p
       /\ Text.int [50] = Ok n
       /\ dict_get p "period_num" = Some (PInt n)
       /\ dict_get p "period_unit" = Some (PStr "year")
       /\ dict_get p "start_year" = None
       /\ dict_get p "end_year" = None.
Proof.
  assert (E : Text.search match_relative
                (Text.code_points (Text.lower "Temperature last 2 years 2010 to 2020"))
              = Some ([50], "year")) by (vm_compute; reflexivity).
  assert (L : (List.length [50] <= Text.MAX_STR_DIGITS)%nat)
    by (apply Nat.leb_le; vm_compute; reflexivity).
  split; [exact E|]. split; [exact L|].
  exact (proj1 (proj1 (relative_window_shadows_absolute
                         "Temperature last 2 years 2010 to 2020") [50] "year" E) L).
Defined.

(** C4 as stated fails: an object that has no [region], an empty
    [variables] list and an unknown [query_type] is adopted. *)
Lemma schema_violating_object_adopted :
  interpret plot_oracle "salinity map"
  = Ok (PDict [("variables", PList []); ("query_type", PStr "plot")])
  /\ matches_schema (PDict [("variables", PList []); ("query_type", PStr "plot")]) = false
  /\ interpret plot_oracle "salinity map"
     <> (p <- parse_query_offline "salinity map" ;; Ok (PDict p)).
Proof.
  split; [vm_compute; reflexivity|]. split; [vm_compute; reflexivity|].
  vm_compute. discriminate.
Qed.

(** C5 as stated fails twice: the adopted oracle object has an empty
    [variables] list and a [query_type] outside the enumeration; and a
    query whose count has 4301 digits makes the heuristic parser, and query
    interpretation with it, raise [ValueError]. *)
Lemma adopted_object_not_usable :
  (exists d,
      interpret plot_oracle "salinity map" = Ok (PDict d)
      /\ dict_get d "variables" = Some (PList [])
      /\ variables_non_empty d = false
      /\ dict_get d "query_type" = Some (PStr "plot")
      /\ query_type_known d = false)
  /\ parse_query_offline long_count_query = Raise ValueError
  /\ interpret None long_count_query = Raise ValueError.
Proof.
  split.
  - exists [("variables", PList []); ("query_type", PStr "plot")].
    repeat split; vm_compute; reflexivity.
  - split; vm_compute; reflexivity.
Qed.

Lemma bbox_filter_witness :
  has_column scenario_E_frame "lon" = true
  /\ has_column scenario_E_frame "lat" = true
  /\ numeric_coordinates scenario_E_frame = true
  /\ exists out,
       filter_bbox scenario_E_frame (68 # 1, 98 # 1, 6 # 1, 30 # 1)%Q = Ok out.
Proof.
  split; [reflexivity|]. split; [reflexivity|]. split; [reflexivity|].
  exact (proj1 (proj2 (bbox_filter_inclusive scenario_E_frame
                         (68 # 1) (98 # 1) (6 # 1) (30 # 1)))
           eq_refl eq_refl eq_refl).
Defined.

(** Scenario E, computed. *)
Example scenario_E :
  filter_bbox scenario_E_frame (68 # 1, 98 # 1, 6 # 1, 30 # 1)%Q
  = Ok (mkFrame ["lon"; "lat"] [ [Num (75 # 1); Num (15 # 1)] ] true).
Proof. reflexivity. Qed.

Lemma empty_table_witness :
  df_empty empty_frame = true
  /\ build no_float_text no_datetime_text no_datetime_number exact_mean pacific_params empty_frame
     = Ok ("No data found for the requested region/time.", Markup "", Markup "", empty_frame).
Proof.
  split; [reflexivity|].
  apply (empty_table_gives_no_data no_float_text no_datetime_text no_datetime_number
           exact_mean pacific_params empty_frame); reflexivity.
Defined.

(** C8 as stated fails: the same parameters and the same static dataset,
    resolved in 2024 and in 2026, give a table with the observation of June
    2020 and a table without it. *)
Lemma same_request_two_clocks_two_tables :
  argopy world_2024 = None /\ argopy world_2026 = None
  /\ demo_file world_2024 = demo_file world_2026
  /\ fst (fetch_argo_data no_datetime_text no_datetime_number world_2024 pacific_params 0%nat)
     = Ok old_frame
  /\ fst (fetch_argo_data no_datetime_text no_datetime_number world_2026 pacific_params 0%nat)
     = Ok (mkFrame ARGO_COLUMNS [] true).
Proof. repeat split; vm_compute; reflexivity. Qed.

Lemma static_resolve_witness :
  clock world_feb_28 0%nat <> clock world_feb_29 0%nat
  /\ window_start (clock world_feb_28 0%nat) (PInt 1) (PStr "year") = Ok T_FEB_28_2023
  /\ window_start (clock world_feb_29 0%nat) (PInt 1) (PStr "year") = Ok T_FEB_28_2023
  /\ fst (fetch_argo_data no_datetime_text no_datetime_number world_feb_28
            last_year_params 0%nat)
     = fst (fetch_argo_data no_datetime_text no_datetime_number world_feb_29
              last_year_params 0%nat).
Proof.
  split; [vm_compute; discriminate|].
  split; [reflexivity|]. split; [reflexivity|].
  exact (proj1 (static_resolve_deterministic_given_clock
                  no_datetime_text no_datetime_number
                  world_feb_28 world_feb_29 last_year_params
                  eq_refl eq_refl eq_refl eq_refl)).
Defined.

(** C9 as stated fails: [make_plot] returns, and the caller's table no
    longer holds the text its [time] column held; this is so whatever the
    conversion of texts to timestamps does. *)
Lemma make_plot_overwrites_time_column :
  make_plot no_datetime_text no_datetime_number text_time_frame (PStr "temperature")
  = Ok (Markup "<div><em>No valid data to plot.</em></div>",
        mkFrame ["lon"; "lat"; "time"; "temperature"]
          [ [Num (75 # 1); Num (15 # 1); Null; Num (28 # 1)] ] true)
  /\ ~ (exists datetime_of_str datetime_of_num h,
          make_plot datetime_of_str datetime_of_num text_time_frame (PStr "temperature")
          = Ok (h, text_time_frame)).
Proof.
  split; [vm_compute; reflexivity|].
  intros (ds & dn & h & H).
  unfold make_plot in H. cbn in H.
  unfold to_datetime_coerce, to_datetime in H.
  destruct (ds "unknown"); cbn in H; inversion H.
Qed.

Lemma renderers_witness :
  time_is_datetime gappy_frame = true
  /\ forall params summary plot_html map_html df',
       build no_float_text no_datetime_text no_datetime_number exact_mean params gappy_frame
       = Ok (summary, plot_html, map_html, df') ->
       df' = gappy_frame.
Proof.
  split; [reflexivity|].
  apply (renderers_change_at_most_the_time_column
           no_float_text no_datetime_text no_datetime_number exact_mean gappy_frame).
  reflexivity.
Defined.

(** C10 as stated fails: a non-empty table with [lat] and [lon] columns and
    a temperature that is no number makes [make_map] raise, under every
    [float()] that rejects the text. *)
Lemma make_map_raises_on_text_temperature :
  df_empty warm_frame = false
  /\ has_column warm_frame "lat" = true
  /\ has_column warm_frame "lon" = true
  /\ make_map no_float_text warm_frame = Raise ValueError
  /\ ~ (exists float_of_str h,
          float_of_str "warm" = None /\ make_map float_of_str warm_frame = Ok h).
Proof.
  repeat (split; [vm_compute; reflexivity|]).
  intros (fs & h & E & H).
  unfold make_map in H. cbn in H. rewrite E in H. cbn in H. discriminate.
Qed.

Lemma make_map_witness :
  df_empty gappy_frame = false
  /\ has_column gappy_frame "lat" = true
  /\ has_column gappy_frame "lon" = true
  /\ make_map no_float_text gappy_frame <> Raise ZeroDivisionError.
Proof.
  split; [reflexivity|]. split; [reflexivity|]. split; [reflexivity|].
  apply (make_map_center_defined no_float_text gappy_frame); reflexivity.
Defined.

(** ** The scenarios of the specification, computed *)

(** Scenario A.  The unit recorded is the alternative of the pattern that
    matched, [year]. *)
Example scenario_A :
  parse_query_offline "show me salinity trend near india last 2 years"
  = Ok [ ("variables", PList [PStr "salinity"]);
         ("region", PStr "near india");
         ("years", PInt 5);
         ("query_type", PStr "trend");
         ("period_num", PInt 2);
         ("period_unit", PStr "year") ].
Proof. vm_compute. reflexivity. Qed.

Example scenario_B :
  parse_query_offline "compare temperature and salinity in arabian sea"
  = Ok [ ("variables", PList [PStr "temperature"; PStr "salinity"]);
         ("region", PStr "arabian sea");
         ("years", PInt 5);
         ("query_type", PStr "comparison") ].
Proof. vm_compute. reflexivity. Qed.

Example scenario_C :
  parse_query_offline "average temperature in pacific"
  = Ok [ ("variables", PList [PStr "temperature"]);
         ("region", PStr "pacific");
         ("years", PInt 5);
         ("query_type", PStr "summary") ].
Proof. vm_compute. reflexivity. Qed.

(** Scenario D: no live source and no demo file. *)
Example scenario_D :
  load_table no_datetime_text no_datetime_number bare_world pacific_params = empty_frame
  /\ chat_view no_float_text no_datetime_text no_datetime_number exact_mean bare_world None
       "POST" "temperature trend"
     = Ok (Results (mkResponse "temperature trend"
                      "No data found for the requested region/time."
                      (Markup "") (Markup "") false false)).
Proof. split; vm_compute; reflexivity. Qed.

(** A count written with a decimal digit of another script is read as the
    pattern and [int] read it in Python: three years. *)
Example arabic_indic_count :
  parse_query_offline ("salinity last " ++ ARABIC_INDIC_THREE ++ " years 2010 to 2020")
  = Ok [ ("variables", PList [PStr "salinity"]);
         ("region", PStr "pacific");
         ("years", PInt 5);
         ("query_type", PStr "trend");
         ("period_num", PInt 3);
         ("period_unit", PStr "year") ].
Proof. vm_compute. reflexivity. Qed.

(** * Further properties *)

(** ** The heuristic parser, decision by decision *)

(** The one way the parser raises: a count of the relative pattern that
    [int] refuses. *)
Lemma parse_query_offline_raises (q : string) (e : exn) :
  parse_query_offline q = Raise e ->
  e = ValueError
  /\ exists num unit,
       Text.search match_relative (Text.code_points (Text.lower q)) = Some (num, unit)
       /\ (Text.MAX_STR_DIGITS < List.length num)%nat.
Proof.
  intros H. pose proof (parse_query_offline_returns q) as R.
  destruct (Text.search match_relative (Text.code_points (Text.lower q)))
    as [[num unit]|].
  - destruct (int_cases num) as [[L (n & Hn & _)]|[L Hn]]; rewrite Hn in R.
    + destruct R as [p Hp]. rewrite Hp in H. discriminate.
    + rewrite R in H. inversion H. split; [reflexivity|]. exists num, unit. now split.
  - destruct R as [p Hp]. rewrite Hp in H. discriminate.
Qed.

(** A text that is read as a comparison names both variables. *)
Lemma detected_comparison (ql : string) :
  detected_query_type ql = "comparison" ->
  detected_variables ql = ["temperature"; "salinity"].
Proof.
  unfold detected_query_type, detected_variables.
  destruct (Text.contains "map" ql || Text.contains "location" ql); [discriminate|].
  destruct (Text.contains "summary" ql || Text.contains "average" ql); [discriminate|].
  destruct (Text.contains "compare" ql
            || Text.contains "temperature" ql && Text.contains "salinity" ql);
    [reflexivity|discriminate].
Qed.

Lemma detected_region_preset (ql : string) :
  In (detected_region ql) (map fst REGION_PRESETS).
Proof.
  unfold detected_region.
  destruct (find _ _) as [name|] eqn:E.
  - apply find_some in E. apply E.
  - simpl. auto.
Qed.

(** X1.  The heuristic parser raises only [ValueError], and only on a count
    of more than 4300 digits.  The region it records otherwise is always
    the name of a preset (the first one, in the order of the presets, that
    occurs in the lower-cased text, [pacific] when none does), and
    [chat_view]'s region resolution stores that preset's own box: the
    fallback to the pacific box is never taken for a name it does not belong
    to. *)
Theorem heuristic_region_resolves_to_its_preset (q : string) :
  match parse_query_offline q with
  | Ok p =>
      exists box,
        In (detected_region (Text.lower q), box) REGION_PRESETS
        /\ dict_get p "region" = Some (PStr (detected_region (Text.lower q)))
        /\ resolve_region p = Ok (dict_set p "bbox" (PList (map PInt box)))
  | Raise e =>
      e = ValueError
      /\ exists num unit,
           Text.search match_relative (Text.code_points (Text.lower q)) = Some (num, unit)
           /\ (Text.MAX_STR_DIGITS < List.length num)%nat
  end.
Proof.
  destruct (parse_query_offline q) as [p|e] eqn:Hp;
    [|exact (parse_query_offline_raises q e Hp)].
  destruct (parse_query_offline_ok q p Hp) as (R & _).
  pose proof (detected_region_preset (Text.lower q)) as P.
  unfold resolve_region, dict_get_default. rewrite R.
  set (name := detected_region (Text.lower q)) in *. clearbody name.
  simpl in P.
  destruct P as [<-|[<-|[<-|[<-|[]]]]];
    [ exists [-180; 180; -60; 60] | exists [20; 120; -40; 30]
    | exists [68; 98; 6; 30] | exists [52; 68; 5; 24] ];
    (split; [simpl; tauto|split; reflexivity]).
Qed.

(** X2.  The query type recorded by the heuristic parser, whenever it
    returns (it raises only [ValueError], on a count of more than 4300
    digits), follows a fixed priority: "map" or "location" in the text gives
    map, otherwise "summary" or "average" gives summary, otherwise "compare"
    (or both "temperature" and "salinity") gives comparison, otherwise
    trend.  So a text with "map" or "location" in it is a map query whatever
    else it says, and a text is read as a comparison only if it has none of
    the four words "map", "location", "summary", "average". *)
Theorem heuristic_query_type_priority (q : string) :
  match parse_query_offline q with
  | Ok p =>
      dict_get p "query_type" = Some (PStr (detected_query_type (Text.lower q)))
      /\ (Text.contains "map" (Text.lower q) || Text.contains "location" (Text.lower q)
          = true ->
          dict_get p "query_type" = Some (PStr "map"))
      /\ (dict_get p "query_type" = Some (PStr "comparison") ->
          Text.contains "map" (Text.lower q) || Text.contains "location" (Text.lower q)
          = false
          /\ Text.contains "summary" (Text.lower q) || Text.contains "average" (Text.lower q)
             = false)
  | Raise e =>
      e = ValueError
      /\ exists num unit,
           Text.search match_relative (Text.code_points (Text.lower q)) = Some (num, unit)
           /\ (Text.MAX_STR_DIGITS < List.length num)%nat
  end.
Proof.
  destruct (parse_query_offline q) as [p|e] eqn:Hp;
    [|exact (parse_query_offline_raises q e Hp)].
  destruct (parse_query_offline_ok q p Hp) as (_ & Hq & _).
  split; [exact Hq|]. rewrite Hq. unfold detected_query_type. split.
  - intros ->. reflexivity.
  - destruct (Text.contains "map" (Text.lower q) || Text.contains "location" (Text.lower q));
      [discriminate|].
    destruct (Text.contains "summary" (Text.lower q)
              || Text.contains "average" (Text.lower q)); [discriminate|].
    intros _. split; reflexivity.
Qed.

(** X3.  The variables recorded by the heuristic parser, whenever it
    returns (it raises only [ValueError], on a count of more than 4300
    digits): "compare" (or both "temperature" and "salinity") gives the pair
    temperature, salinity; otherwise "current" wins over "salin", and
    temperature is the default.  Whenever the recorded query type is
    comparison there are two variables, so the response builder takes its
    comparison branch. *)
Theorem heuristic_variables_priority (q : string) :
  match parse_query_offline q with
  | Ok p =>
      dict_get p "variables"
      = Some (PList (map PStr (detected_variables (Text.lower q))))
      /\ (dict_get p "query_type" = Some (PStr "comparison") ->
          dict_get p "variables" = Some (PList [PStr "temperature"; PStr "salinity"]))
  | Raise e =>
      e = ValueError
      /\ exists num unit,
           Text.search match_relative (Text.code_points (Text.lower q)) = Some (num, unit)
           /\ (Text.MAX_STR_DIGITS < List.length num)%nat
  end.
Proof.
  destruct (parse_query_offline q) as [p|e] eqn:Hp;
    [|exact (parse_query_offline_raises q e Hp)].
  destruct (parse_query_offline_ok q p Hp) as (_ & Hq & Hv & _).
  split; [exact Hv|].
  intros H. rewrite Hq in H.
  assert (E : detected_query_type (Text.lower q) = "comparison") by congruence.
  rewrite Hv, (detected_comparison _ E). reflexivity.
Qed.


(** ** The relative window the parser records *)








(** ** The filter as an operation on tables *)

Lemma mapM_ok_map {A B} (f : A -> result B) (d : B) (l : list A) (m : list B) :
  mapM f l = Ok m -> m = map (fun x => try_except (f x) d) l.
Proof.
  revert m. induction l as [|a l IH]; simpl; intros m H.
  - now inversion H.
  - destruct (f a) as [b|]; simpl in H; [|discriminate].
    destruct (mapM f l) as [bs|]; simpl in H; [|discriminate].
    inversion H; subst. simpl. now rewrite <- (IH bs eq_refl).
Qed.

Lemma filter_all {A} (p : A -> bool) (l : list A) :
  (forall x, In x l -> p x = true) -> filter p l = l.
Proof.
  induction l as [|a l IH]; intros H; simpl; [reflexivity|].
  rewrite (H a (or_introl eq_refl)), IH; [reflexivity|]. intros; apply H; now right.
Qed.

Lemma filter_idem {A} (p : A -> bool) (l : list A) :
  filter p (filter p l) = filter p l.
Proof. apply filter_all. intros x Hx. apply filter_In in Hx. apply Hx. Qed.

Lemma filter_bbox_ok_rows (df : DataFrame) (b : Q * Q * Q * Q) (out : DataFrame) :
  filter_bbox df b = Ok out ->
  out = mkFrame (columns df) (filter (in_box b (columns df)) (rows df)) (zoned df).
Proof.
  intros E. destruct (filter_bbox_ok_inv df b out E) as (Hlon & Hlat & Hnum).
  rewrite (filter_bbox_numeric df b Hlon Hlat Hnum) in E. now inversion E.
Qed.

Lemma zoned_times_filter (df : DataFrame) (p : row -> bool) :
  zoned_times df (map (fun r => row_get (columns df) r "time") (rows df)) = true ->
  zoned_times (mkFrame (columns df) (filter p (rows df)) (zoned df))
    (map (fun r => row_get (columns df) r "time") (filter p (rows df))) = true.
Proof.
  unfold zoned_times. cbn [zoned]. intros H.
  apply andb_true_iff in H. destruct H as [-> H]. cbn [andb].
  rewrite forallb_forall in *. intros c Hc. apply H.
  apply in_map_iff in Hc. destruct Hc as [r [<- Hr]].
  apply (in_map (fun r => row_get (columns df) r "time")).
  apply filter_In in Hr. apply Hr.
Qed.

Section FilterAlgebra.

Variable datetime_of_str : string -> option Z.
Variable datetime_of_num : Q -> option Z.

(** An active window on a table whose [time] cells can all be converted. *)
Lemma filter_time_rows (now : Z) (df : DataFrame) (period_num period_unit : pyval)
    (start : Z) :
  truthy period_unit && truthy period_num = true ->
  window_start now period_num period_unit = Ok start ->
  has_column df "time" = true ->
  (forall r, In r (rows df) ->
             exists c, to_datetime datetime_of_str datetime_of_num
                         (row_get (columns df) r "time") = Ok c) ->
  zoned_times df (map (fun r => row_get (columns df) r "time") (rows df)) = true ->
  filter_time datetime_of_str datetime_of_num now df period_num period_unit
  = Ok (mkFrame (columns df)
          (filter (time_mask datetime_of_str datetime_of_num start (columns df)) (rows df))
          (zoned df)).
Proof.
  intros Hact Hs Hhas Hconv Hz.
  unfold filter_time. rewrite Hact, Hs. cbn [bind]. rewrite Hhas.
  destruct (has_column_index _ _ Hhas) as [i Hi].
  unfold column. rewrite Hi. cbn [bind].
  rewrite (mapM_pure _ (fun c => try_except (to_datetime datetime_of_str datetime_of_num c) Null)).
  2:{ intros c Hc. apply in_map_iff in Hc. destruct Hc as [r [<- Hr]].
      destruct (Hconv r Hr) as [c' Hc']. unfold row_get in Hc'. rewrite Hi in Hc'.
      now rewrite Hc'. }
  cbn [bind].
  replace (zoned_times df (map (cell_at i) (rows df))) with true.
  2:{ symmetry. etransitivity; [|exact Hz]. f_equal. apply map_ext.
      intros r. unfold row_get. now rewrite Hi. }
  unfold df_filter. f_equal. f_equal.
  rewrite !map_map, select_rows_map.
  apply filter_ext. intros r. unfold time_mask, row_get. rewrite Hi.
  destruct (to_datetime datetime_of_str datetime_of_num (cell_at i r)) eqn:E; simpl.
  - reflexivity.
  - assert (In r (rows df) -> False).
    { intros Hr. destruct (Hconv r Hr) as [c' Hc']. unfold row_get in Hc'.
      rewrite Hi in Hc'. congruence. }
    reflexivity.
Qed.

(** What the time step returns, when it returns. *)
Lemma filter_time_ok_rows (now : Z) (df out : DataFrame) (period_num period_unit : pyval) :
  filter_time datetime_of_str datetime_of_num now df period_num period_unit = Ok out ->
  out = df
  \/ exists start,
       truthy period_unit && truthy period_num = true
       /\ window_start now period_num period_unit = Ok start
       /\ has_column df "time" = true
       /\ (forall r, In r (rows df) ->
                     exists c, to_datetime datetime_of_str datetime_of_num
                                 (row_get (columns df) r "time") = Ok c)
       /\ zoned_times df (map (fun r => row_get (columns df) r "time") (rows df)) = true
       /\ out = mkFrame (columns df)
                  (filter (time_mask datetime_of_str datetime_of_num start (columns df))
                          (rows df))
                  (zoned df).
Proof.
  unfold filter_time.
  destruct (truthy period_unit && truthy period_num) eqn:Hact;
    [|intros H; inversion H; now left].
  destruct (window_start now period_num period_unit) as [start|] eqn:Hs; cbn [bind];
    [|discriminate].
  destruct (has_column df "time") eqn:Hhas; [|intros H; inversion H; now left].
  destruct (has_column_index _ _ Hhas) as [i Hi].
  unfold column. rewrite Hi. cbn [bind].
  destruct (mapM (to_datetime datetime_of_str datetime_of_num) (map (cell_at i) (rows df))) as [ts|] eqn:E; cbn [bind];
    [|discriminate].
  destruct (zoned_times df (map (cell_at i) (rows df))) eqn:Z; [|discriminate].
  intros H. right. exists start.
  assert (Hconv : forall r, In r (rows df) ->
                            exists c, to_datetime datetime_of_str datetime_of_num
                                        (row_get (columns df) r "time") = Ok c).
  { intros r Hr. pose proof E as E'. apply mapM_ok_inv in E'. destruct E' as [_ E'].
    unfold row_get. rewrite Hi. apply E'. now apply in_map. }
  assert (Hz : zoned_times df (map (fun r => row_get (columns df) r "time") (rows df))
               = true).
  { etransitivity; [|exact Z]. f_equal. apply map_ext.
    intros r. unfold row_get. now rewrite Hi. }
  split; [reflexivity|]. split; [reflexivity|]. split; [reflexivity|].
  split; [exact Hconv|]. split; [exact Hz|].
  pose proof (filter_time_rows now df period_num period_unit start Hact Hs Hhas Hconv Hz)
    as F.
  unfold filter_time in F. rewrite Hact, Hs in F. cbn [bind] in F. rewrite Hhas in F.
  unfold column in F. rewrite Hi in F. cbn [bind] in F. rewrite E in F. cbn [bind] in F.
  rewrite Z in F. congruence.
Qed.

(** What the whole filter returns, when it returns: rows of its input that
    lie inside the box, after one reading of the clock. *)
Lemma filter_by_bbox_and_time_shape (w : world) (df out : DataFrame) (b : Q * Q * Q * Q)
    (period_num period_unit : pyval) (n n' : nat) :
  _filter_by_bbox_and_time datetime_of_str datetime_of_num w df b period_num period_unit n
  = (Ok out, n') ->
  n' = S n
  /\ exists p, out = mkFrame (columns df)
                       (filter p (filter (in_box b (columns df)) (rows df)))
                       (zoned df).
Proof.
  unfold _filter_by_bbox_and_time, bindM, lift, utcnow.
  destruct (filter_bbox df b) as [df1|] eqn:E1; [|discriminate].
  apply filter_bbox_ok_rows in E1.
  destruct (filter_time _ _ (clock w n) df1 period_num period_unit) as [o|] eqn:E2;
    [|discriminate].
  intros H; inversion H; subst o n'; clear H.
  split; [reflexivity|]. subst df1.
  apply filter_time_ok_rows in E2. destruct E2 as [->|(start & _ & _ & _ & _ & _ & ->)].
  - exists (fun _ => true). cbn [columns rows zoned]. f_equal.
    symmetry. apply filter_all. reflexivity.
  - cbn [columns rows zoned]. eauto.
Qed.

(** X5.  [_filter_by_bbox_and_time] only removes rows: when it returns, the
    table has the columns of its input, its rows are rows of the input (so
    there are no more of them), every one of them lies inside the box, and
    the clock has been read exactly once. *)
Theorem filter_returns_sub_table (w : world) (df out : DataFrame) (b : Q * Q * Q * Q)
    (period_num period_unit : pyval) (n n' : nat) :
  _filter_by_bbox_and_time datetime_of_str datetime_of_num w df b period_num period_unit n
  = (Ok out, n') ->
  columns out = columns df
  /\ incl (rows out) (rows df)
  /\ (len out <= len df)%nat
  /\ (forall r, In r (rows out) -> in_box b (columns df) r = true)
  /\ n' = S n.
Proof.
  intros H. apply filter_by_bbox_and_time_shape in H. destruct H as [-> [p ->]].
  cbn [columns rows]. unfold len. cbn [rows].
  split; [reflexivity|]. split; [|split; [|split; [|reflexivity]]].
  - intros r Hr. apply filter_In in Hr. destruct Hr as [Hr _].
    apply filter_In in Hr. apply Hr.
  - eapply Nat.le_trans; apply filter_length_le.
  - intros r Hr. apply filter_In in Hr. destruct Hr as [Hr _].
    apply filter_In in Hr. apply Hr.
Qed.

(** X6.  Filtering is idempotent at a fixed clock reading: applying
    [_filter_by_bbox_and_time] with the same box and period to the table it
    returned, the clock showing the same time, returns that table again. *)
Theorem filter_idempotent (w : world) (df out : DataFrame) (b : Q * Q * Q * Q)
    (period_num period_unit : pyval) (n n' : nat) :
  _filter_by_bbox_and_time datetime_of_str datetime_of_num w df b period_num period_unit n
  = (Ok out, n') ->
  clock w n' = clock w n ->
  _filter_by_bbox_and_time datetime_of_str datetime_of_num w out b period_num period_unit n'
  = (Ok out, S n').
Proof.
  unfold _filter_by_bbox_and_time, bindM, lift, utcnow.
  destruct (filter_bbox df b) as [df1|] eqn:E1; [|discriminate].
  destruct (filter_bbox_ok_inv df b df1 E1) as (Hlon & Hlat & Hnum).
  apply filter_bbox_ok_rows in E1.
  destruct (filter_time _ _ (clock w n) df1 period_num period_unit) as [o|] eqn:E2;
    [|discriminate].
  intros H C; inversion H; subst o n'; clear H. rewrite C.
  (* the box filter leaves a table of rows inside the box as it is *)
  assert (B : forall p, filter_bbox (mkFrame (columns df) (filter p (rows df1)) (zoned df)) b
                        = Ok (mkFrame (columns df) (filter p (rows df1)) (zoned df))).
  { intros p. rewrite filter_bbox_numeric; cbn [columns rows zoned]; try assumption.
    - f_equal. f_equal. apply filter_all. intros r Hr.
      apply filter_In in Hr. destruct Hr as [Hr _]. subst df1. cbn [rows] in Hr.
      apply filter_In in Hr. apply Hr.
    - unfold numeric_coordinates in *. cbn [columns rows].
      apply forallb_forall. intros r Hr. rewrite forallb_forall in Hnum. apply Hnum.
      apply filter_In in Hr. destruct Hr as [Hr _]. subst df1. cbn [rows] in Hr.
      apply filter_In in Hr. apply Hr. }
  pose proof E2 as E2'.
  apply filter_time_ok_rows in E2'.
  destruct E2' as [->|(start & Hact & Hs & Hhas & Hconv & Hz & ->)].
  - assert (D : df1 = mkFrame (columns df) (filter (fun _ => true) (rows df1)) (zoned df)).
    { subst df1. cbn [columns rows]. f_equal. symmetry. apply filter_all. reflexivity. }
    rewrite D at 1. rewrite B. rewrite <- D. rewrite E2. reflexivity.
  - assert (Hc : columns df1 = columns df) by (subst df1; reflexivity).
    assert (Hzd : zoned df1 = zoned df) by (subst df1; reflexivity).
    rewrite Hc, Hzd. rewrite B.
    rewrite (filter_time_rows _ _ _ _ start Hact Hs); cbn [columns rows zoned].
    + now rewrite filter_idem.
    + now rewrite <- Hc.
    + intros r Hr. apply filter_In in Hr. destruct Hr as [Hr _]. rewrite <- Hc.
      now apply Hconv.
    + rewrite <- Hc, <- Hzd. now apply zoned_times_filter.
Qed.

End FilterAlgebra.

Lemma filter_idempotent_witness :
  _filter_by_bbox_and_time no_datetime_text no_datetime_number world_2024 gappy_frame
    (68 # 1, 98 # 1, 6 # 1, 30 # 1)%Q (PInt 5) (PStr "years") 0%nat
  = (Ok gappy_frame, 1%nat)
  /\ _filter_by_bbox_and_time no_datetime_text no_datetime_number world_2024 gappy_frame
       (68 # 1, 98 # 1, 6 # 1, 30 # 1)%Q (PInt 5) (PStr "years") 1%nat
     = (Ok gappy_frame, 2%nat).
Proof.
  split; [reflexivity|].
  exact (filter_idempotent no_datetime_text no_datetime_number world_2024
           gappy_frame gappy_frame (68 # 1, 98 # 1, 6 # 1, 30 # 1)%Q
           (PInt 5) (PStr "years") 0%nat 1%nat eq_refl eq_refl).
Defined.

Lemma filter_sub_table_witness :
  _filter_by_bbox_and_time no_datetime_text no_datetime_number far_world far_frame
    (68 # 1, 98 # 1, 6 # 1, 30 # 1)%Q (PInt 5) (PStr "years") 0%nat
  = (Ok (mkFrame ARGO_COLUMNS [] true), 1%nat)
  /\ (len (mkFrame ARGO_COLUMNS [] true) <= len far_frame)%nat.
Proof.
  split; [reflexivity|].
  exact (proj1 (proj2 (proj2
           (filter_returns_sub_table no_datetime_text no_datetime_number far_world
              far_frame (mkFrame ARGO_COLUMNS [] true) (68 # 1, 98 # 1, 6 # 1, 30 # 1)%Q
              (PInt 5) (PStr "years") 0%nat 1%nat eq_refl)))).
Defined.


(** ** The braces of the oracle's answer *)

Lemma from_first_open_app (pre r : string) :
  has_char "{" pre = false ->
  from_first_open (pre ++ String "{" r) = Some (String "{" r).
Proof.
  induction pre as [|c pre IH]; simpl; [reflexivity|].
  intros H. apply orb_false_iff in H. destruct H as [Hc H].
  rewrite Hc. now apply IH.
Qed.

Lemma from_first_open_inv (txt s : string) :
  from_first_open txt = Some s ->
  exists pre r, txt = pre ++ s /\ has_char "{" pre = false /\ s = String "{" r.
Proof.
  induction txt as [|c txt IH]; simpl; [discriminate|].
  destruct (Ascii.eqb c "{") eqn:E.
  - apply Ascii.eqb_eq in E; subst c. intros H; inversion H; subst.
    exists EmptyString, txt. repeat split.
  - intros H. destruct (IH H) as (pre & r & -> & Hp & ->).
    exists (String c pre), r. simpl. rewrite E, Hp. repeat split.
Qed.

Lemma upto_last_close_none (s : string) :
  upto_last_close s = None <-> has_char "}" s = false.
Proof.
  induction s as [|c s IH]; simpl; [tauto|].
  destruct (upto_last_close s) as [t|].
  - split; [discriminate|]. intros H. apply orb_false_iff in H. destruct H as [_ H].
    apply IH in H. discriminate.
  - destruct (Ascii.eqb c "}"); simpl.
    + split; discriminate.
    + split; [intros _; now apply IH|reflexivity].
Qed.

Lemma upto_last_close_app (m post : string) :
  has_char "}" post = false ->
  upto_last_close (m ++ String "}" post) = Some (m ++ String "}" EmptyString).
Proof.
  intros H. induction m as [|c m IH]; simpl.
  - apply upto_last_close_none in H. now rewrite H.
  - now rewrite IH.
Qed.

Lemma upto_last_close_inv (s m : string) :
  upto_last_close s = Some m ->
  exists m' post,
    s = m ++ post /\ has_char "}" post = false /\ m = m' ++ String "}" EmptyString.
Proof.
  revert m. induction s as [|c s IH]; simpl; intros m; [discriminate|].
  destruct (upto_last_close s) as [t|] eqn:E.
  - intros H; inversion H; subst m.
    destruct (IH t eq_refl) as (m' & post & -> & Hp & ->).
    exists (String c m'), post. repeat split; assumption.
  - destruct (Ascii.eqb c "}") eqn:Ec; [|discriminate].
    apply Ascii.eqb_eq in Ec; subst c. intros H; inversion H; subst m.
    exists EmptyString, s. repeat split. now apply upto_last_close_none.
Qed.

Lemma string_app_assoc (a b c : string) : (a ++ b) ++ c = a ++ (b ++ c).
Proof. induction a as [|x a IH]; simpl; [reflexivity|now rewrite IH]. Qed.

(** X7.  What [parse_query_with_openai] cuts out of the oracle's answer is
    the text from the first opening brace to the last closing brace: prose
    before an object (holding no opening brace) and after it (holding no
    closing brace) is dropped, and every match has that form. *)
Theorem search_braces_first_to_last (txt m : string) :
  search_braces txt = Some m <->
  exists pre body post,
    txt = pre ++ m ++ post
    /\ m = String "{" (body ++ String "}" EmptyString)
    /\ has_char "{" pre = false
    /\ has_char "}" post = false.
Proof.
  unfold search_braces. split.
  - destruct (from_first_open txt) as [s|] eqn:E; [|discriminate].
    apply from_first_open_inv in E. destruct E as (pre & r & -> & Hp & ->).
    intros H. apply upto_last_close_inv in H.
    destruct H as (m' & post & Hs & Hq & ->).
    destruct m' as [|c m']; simpl in Hs.
    + inversion Hs.
    + inversion Hs; subst. exists pre, m', post. simpl. repeat split; assumption.
  - intros (pre & body & post & -> & -> & Hp & Hq). simpl.
    rewrite (from_first_open_app pre _ Hp).
    rewrite string_app_assoc. simpl.
    change (String "{" (body ++ String "}" post))
      with ((String "{" body) ++ String "}" post).
    now rewrite (upto_last_close_app _ _ Hq).
Qed.

Lemma search_braces_witness :
  search_braces ("Here you go: " ++ "{}" ++ " Anything else?") = Some "{}".
Proof.
  apply (proj2 (search_braces_first_to_last
                  ("Here you go: " ++ "{}" ++ " Anything else?") "{}")).
  exists "Here you go: ", EmptyString, " Anything else?". repeat split.
Defined.


(** ** The tables behind the charts *)

Lemma insert_by_perm (key : row -> Z) (r : row) (l : list row) :
  Permutation (insert_by key r l) (r :: l).
Proof.
  induction l as [|x l IH]; simpl; [apply Permutation_refl|].
  destruct (key r <=? key x); [apply Permutation_refl|].
  eapply Permutation_trans; [apply perm_skip, IH|apply perm_swap].
Qed.

Lemma sort_by_perm (key : row -> Z) (l : list row) :
  Permutation (fold_right (insert_by key) [] l) l.
Proof.
  induction l as [|x l IH]; simpl; [apply Permutation_refl|].
  eapply Permutation_trans; [apply insert_by_perm|now apply perm_skip].
Qed.

Lemma insert_by_sorted (key : row -> Z) (r : row) (l : list row) :
  Sorted (fun a b => key a <= key b) l ->
  Sorted (fun a b => key a <= key b) (insert_by key r l).
Proof.
  induction l as [|x l IH]; simpl; intros S.
  - repeat constructor.
  - destruct (key r <=? key x) eqn:E.
    + constructor; [exact S|]. constructor. now apply Z.leb_le.
    + apply Z.leb_gt in E. inversion S as [|? ? S' H]; subst.
      constructor; [now apply IH|].
      destruct l as [|y l]; simpl.
      * constructor. lia.
      * destruct (key r <=? key y); constructor; [lia|].
        inversion H; subst. assumption.
Qed.

Lemma sort_by_sorted (key : row -> Z) (l : list row) :
  Sorted (fun a b => key a <= key b) (fold_right (insert_by key) [] l).
Proof.
  induction l as [|x l IH]; simpl; [constructor|now apply insert_by_sorted].
Qed.

Lemma cell_at_replace_nth (i : nat) (r : row) (v : cell) :
  cell_at i (replace_nth i r v) = v \/ cell_at i (replace_nth i r v) = Null.
Proof.
  unfold cell_at. revert i. induction r as [|c r IH]; intros i.
  - right. destruct i; reflexivity.
  - destruct i as [|i]; simpl; [now left|apply IH].
Qed.

Section Charts.

Variable datetime_of_str : string -> option Z.
Variable datetime_of_num : Q -> option Z.

Lemma to_datetime_coerce_cases (c : cell) :
  to_datetime_coerce datetime_of_str datetime_of_num c = Null
  \/ exists t, to_datetime_coerce datetime_of_str datetime_of_num c = Stamp t.
Proof.
  unfold to_datetime_coerce, to_datetime.
  destruct c; [now left|destruct (datetime_of_num q)|destruct (datetime_of_str s)|];
    eauto.
Qed.

(** After the assignment of line 15 (or 51) the table has the same columns
    and its [time] cells are timestamps or missing. *)
Lemma coerce_time_cells (df : DataFrame) :
  has_column df "time" = true ->
  columns (coerce_time datetime_of_str datetime_of_num df) = columns df
  /\ forall r, In r (rows (coerce_time datetime_of_str datetime_of_num df)) ->
               row_get (columns df) r "time" = Null
               \/ exists t, row_get (columns df) r "time" = Stamp t.
Proof.
  intros H. destruct (has_column_index _ _ H) as [i Hi].
  unfold coerce_time, column, assign. rewrite Hi. cbn [columns rows].
  split; [reflexivity|].
  intros r Hr. apply in_map_iff in Hr. destruct Hr as [[r0 v] [<- Hin]].
  cbn [fst snd]. unfold row_get. rewrite Hi.
  apply in_combine_r in Hin. apply in_map_iff in Hin. destruct Hin as [c [<- _]].
  destruct (cell_at_replace_nth i r0 (to_datetime_coerce datetime_of_str datetime_of_num c))
    as [E|E]; rewrite E; [|now left].
  apply to_datetime_coerce_cases.
Qed.

Lemma dropna_rows (df : DataFrame) (names : list string) (out : DataFrame) :
  dropna df names = Ok out ->
  columns out = columns df
  /\ rows out = filter (fun r => forallb (fun n => notna (row_get (columns df) r n)) names)
                       (rows df).
Proof.
  unfold dropna. destruct (forallb (has_column df) names); [|discriminate].
  intros H; inversion H. split; reflexivity.
Qed.

(** X8.  When [make_plot] draws a line chart, the chart's table holds
    exactly the rows of the (time-converted) table that have a time and a
    value, each with a proper timestamp, in ascending order of time. *)
Theorem make_plot_chart_is_sorted (df : DataFrame) (v : string)
    (ts : DataFrame) (v' : string) (df' : DataFrame) :
  make_plot datetime_of_str datetime_of_num df (PStr v) = Ok (LineChart ts v', df') ->
  v' = v
  /\ df' = coerce_time datetime_of_str datetime_of_num df
  /\ columns ts = columns df
  /\ Permutation (rows ts) (filter (chartable (columns df) v) (rows df'))
  /\ Sorted (fun a b => time_key (columns df) a <= time_key (columns df) b) (rows ts)
  /\ (forall r, In r (rows ts) ->
                (exists t, row_get (columns df) r "time" = Stamp t)
                /\ notna (row_get (columns df) r v) = true).
Proof.
  unfold make_plot.
  destruct (df_empty df); [discriminate|].
  cbn [in_columns bind].
  destruct (has_column df v); [|discriminate].
  destruct (has_column df "time") eqn:Ht.
  2:{ destruct (df_empty (reset_index df)); discriminate. }
  destruct (coerce_time_cells df Ht) as [Hc Hcells].
  destruct (dropna _ _) as [d|] eqn:D; cbn [bind]; [|discriminate].
  apply dropna_rows in D. destruct D as [Dc Dr]. rewrite Hc in Dc, Dr.
  destruct (df_empty (sort_values_time d)); [discriminate|].
  intros H; inversion H; subst ts v' df'; clear H.
  unfold sort_values_time. cbn [columns rows]. rewrite Dc.
  assert (P : Permutation (fold_right (insert_by (time_key (columns df))) [] (rows d))
                          (filter (chartable (columns df) v)
                                  (rows (coerce_time datetime_of_str datetime_of_num df)))).
  { eapply Permutation_trans; [apply sort_by_perm|]. rewrite Dr.
    erewrite filter_ext; [apply Permutation_refl|].
    intros r. unfold chartable. cbn [forallb]. now rewrite andb_true_r. }
  repeat split; try assumption.
  - apply sort_by_sorted.
  - pose proof (Permutation_in _ P H) as Hin. apply filter_In in Hin.
    destruct Hin as [Hin Hch]. unfold chartable in Hch.
    apply andb_true_iff in Hch. destruct Hch as [Hn _].
    destruct (Hcells r Hin) as [E|E]; [rewrite E in Hn; discriminate|exact E].
  - pose proof (Permutation_in _ P H) as Hin. apply filter_In in Hin.
    destruct Hin as [_ Hch]. unfold chartable in Hch.
    apply andb_true_iff in Hch. apply Hch.
Qed.

(** [make_comparison_plot] has no raising path. *)
Lemma make_comparison_plot_returns (df : DataFrame) (variables : list string) :
  exists h df', make_comparison_plot datetime_of_str datetime_of_num df variables
                = Ok (h, df').
Proof.
  unfold make_comparison_plot.
  destruct (df_empty df); [eauto|].
  destruct (has_column df "time") eqn:Ht; cbn [negb]; [|eauto].
  destruct (coerce_time_cells df Ht) as [Hc _].
  unfold dropna. cbn [forallb]. unfold has_column at 1. rewrite Hc.
  fold (has_column df "time"). rewrite Ht. cbn [andb bind].
  match goal with |- context [flat_map ?f variables] => destruct (flat_map f variables) end;
    eauto.
Qed.

(** X9.  [make_comparison_plot] never raises; and when it draws a chart
    there is at least one trace, each trace is for one of the requested
    variables and holds at least one row, and every row of a trace has a
    proper timestamp and a value of that variable. *)
Theorem make_comparison_plot_traces (df : DataFrame) (variables : list string) :
  (exists h df', make_comparison_plot datetime_of_str datetime_of_num df variables
                 = Ok (h, df'))
  /\ forall traces df',
       make_comparison_plot datetime_of_str datetime_of_num df variables
       = Ok (ComparisonChart traces, df') ->
       traces <> []
       /\ forall var t, In (var, t) traces ->
            In var variables
            /\ rows t <> []
            /\ forall r, In r (rows t) ->
                 (exists s, row_get (columns df) r "time" = Stamp s)
                 /\ notna (row_get (columns df) r var) = true.
Proof.
  split; [apply make_comparison_plot_returns|].
  unfold make_comparison_plot.
  destruct (df_empty df); [discriminate|].
  destruct (has_column df "time") eqn:Ht; cbn [negb]; [|discriminate].
  destruct (coerce_time_cells df Ht) as [Hc Hcells].
  assert (D : dropna (coerce_time datetime_of_str datetime_of_num df) ["time"]
              = Ok (mkFrame (columns df)
                      (filter (fun r => notna (row_get (columns df) r "time") && true)
                              (rows (coerce_time datetime_of_str datetime_of_num df)))
                      (zoned (coerce_time datetime_of_str datetime_of_num df)))).
  { unfold dropna. cbn [forallb]. unfold has_column at 1. rewrite Hc.
    fold (has_column df "time"). rewrite Ht. reflexivity. }
  rewrite D. cbn [bind].
  match goal with |- context [flat_map ?f variables] => set (F := f) end.
  intros traces df'.
    destruct (flat_map F variables) as [|x l] eqn:E; [discriminate|].
    intros H; inversion H; subst traces df'; clear H.
    split; [discriminate|].
    intros var t Hin. rewrite <- E in Hin. apply in_flat_map in Hin.
    destruct Hin as [var0 [Hv Hin]]. unfold F in Hin.
    destruct (has_column (sort_values_time _) var0); [|destruct Hin].
    destruct (dropna (sort_values_time _) [var0]) as [tc|] eqn:Dc; [|destruct Hin].
    destruct (df_empty tc) eqn:Ee; [destruct Hin|].
    destruct Hin as [Hin|[]]. inversion Hin; subst var0 tc; clear Hin.
    apply dropna_rows in Dc. destruct Dc as [Dcol Drows].
    unfold sort_values_time in Dcol, Drows. cbn [columns rows] in Dcol, Drows.
    split; [exact Hv|]. split.
    + unfold df_empty in Ee. destruct (columns t); [discriminate|].
      destruct (rows t); [discriminate|discriminate].
    + intros r Hr. rewrite Drows in Hr. apply filter_In in Hr. destruct Hr as [Hr Hn].
      cbn [forallb] in Hn. rewrite andb_true_r in Hn.
      split; [|exact Hn].
      pose proof (Permutation_in _ (sort_by_perm _ _) Hr) as Hr'.
      apply filter_In in Hr'. destruct Hr' as [Hr' Hn'].
      rewrite andb_true_r in Hn'.
      destruct (Hcells r Hr') as [E0|E0]; [rewrite E0 in Hn'; discriminate|exact E0].
Qed.

End Charts.

Lemma make_plot_chart_witness :
  make_plot no_datetime_text no_datetime_number gappy_frame (PStr "salinity")
  = Ok (LineChart gappy_frame "salinity", gappy_frame)
  /\ Sorted (fun a b => time_key (columns gappy_frame) a <= time_key (columns gappy_frame) b)
            (rows gappy_frame).
Proof.
  split; [reflexivity|].
  exact (proj1 (proj2 (proj2 (proj2 (proj2
           (make_plot_chart_is_sorted no_datetime_text no_datetime_number gappy_frame
              "salinity" gappy_frame "salinity" gappy_frame eq_refl)))))).
Defined.


(** ** The markers of the map *)

Section Markers.

Variable float_of_str : string -> option pyfloat.

Lemma py_float_numeric (c : cell) :
  numeric c = true -> py_float float_of_str c = Ok (coordinate c).
Proof. destruct c; simpl; intros H; try discriminate; reflexivity. Qed.

Lemma float_property_numeric (cols : list string) (r : row) (name : string) :
  numeric (row_get cols r name) = true ->
  exists x, float_property float_of_str cols r name = Ok x.
Proof.
  unfold float_property, row_get.
  destruct (index_of name cols) as [i|]; [|eauto].
  intros H. destruct (notna (cell_at i r)); [|eauto].
  rewrite (py_float_numeric _ H). cbn [bind]. eauto.
Qed.

Lemma collect_features_numeric (cols : list string) (rs : list row) :
  (forall r, In r rs ->
             numeric (row_get cols r "lat") = true
             /\ numeric (row_get cols r "lon") = true
             /\ numeric (row_get cols r "temperature") = true
             /\ numeric (row_get cols r "salinity") = true) ->
  exists fs,
    collect_features float_of_str cols rs = Ok fs
    /\ map (fun f => (f_lat f, f_lon f)) fs
       = map (fun r => (coordinate (row_get cols r "lat"),
                        coordinate (row_get cols r "lon"))) rs.
Proof.
  induction rs as [|r rs IH]; intros H; simpl; [eauto|].
  destruct IH as [fs [E M]]; [intros; apply H; now right|].
  destruct (H r (or_introl eq_refl)) as (Hlat & Hlon & Ht & Hs).
  unfold feature_of_row.
  rewrite (py_float_numeric _ Hlat), (py_float_numeric _ Hlon).
  destruct (float_property_numeric cols r "temperature" Ht) as [t ->].
  destruct (float_property_numeric cols r "salinity" Hs) as [s ->].
  cbn [bind]. rewrite E. cbn [bind].
  eexists. split; [reflexivity|]. simpl. now rewrite M.
Qed.

(** X10.  On a non-empty table with [lat] and [lon] columns whose
    coordinates and measurements are numbers or missing, [make_map] returns
    a map with one marker for each row that has both coordinates, in the
    order of the rows and at the row's coordinates; rows lacking a
    coordinate get no marker. *)
Theorem make_map_markers (df : DataFrame) :
  df_empty df = false ->
  has_column df "lat" = true ->
  has_column df "lon" = true ->
  numeric_coordinates df = true ->
  numeric_measurements df = true ->
  exists features center_lat center_lon,
    make_map float_of_str df = Ok (LeafletMap features center_lat center_lon)
    /\ map (fun f => (f_lat f, f_lon f)) features
       = map (fun r => (coordinate (row_get (columns df) r "lat"),
                        coordinate (row_get (columns df) r "lon")))
             (filter (located (columns df)) (rows df))
    /\ List.length features = List.length (filter (located (columns df)) (rows df)).
Proof.
  intros Hne Hlat Hlon Hnum Hmeas.
  unfold make_map. rewrite Hne, (dropna_lat_lon df Hlat Hlon). cbn [bind columns rows].
  erewrite (filter_ext _ (located (columns df))).
  2:{ intros r. unfold located. now rewrite andb_true_r. }
  unfold numeric_coordinates in Hnum. unfold numeric_measurements in Hmeas.
  rewrite forallb_forall in Hnum, Hmeas.
  destruct (collect_features_numeric (columns df) (filter (located (columns df)) (rows df)))
    as [fs [E M]].
  { intros r Hr. apply filter_In in Hr. destruct Hr as [Hr _].
    specialize (Hnum r Hr). specialize (Hmeas r Hr).
    apply andb_true_iff in Hnum. apply andb_true_iff in Hmeas. tauto. }
  rewrite E. cbn [bind].
  destruct (map_center_total fs) as [[a b] ->]. cbn [bind fst snd].
  exists fs, a, b. split; [reflexivity|]. split; [exact M|].
  rewrite <- (length_map (fun f => (f_lat f, f_lon f)) fs), M. apply length_map.
Qed.

End Markers.

Lemma make_map_markers_witness :
  df_empty gappy_frame = false
  /\ exists features center_lat center_lon,
       make_map no_float_text gappy_frame = Ok (LeafletMap features center_lat center_lon)
       /\ List.length features = 2%nat.
Proof.
  split; [reflexivity|].
  destruct (make_map_markers no_float_text gappy_frame eq_refl eq_refl eq_refl eq_refl eq_refl)
    as (fs & a & b & E & _ & L).
  exists fs, a, b. split; [exact E|exact L].
Defined.

(** ** Region resolution *)

(** X11.  Whatever the parameters are (an adopted oracle object included),
    when [chat_view]'s region resolution returns, the [bbox] it stored is
    the box of one of the presets (the pacific one for an unknown or
    non-text region), the four numbers [fetch_argo_data] unpacks, and no
    other key has changed; it raises only for a region that is a list or an
    object. *)
Theorem resolve_region_stores_a_preset_box (params : dict) :
  (forall params',
      resolve_region params = Ok params' ->
      exists name box,
        In (name, box) REGION_PRESETS
        /\ dict_get params' "bbox" = Some (PList (map PInt box))
        /\ (exists b, bbox_of (PList (map PInt box)) = Ok b)
        /\ (dict_get params "region" = Some (PStr name) \/ name = "pacific")
        /\ forall k, k <> "bbox" -> dict_get params' k = dict_get params k)
  /\ (forall e,
         resolve_region params = Raise e ->
         e = TypeError
         /\ exists v, dict_get params "region" = Some v
                      /\ ((exists l, v = PList l) \/ (exists d, v = PDict d))).
Proof.
  unfold resolve_region, dict_get_default.
  assert (K : forall box k, k <> "bbox" ->
                dict_get (dict_set params "bbox" (PList (map PInt box))) k
                = dict_get params k).
  { intros box k Hk. rewrite dict_get_set.
    destruct (String.eqb "bbox" k) eqn:E; [|reflexivity].
    apply String.eqb_eq in E. congruence. }
  assert (P : forall box, dict_get (dict_set params "bbox" (PList (map PInt box))) "bbox"
                          = Some (PList (map PInt box))).
  { intros box. rewrite dict_get_set. reflexivity. }
  assert (Pac : forall params',
             Ok (dict_set params "bbox" (PList (map PInt [-180; 180; -60; 60]))) = Ok params' ->
             exists name box,
               In (name, box) REGION_PRESETS
               /\ dict_get params' "bbox" = Some (PList (map PInt box))
               /\ (exists b, bbox_of (PList (map PInt box)) = Ok b)
               /\ (dict_get params "region" = Some (PStr name) \/ name = "pacific")
               /\ forall k, k <> "bbox" -> dict_get params' k = dict_get params k).
  { intros params' H; inversion H; subst params'.
    exists "pacific", [-180; 180; -60; 60].
    split; [simpl; tauto|]. split; [exact (P [-180; 180; -60; 60])|].
    split; [eexists; reflexivity|].
    split; [now right|exact (K [-180; 180; -60; 60])]. }
  destruct (dict_get params "region") as [v|] eqn:R.
  - destruct v as [|b|n|x|s|l|d]; cbn [bind].
    1-4: split; [exact Pac|discriminate].
    + split; [|discriminate].
      destruct (find (fun kv => String.eqb (fst kv) s) REGION_PRESETS) as [[name box]|] eqn:F.
      * intros params' H; inversion H; subst params'.
        apply find_some in F. destruct F as [Fin Feq]. cbn [fst] in Feq.
        apply String.eqb_eq in Feq. subst name. cbn [snd].
        exists s, box. split; [exact Fin|]. split; [apply P|].
        split.
        { simpl in Fin.
          destruct Fin as [F|[F|[F|[F|[]]]]]; inversion F; subst;
            eexists; reflexivity. }
        split; [now left|apply K].
      * exact Pac.
    + split; [discriminate|]. intros e H; inversion H. split; [reflexivity|].
      eexists. split; [reflexivity|]. left. eauto.
    + split; [discriminate|]. intros e H; inversion H. split; [reflexivity|].
      eexists. split; [reflexivity|]. right. eauto.
  - cbn [bind]. split; [|discriminate].
    intros params' H; inversion H; subst params'.
    exists "pacific", [-180; 180; -60; 60].
    split; [simpl; tauto|]. split; [exact (P [-180; 180; -60; 60])|].
    split; [eexists; reflexivity|].
    split; [now right|exact (K [-180; 180; -60; 60])].
Qed.


(** ** Alias columns *)

Lemma index_of_lt (name : string) (cols : list string) (i : nat) :
  index_of name cols = Some i -> (i < List.length cols)%nat.
Proof.
  revert i. induction cols as [|c cols IH]; simpl; intros i; [discriminate|].
  destruct (String.eqb c name).
  - intros H; inversion H. lia.
  - destruct (index_of name cols) as [j|]; [|discriminate].
    intros H; inversion H. specialize (IH j eq_refl). lia.
Qed.

Lemma index_of_app_old (name : string) (cols extra : list string) (i : nat) :
  index_of name cols = Some i -> index_of name (cols ++ extra)%list = Some i.
Proof.
  revert i. induction cols as [|c cols IH]; simpl; intros i; [discriminate|].
  destruct (String.eqb c name); [tauto|].
  destruct (index_of name cols) as [j|]; [|discriminate].
  intros H. now rewrite (IH j eq_refl).
Qed.

Lemma index_of_app_new (name : string) (cols : list string) :
  index_of name cols = None ->
  index_of name (cols ++ [name])%list = Some (List.length cols).
Proof.
  induction cols as [|c cols IH]; simpl.
  - now rewrite String.eqb_refl.
  - destruct (String.eqb c name); [discriminate|].
    destruct (index_of name cols); [discriminate|].
    intros _. now rewrite IH.
Qed.

Lemma index_of_app_other (name other : string) (cols : list string) :
  index_of other cols = None -> String.eqb name other = false ->
  index_of other (cols ++ [name])%list = None.
Proof.
  induction cols as [|c cols IH]; simpl; intros H E.
  - now rewrite E.
  - destruct (String.eqb c other); [discriminate|].
    destruct (index_of other cols); [discriminate|]. now rewrite IH.
Qed.

Lemma cell_at_app_old (i : nat) (r extra : row) :
  (i < List.length r)%nat -> cell_at i (r ++ extra)%list = cell_at i r.
Proof. intros H. unfold cell_at. now apply app_nth1. Qed.

Lemma cell_at_app_new (r : row) (v : cell) :
  cell_at (List.length r) (r ++ [v])%list = v.
Proof. unfold cell_at. rewrite app_nth2, Nat.sub_diag; [reflexivity|lia]. Qed.

(** [df[dst] = df[src]] for a new label [dst], on a rectangular table: the
    new column holds the values of [src], every other column is as it was,
    and the table is still rectangular with the same number of rows. *)
Lemma copy_new_column (df : DataFrame) (dst src : string) :
  rectangular df = true ->
  has_column df dst = false ->
  has_column df src = true ->
  rectangular (copy_column_if true df dst src) = true
  /\ len (copy_column_if true df dst src) = len df
  /\ column (copy_column_if true df dst src) dst = column df src
  /\ has_column (copy_column_if true df dst src) dst = true
  /\ (forall c, has_column df c = true ->
                has_column (copy_column_if true df dst src) c = true
                /\ column (copy_column_if true df dst src) c = column df c)
  /\ (forall c, has_column df c = false -> String.eqb dst c = false ->
                has_column (copy_column_if true df dst src) c = false).
Proof.
  intros Hrect Hdst Hsrc.
  destruct (has_column_index _ _ Hsrc) as [j Hj].
  assert (Hd : index_of dst (columns df) = None).
  { unfold has_column in Hdst. destruct (index_of dst (columns df)); [discriminate|easy]. }
  assert (E : copy_column_if true df dst src
              = mkFrame (columns df ++ [dst])%list
                        (map (fun r => (r ++ [cell_at j r])%list) (rows df))
                        (zoned df)).
  { unfold copy_column_if, column. rewrite Hj. unfold assign. rewrite Hd.
    now rewrite combine_map_r, map_map. }
  rewrite E. clear E.
  unfold rectangular in *. rewrite forallb_forall in Hrect.
  assert (L : forall r, In r (rows df) -> List.length r = List.length (columns df)).
  { intros r Hr. apply Nat.eqb_eq. now apply Hrect. }
  split; [|split; [|split; [|split; [|split]]]].
  - cbn [columns rows]. apply forallb_forall. intros r' Hr'.
    apply in_map_iff in Hr'. destruct Hr' as [r [<- Hr]].
    apply Nat.eqb_eq. rewrite !length_app, (L r Hr). reflexivity.
  - unfold len. cbn [rows]. apply length_map.
  - unfold column. cbn [columns rows]. rewrite (index_of_app_new _ _ Hd), Hj, map_map.
    f_equal. apply map_ext_in. intros r Hr. rewrite <- (L r Hr). apply cell_at_app_new.
  - unfold has_column. cbn [columns]. now rewrite (index_of_app_new _ _ Hd).
  - intros c Hc. destruct (has_column_index _ _ Hc) as [i Hi].
    unfold has_column, column. cbn [columns rows].
    rewrite (index_of_app_old _ _ [dst] _ Hi), Hi. split; [reflexivity|].
    rewrite map_map. f_equal. apply map_ext_in. intros r Hr.
    apply cell_at_app_old. rewrite (L r Hr). now apply index_of_lt with c.
  - intros c Hc E. unfold has_column in *. cbn [columns].
    destruct (index_of c (columns df)) eqn:Ec; [discriminate|].
    now rewrite (index_of_app_other dst c _ Ec E).
Qed.

(** X12.  The demo table's alias step (lines 84-87): on a rectangular table
    that lacks [lon] but has [longitude], the table gets a [lon] column with
    the values of [longitude], and likewise [lat] from [latitude]; a table
    that has both [lon] and [lat] is left as it is; the number of rows never
    changes. *)
Theorem ensure_lon_lat_aliases (df : DataFrame) :
  rectangular df = true ->
  (has_column df "lon" = true -> has_column df "lat" = true -> ensure_lon_lat df = df)
  /\ (has_column df "lon" = false -> has_column df "longitude" = true ->
      column (ensure_lon_lat df) "lon" = column df "longitude")
  /\ (has_column df "lat" = false -> has_column df "latitude" = true ->
      column (ensure_lon_lat df) "lat" = column df "latitude")
  /\ len (ensure_lon_lat df) = len df.
Proof.
  intros Hrect. unfold ensure_lon_lat.
  destruct (has_column df "lon") eqn:Hlon; cbn [negb andb].
  - (* lon present: the first step does nothing *)
    change (copy_column_if false df "lon" "longitude") with df.
    destruct (has_column df "lat") eqn:Hlat; cbn [negb andb].
    + repeat split; intros; try discriminate; reflexivity.
    + destruct (has_column df "latitude") eqn:Hla.
      * destruct (copy_new_column df "lat" "latitude" Hrect Hlat Hla)
          as (_ & L & C & _).
        repeat split; intros; try discriminate; assumption.
      * repeat split; intros; try discriminate; reflexivity.
  - destruct (has_column df "longitude") eqn:Hlo.
    + destruct (copy_new_column df "lon" "longitude" Hrect Hlon Hlo)
        as (R1 & L1 & C1 & H1 & Old1 & New1).
      set (df1 := copy_column_if true df "lon" "longitude") in *.
      destruct (has_column df "lat") eqn:Hlat.
      * destruct (Old1 "lat" Hlat) as [Hlat1 _]. rewrite Hlat1. cbn [negb andb].
        change (copy_column_if false df1 "lat" "latitude") with df1.
        repeat split; intros; try discriminate; assumption.
      * rewrite (New1 "lat" Hlat eq_refl). cbn [negb andb].
        destruct (has_column df "latitude") eqn:Hla.
        -- destruct (Old1 "latitude" Hla) as [Hla1 Cla1]. rewrite Hla1.
           destruct (copy_new_column df1 "lat" "latitude" R1 (New1 "lat" Hlat eq_refl) Hla1)
             as (_ & L2 & C2 & _ & Old2 & _).
           split; [discriminate|]. split; [|split].
           ++ intros _ _. destruct (Old2 "lon" H1) as [_ ->]. exact C1.
           ++ intros _ _. rewrite C2. exact Cla1.
           ++ now rewrite L2.
        -- assert (Hla1 : has_column df1 "latitude" = false)
             by (apply New1; [exact Hla|reflexivity]).
           rewrite Hla1. change (copy_column_if false df1 "lat" "latitude") with df1.
           repeat split; intros; try discriminate; assumption.
    + change (copy_column_if false df "lon" "longitude") with df.
      destruct (has_column df "lat") eqn:Hlat; cbn [negb andb].
      * repeat split; intros; try discriminate; reflexivity.
      * destruct (has_column df "latitude") eqn:Hla.
        -- destruct (copy_new_column df "lat" "latitude" Hrect Hlat Hla)
             as (_ & L & C & _).
           repeat split; intros; try discriminate; assumption.
        -- repeat split; intros; try discriminate; reflexivity.
Qed.


Lemma is_str_eq (v : pyval) (s : string) : is_str v s = true <-> v = PStr s.
Proof.
  destruct v; simpl; split; intros H; try discriminate.
  - apply String.eqb_eq in H. now subst.
  - inversion H. apply String.eqb_refl.
Qed.

Lemma column_has (df : DataFrame) (c : string) (vals : list cell) :
  column df c = Ok vals -> has_column df c = true.
Proof.
  unfold column, has_column. destruct (index_of c (columns df)); [reflexivity|discriminate].
Qed.

Lemma has_column_column (df : DataFrame) (c : string) :
  has_column df c = true -> exists vals, column df c = Ok vals.
Proof.
  unfold column, has_column. destruct (index_of c (columns df)); [eauto|discriminate].
Qed.

(** one turn of the loop of lines 132-137 *)
Lemma ensure_variables_step (d : DataFrame) (v : pyval) (present : bool) :
  rectangular d = true ->
  in_columns v d = Ok present ->
  exists d1,
    (forall vs, ensure_variables (v :: vs) d = ensure_variables vs d1)
    /\ rectangular d1 = true
    /\ len d1 = len d
    /\ (forall c, has_column d c = true ->
                  has_column d1 c = true /\ column d1 c = column d c)
    /\ (forall c, has_column d c = false -> has_column d1 c = true ->
                  (c = "temperature" /\ v = PStr "temperature")
                  \/ (c = "salinity" /\ v = PStr "salinity"))
    /\ (v = PStr "temperature" -> has_column d "temperature" = false ->
        has_column d "temp" = true -> column d1 "temperature" = column d "temp")
    /\ (v = PStr "salinity" -> has_column d "salinity" = false ->
        has_column d "sal" = true -> column d1 "salinity" = column d "sal").
Proof.
  intros Hrect Hin.
  assert (Same : rectangular d = true /\ len d = len d
            /\ (forall c, has_column d c = true ->
                          has_column d c = true /\ column d c = column d c)
            /\ (forall c, has_column d c = false -> has_column d c = true ->
                          (c = "temperature" /\ v = PStr "temperature")
                          \/ (c = "salinity" /\ v = PStr "salinity"))).
  { repeat split; try assumption. intros c H1 H2. congruence. }
  destruct Same as (A & B & C & D).
  destruct present.
  - (* the label is a column already *)
    exists d. split; [intros vs; cbn [ensure_variables]; rewrite Hin; reflexivity|].
    split; [exact A|]. split; [exact B|]. split; [exact C|]. split; [exact D|].
    split; intros -> Hn; simpl in Hin; congruence.
  - destruct (is_str v "temperature" && has_column d "temp") eqn:Et.
    + apply andb_true_iff in Et. destruct Et as [Ev Ht].
      apply is_str_eq in Ev. subst v. pose proof Hin as Hin0.
      assert (Hn : has_column d "temperature" = false) by (simpl in Hin; congruence).
      destruct (copy_new_column d "temperature" "temp" Hrect Hn Ht)
        as (R & L & Cc & Hnew & Old & New).
      exists (copy_column_if true d "temperature" "temp").
      split.
      { intros vs. cbn [ensure_variables]. rewrite Hin0. cbn [bind negb].
        rewrite Ht. reflexivity. }
      split; [exact R|]. split; [exact L|]. split; [exact Old|].
      split; [|split; [intros _ _ _; exact Cc|discriminate]].
      intros c Hc Hc'. left. split; [|reflexivity].
      destruct (String.eqb "temperature" c) eqn:E.
      * apply String.eqb_eq in E. now subst.
      * rewrite (New c Hc E) in Hc'. discriminate.
    + destruct (is_str v "salinity" && has_column d "sal") eqn:Es.
      * apply andb_true_iff in Es. destruct Es as [Ev Hs].
        apply is_str_eq in Ev. subst v. pose proof Hin as Hin0.
        assert (Hn : has_column d "salinity" = false) by (simpl in Hin; congruence).
        destruct (copy_new_column d "salinity" "sal" Hrect Hn Hs)
          as (R & L & Cc & Hnew & Old & New).
        exists (copy_column_if true d "salinity" "sal").
        split.
        { intros vs. cbn [ensure_variables]. rewrite Hin0. cbn [bind negb].
          rewrite Hs. reflexivity. }
        split; [exact R|]. split; [exact L|]. split; [exact Old|].
        split; [|split; [discriminate|intros _ _ _; exact Cc]].
        intros c Hc Hc'. right. split; [|reflexivity].
        destruct (String.eqb "salinity" c) eqn:E.
        -- apply String.eqb_eq in E. now subst.
        -- rewrite (New c Hc E) in Hc'. discriminate.
      * exists d.
        split.
        { intros vs. cbn [ensure_variables]. rewrite Hin. cbn [bind negb].
          rewrite Et, Es. reflexivity. }
        split; [exact A|]. split; [exact B|]. split; [exact C|]. split; [exact D|].
        split.
        -- intros -> Hn Ht. cbn [is_str] in Et. rewrite Ht in Et. cbn in Et. discriminate.
        -- intros -> Hn Hs. cbn [is_str] in Es. rewrite Hs in Es. cbn in Es. discriminate.
Qed.

(** X13.  The variable-alias loop of [chat_view] (lines 132-137), on a
    rectangular table: it never changes the number of rows nor any existing
    column, the only labels it can add are [temperature] and [salinity], and
    a requested [temperature] (or [salinity]) that the table lacks gets the
    values of the [temp] (or [sal]) column when there is one. *)
Theorem ensure_variables_aliases (vs : list pyval) (df df' : DataFrame) :
  rectangular df = true ->
  ensure_variables vs df = Ok df' ->
  len df' = len df
  /\ (forall c, has_column df c = true ->
                has_column df' c = true /\ column df' c = column df c)
  /\ (forall c, has_column df c = false -> has_column df' c = true ->
                c = "temperature" \/ c = "salinity")
  /\ (In (PStr "temperature") vs -> has_column df "temperature" = false ->
      has_column df "temp" = true -> column df' "temperature" = column df "temp")
  /\ (In (PStr "salinity") vs -> has_column df "salinity" = false ->
      has_column df "sal" = true -> column df' "salinity" = column df "sal").
Proof.
  revert df. induction vs as [|v vs IH]; intros df Hrect H.
  - simpl in H. inversion H; subst df'.
    split; [reflexivity|]. split; [intros c Hc; now split|].
    split; [intros c H1 H2; congruence|]. split; contradiction.
  - destruct (in_columns v df) as [present|] eqn:Ein.
    2:{ cbn [ensure_variables] in H. rewrite Ein in H. discriminate. }
    destruct (ensure_variables_step df v present Hrect Ein)
      as (d1 & Eq & R1 & L1 & Old1 & New1 & T1 & S1).
    rewrite Eq in H.
    destruct (IH d1 R1 H) as (L & Old & New & T & S).
    split; [congruence|]. split; [|split; [|split]].
    + intros c Hc. destruct (Old1 c Hc) as [H1 C1]. destruct (Old c H1) as [H2 C2].
      split; [exact H2|congruence].
    + intros c Hc Hc'. destruct (has_column d1 c) eqn:E.
      * destruct (New1 c Hc E) as [[-> _]|[-> _]]; tauto.
      * now apply New.
    + intros Hin Hn Ht. destruct (Old1 "temp" Ht) as [Ht1 Ct1].
      destruct (is_str v "temperature") eqn:Ev.
      * apply is_str_eq in Ev. pose proof (T1 Ev Hn Ht) as C.
        destruct (has_column_column df "temp" Ht) as [vals Hv].
        assert (Hh : has_column d1 "temperature" = true).
        { apply column_has with vals. congruence. }
        destruct (Old "temperature" Hh) as [_ C']. congruence.
      * assert (Hin' : In (PStr "temperature") vs).
        { destruct Hin as [->|Hin]; [|exact Hin]. cbn in Ev. discriminate. }
        assert (Hn1 : has_column d1 "temperature" = false).
        { destruct (has_column d1 "temperature") eqn:E; [|reflexivity].
          destruct (New1 "temperature" Hn E) as [[_ Hv]|[Hc _]]; [|discriminate].
          subst v. cbn in Ev. discriminate. }
        rewrite (T Hin' Hn1 Ht1). exact Ct1.
    + intros Hin Hn Hs. destruct (Old1 "sal" Hs) as [Hs1 Cs1].
      destruct (is_str v "salinity") eqn:Ev.
      * apply is_str_eq in Ev. pose proof (S1 Ev Hn Hs) as C.
        destruct (has_column_column df "sal" Hs) as [vals Hv].
        assert (Hh : has_column d1 "salinity" = true).
        { apply column_has with vals. congruence. }
        destruct (Old "salinity" Hh) as [_ C']. congruence.
      * assert (Hin' : In (PStr "salinity") vs).
        { destruct Hin as [->|Hin]; [|exact Hin]. cbn in Ev. discriminate. }
        assert (Hn1 : has_column d1 "salinity" = false).
        { destruct (has_column d1 "salinity") eqn:E; [|reflexivity].
          destruct (New1 "salinity" Hn E) as [[Hc _]|[_ Hv]]; [discriminate|].
          subst v. cbn in Ev. discriminate. }
        rewrite (S Hin' Hn1 Hs1). exact Cs1.
Qed.

Lemma ensure_lon_lat_witness :
  column (ensure_lon_lat alias_frame) "lon" = column alias_frame "longitude"
  /\ column (ensure_lon_lat alias_frame) "lat" = column alias_frame "latitude"
  /\ len (ensure_lon_lat alias_frame) = len alias_frame.
Proof.
  destruct (ensure_lon_lat_aliases alias_frame eq_refl) as (_ & Hlon & Hlat & L).
  split; [apply Hlon; reflexivity|]. split; [apply Hlat; reflexivity|exact L].
Defined.

Lemma ensure_variables_witness :
  exists df',
    ensure_variables [PStr "salinity"; PStr "temperature"] alias_frame = Ok df'
    /\ len df' = len alias_frame
    /\ column df' "temperature" = column alias_frame "temp"
    /\ column df' "salinity" = column alias_frame "sal".
Proof.
  eexists. split; [reflexivity|].
  destruct (ensure_variables_aliases [PStr "salinity"; PStr "temperature"] alias_frame _
              eq_refl eq_refl) as (L & _ & _ & T & S).
  split; [exact L|]. split.
  - apply T; [simpl; auto|reflexivity|reflexivity].
  - apply S; [simpl; auto|reflexivity|reflexivity].
Defined.

(** ** The request dispatch of [chat_view] *)

Lemma of_code_points_empty (l : list Z) : Text.of_code_points l = "" -> l = [].
Proof.
  destruct l as [|c l]; [reflexivity|].
  unfold Text.of_code_points. cbn [flat_map]. unfold Text.utf8.
  destruct (c <? 128); [discriminate|].
  destruct ((56448 <=? c) && (c <? 56576)); [discriminate|].
  destruct (c <? 2048); [discriminate|].
  destruct (c <? 65536); discriminate.
Qed.

Lemma lstrip_empty (l : list Z) : Text.lstrip l = [] <-> forallb Text.is_space l = true.
Proof.
  induction l as [|c l IH]; cbn [Text.lstrip forallb].
  - tauto.
  - destruct (Text.is_space c); cbn [andb]; [exact IH|]. split; discriminate.
Qed.

Lemma all_space_lstrip (l : list Z) :
  forallb Text.is_space (Text.lstrip l) = forallb Text.is_space l.
Proof.
  induction l as [|c l IH]; cbn [Text.lstrip forallb]; [reflexivity|].
  destruct (Text.is_space c) eqn:E; cbn [andb]; [exact IH|].
  cbn [forallb]. now rewrite E.
Qed.

Lemma all_space_rev (l : list Z) :
  forallb Text.is_space (rev l) = true -> forallb Text.is_space l = true.
Proof.
  rewrite !forallb_forall. intros H c Hc. apply H. now apply in_rev in Hc.
Qed.

Lemma strip_blank (s : string) : Text.strip s = "" <-> blank s = true.
Proof.
  unfold Text.strip, blank. split.
  - intros H. apply of_code_points_empty in H.
    assert (E : Text.lstrip (rev (Text.lstrip (Text.code_points s))) = []).
    { destruct (Text.lstrip (rev (Text.lstrip (Text.code_points s)))) as [|c l];
        [reflexivity|].
      cbn [rev] in H. apply app_eq_nil in H. destruct H as [_ H]. discriminate. }
    apply lstrip_empty in E. apply all_space_rev in E.
    now rewrite all_space_lstrip in E.
  - intros H. apply lstrip_empty in H. rewrite H. reflexivity.
Qed.

Section Dispatch.

Variable float_of_str : string -> option pyfloat.
Variable datetime_of_str : string -> option Z.
Variable datetime_of_num : Q -> option Z.
Variable float_mean : list Q -> pyfloat.

(** X14.  The dispatch of [chat_view] (lines 101-104 and 166-183): a request
    that is not a POST gets the form; a POST is answered by the redirect to
    the form exactly when its query holds white space only; and a results
    page is only ever the answer to a POST with a query that is not blank,
    echoes the query without its surrounding white space, and never has both
    of its [map_only] and [comparison_only] flags set. *)
Theorem chat_view_dispatch (w : world) (o : oracle) (method query : string) :
  (method <> "POST" ->
   chat_view float_of_str datetime_of_str datetime_of_num float_mean w o method query = Ok Form)
  /\ (chat_view float_of_str datetime_of_str datetime_of_num float_mean w o "POST" query
      = Ok (Redirect "chat") <-> blank query = true)
  /\ (forall ctx,
        chat_view float_of_str datetime_of_str datetime_of_num float_mean w o method query
        = Ok (Results ctx) ->
        method = "POST"
        /\ blank query = false
        /\ r_query ctx = Text.strip query
        /\ r_map_only ctx && r_comparison_only ctx = false).
Proof.
  split; [|split].
  - intros H. unfold chat_view. apply String.eqb_neq in H. now rewrite H.
  - unfold chat_view. rewrite String.eqb_refl.
    destruct (String.eqb (Text.strip query) "") eqn:E.
    + apply String.eqb_eq in E. apply strip_blank in E. tauto.
    + split.
      * intros H.
        destruct (interpret o (Text.strip query)) as [j|]; [|discriminate].
        cbn [bind] in H.
        destruct (as_dict j) as [p0|]; [|discriminate].
        cbn [bind] in H.
        destruct (resolve_region p0) as [p|]; [|discriminate]. cbn [bind] in H.
        destruct (resolve datetime_of_str datetime_of_num w p) as [df|]; [|discriminate].
        cbn [bind] in H.
        destruct (build float_of_str datetime_of_str datetime_of_num float_mean p df)
          as [[[[s ph] mh] d]|]; [|discriminate].
        cbn [bind] in H.
        destruct (dict_index p "query_type") as [qt|]; [|discriminate].
        cbn [bind] in H. discriminate.
      * intros B. apply strip_blank in B. rewrite B in E. discriminate.
  - intros ctx. unfold chat_view.
    destruct (String.eqb method "POST") eqn:Em; [|discriminate].
    apply String.eqb_eq in Em.
    destruct (String.eqb (Text.strip query) "") eqn:E; [discriminate|].
    intros H.
    destruct (interpret o (Text.strip query)) as [j|]; [|discriminate].
    cbn [bind] in H.
    destruct (as_dict j) as [p0|]; [|discriminate].
    cbn [bind] in H.
    destruct (resolve_region p0) as [p|]; [|discriminate]. cbn [bind] in H.
    destruct (resolve datetime_of_str datetime_of_num w p) as [df|]; [|discriminate].
    cbn [bind] in H.
    destruct (build float_of_str datetime_of_str datetime_of_num float_mean p df)
      as [[[[s ph] mh] d]|]; [|discriminate].
    cbn [bind] in H.
    destruct (dict_index p "query_type") as [qt|]; [|discriminate].
    cbn [bind] in H. inversion H; subst ctx; clear H. cbn.
    split; [exact Em|]. split; [|split; [reflexivity|]].
    + destruct (blank query) eqn:B; [|reflexivity].
      apply strip_blank in B. rewrite B in E. discriminate.
    + destruct qt; try reflexivity. simpl.
      destruct (String.eqb s0 "map") eqn:E1; [|reflexivity].
      apply String.eqb_eq in E1. subst. reflexivity.
Qed.

End Dispatch.

(** ** The parameters that are read *)

Section ReadKeys.

Variable float_of_str : string -> option pyfloat.
Variable datetime_of_str : string -> option Z.
Variable datetime_of_num : Q -> option Z.
Variable float_mean : list Q -> pyfloat.

Lemma resolve_agree (w : world) (p p' : dict) :
  agree_on READ_KEYS p p' ->
  resolve datetime_of_str datetime_of_num w p = resolve datetime_of_str datetime_of_num w p'.
Proof.
  intros A.
  unfold resolve, load_table, fetch_argo_data, dict_get_default.
  rewrite (A "bbox"), (A "period_num"), (A "years"), (A "period_unit"), (A "variables");
    try reflexivity; simpl; tauto.
Qed.

Lemma build_agree (p p' : dict) (df : DataFrame) :
  agree_on READ_KEYS p p' ->
  build float_of_str datetime_of_str datetime_of_num float_mean p df
  = build float_of_str datetime_of_str datetime_of_num float_mean p' df.
Proof.
  intros A.
  unfold build, average_summary, dict_index.
  rewrite (A "variables"), (A "query_type"); try reflexivity; simpl; tauto.
Qed.

Lemma agree_on_set_other (keys : list string) (p : dict) (k : string) (v : pyval) :
  ~ In k keys -> agree_on keys (dict_set p k v) p.
Proof.
  intros N k' Hk. rewrite dict_get_set.
  destruct (String.eqb k k') eqn:E; [|reflexivity].
  apply String.eqb_eq in E. subst. contradiction.
Qed.

(** X15.  Data resolution and response building use the values of six keys
    of the parameters only: two parameter sets that agree on [bbox],
    [period_num], [years], [period_unit], [variables] and [query_type]
    resolve to the same table and build the same response.  In particular
    the absolute year range the heuristic parser records under [start_year]
    and [end_year] is never applied: whatever these keys hold, the table
    and the response are those of the parameters without them. *)
Theorem absolute_years_never_applied (w : world) (p : dict) :
  (forall p',
      agree_on READ_KEYS p' p ->
      resolve datetime_of_str datetime_of_num w p' = resolve datetime_of_str datetime_of_num w p
      /\ forall df,
           build float_of_str datetime_of_str datetime_of_num float_mean p' df
           = build float_of_str datetime_of_str datetime_of_num float_mean p df)
  /\ (forall y1 y2,
         resolve datetime_of_str datetime_of_num w
           (dict_set (dict_set p "start_year" y1) "end_year" y2)
         = resolve datetime_of_str datetime_of_num w p
         /\ forall df,
              build float_of_str datetime_of_str datetime_of_num float_mean
                (dict_set (dict_set p "start_year" y1) "end_year" y2) df
              = build float_of_str datetime_of_str datetime_of_num float_mean p df).
Proof.
  assert (G : forall p', agree_on READ_KEYS p' p ->
      resolve datetime_of_str datetime_of_num w p' = resolve datetime_of_str datetime_of_num w p
      /\ forall df,
           build float_of_str datetime_of_str datetime_of_num float_mean p' df
           = build float_of_str datetime_of_str datetime_of_num float_mean p df).
  { intros p' A. split; [now apply resolve_agree|]. intros df. now apply build_agree. }
  split; [exact G|].
  intros y1 y2. apply G.
  intros k Hk.
  rewrite (agree_on_set_other READ_KEYS _ "end_year" y2); [|simpl; intuition discriminate|exact Hk].
  apply (agree_on_set_other READ_KEYS); [simpl; intuition discriminate|exact Hk].
Qed.

End ReadKeys.

Lemma absolute_years_witness :
  resolve no_datetime_text no_datetime_number world_2024
    (dict_set (dict_set pacific_params "start_year" (PInt 2015)) "end_year" (PInt 2020))
  = resolve no_datetime_text no_datetime_number world_2024 pacific_params.
Proof.
  exact (proj1 (proj2 (absolute_years_never_applied no_float_text no_datetime_text
                         no_datetime_number exact_mean world_2024 pacific_params)
                  (PInt 2015) (PInt 2020))).
Defined.

(** ** A request answered from the documented demo table *)

Lemma numeric_readable (float_of_str : string -> option pyfloat) (c : cell) :
  numeric c = true -> readable float_of_str c = true.
Proof. destruct c; simpl; intros H; try discriminate; reflexivity. Qed.

Lemma documented_rows (df : DataFrame) (r : row) :
  documented df -> In r (rows df) -> typed_row (columns df) r = true.
Proof.
  intros [Hc Hr] Hin. rewrite Hc. rewrite forallb_forall in Hr. now apply Hr.
Qed.

Lemma documented_sub (d : DataFrame) (rs : list row) (z : bool) :
  documented d -> incl rs (rows d) -> documented (mkFrame (columns d) rs z).
Proof.
  intros [Hc Hr] Hi. split; [exact Hc|]. cbn [rows].
  rewrite forallb_forall in *. intros r Hin. apply Hr, Hi, Hin.
Qed.

Lemma index_of_existsb (name : string) (cols : list string) :
  match index_of name cols with Some _ => true | None => false end
  = existsb (String.eqb name) cols.
Proof.
  induction cols as [|c cols IH]; cbn [index_of existsb]; [reflexivity|].
  rewrite (String.eqb_sym name c). destruct (String.eqb c name); [reflexivity|].
  rewrite <- IH. destruct (index_of name cols); reflexivity.
Qed.

Lemma documented_has (df : DataFrame) (c : string) :
  documented df -> has_column df c = existsb (String.eqb c) ARGO_COLUMNS.
Proof.
  intros [Hc _]. unfold has_column. rewrite Hc. apply index_of_existsb.
Qed.

Lemma typed_row_cases (cols : list string) (r : row) :
  typed_row cols r = true ->
  numeric (row_get cols r "lon") = true /\ numeric (row_get cols r "lat") = true
  /\ numeric (row_get cols r "temperature") = true
  /\ numeric (row_get cols r "salinity") = true
  /\ match row_get cols r "time" with Null | Stamp _ => true | _ => false end = true.
Proof.
  unfold typed_row. rewrite !andb_true_iff. tauto.
Qed.

Lemma documented_column (df : DataFrame) (v : string) :
  documented df -> v = "temperature" \/ v = "salinity" ->
  exists cells, column df v = Ok cells /\ forallb numeric cells = true.
Proof.
  intros Hd Hv. pose proof Hd as [Hc Hr].
  rewrite forallb_forall in Hr.
  assert (R : forall i name,
             index_of name ARGO_COLUMNS = Some i ->
             (forall r, typed_row ARGO_COLUMNS r = true ->
                        numeric (row_get ARGO_COLUMNS r name) = true) ->
             exists cells, column df name = Ok cells /\ forallb numeric cells = true).
  { intros i name Hi Hn. unfold column. rewrite Hc, Hi. eexists. split; [reflexivity|].
    rewrite forallb_forall. intros c Hin. apply in_map_iff in Hin.
    destruct Hin as [r [<- Hin]]. specialize (Hn r (Hr r Hin)).
    unfold row_get in Hn. now rewrite Hi in Hn. }
  destruct Hv as [->| ->].
  - apply (R 4%nat); [reflexivity|]. intros r H. now apply typed_row_cases in H.
  - apply (R 5%nat); [reflexivity|]. intros r H. now apply typed_row_cases in H.
Qed.

Lemma mapM_names (l : list pyval) :
  Forall (fun x => is_text x = true) l ->
  exists names,
    mapM (fun x => match x with PStr s => Ok s | _ => Raise TypeError end) l = Ok names.
Proof.
  induction 1 as [|x l Hx _ [names IH]]; simpl; [eauto|].
  destruct x; try discriminate. rewrite IH. simpl. eauto.
Qed.

Lemma heuristic_variables_shape (q : string) (p : dict) :
  parse_query_offline q = Ok p ->
  exists v vs qt,
    dict_get p "variables" = Some (PList (PStr v :: vs))
    /\ In v VOCABULARY
    /\ Forall (fun x => is_text x = true) vs
    /\ dict_get p "query_type" = Some (PStr qt).
Proof.
  intros Hp.
  destruct (parse_query_offline_usable q p Hp) as (N & K & T).
  unfold variables_non_empty, variables_known, query_type_known in *.
  destruct (dict_get p "variables") as [[| | | | |l|]|];
    try discriminate.
  destruct l as [|x vs]; [discriminate|].
  destruct (dict_get p "query_type") as [[| | | |qt| |]|];
    try discriminate.
  cbn [forallb] in K. apply andb_true_iff in K. destruct K as [Kx Kvs].
  destruct x as [| | | |v| |]; try discriminate.
  exists v, vs, qt. split; [reflexivity|]. split; [|split; [|reflexivity]].
  - cbn [is_variable] in Kx. apply existsb_exists in Kx. destruct Kx as [s [Hs E]].
    apply String.eqb_eq in E. now subst.
  - apply Forall_forall. intros y Hy. rewrite forallb_forall in Kvs.
    specialize (Kvs y Hy). destruct y; try discriminate. reflexivity.
Qed.

Lemma resolve_region_text (p : dict) (s : string) :
  dict_get p "region" = Some (PStr s) ->
  exists v, resolve_region p = Ok (dict_set p "bbox" v).
Proof.
  intros H. unfold resolve_region, dict_get_default. rewrite H. cbn [bind]. eauto.
Qed.

Lemma ensure_variables_no_alias (vs : list pyval) (df : DataFrame) :
  has_column df "temp" = false ->
  has_column df "sal" = false ->
  Forall (fun v => is_text v = true) vs ->
  ensure_variables vs df = Ok df.
Proof.
  intros Ht Hs. induction 1 as [|v vs Hv _ IH]; [reflexivity|].
  destruct v; try discriminate.
  cbn [ensure_variables in_columns bind]. rewrite Ht, Hs, !andb_false_r.
  destruct (negb (has_column df s)); exact IH.
Qed.

Section Answers.

Variable float_of_str : string -> option pyfloat.
Variable datetime_of_str : string -> option Z.
Variable datetime_of_num : Q -> option Z.
Variable float_mean : list Q -> pyfloat.

Lemma load_table_documented (w : world) (params : dict) :
  argopy w = None ->
  (forall d, demo_file w = Some (Ok d) -> documented d) ->
  load_table datetime_of_str datetime_of_num w params = empty_frame
  \/ documented (load_table datetime_of_str datetime_of_num w params).
Proof.
  intros Ha Hd. unfold load_table, read_demo, fetch_argo_data. rewrite Ha.
  destruct (demo_file w) as [[d|e]|] eqn:E; [|now left|now left].
  specialize (Hd d eq_refl). right.
  assert (L : ensure_lon_lat d = d).
  { unfold ensure_lon_lat.
    rewrite (documented_has d "lon" Hd).
    change (existsb (String.eqb "lon") ARGO_COLUMNS) with true.
    cbn [negb andb copy_column_if].
    rewrite (documented_has d "lat" Hd). reflexivity. }
  unfold bindM, lift. rewrite L.
  destruct (bbox_of _) as [b|]; cbn [fst try_except df_empty empty_frame columns];
    [|exact Hd].
  destruct (_filter_by_bbox_and_time datetime_of_str datetime_of_num w d b _ _ 0%nat)
    as [[out|e] n'] eqn:F; cbn [fst try_except df_empty empty_frame columns]; [|exact Hd].
  destruct (df_empty out) eqn:Ee; [exact Hd|].
  apply filter_by_bbox_and_time_shape in F. destruct F as [_ [p ->]].
  apply documented_sub; [exact Hd|].
  intros r Hr. apply filter_In in Hr. destruct Hr as [Hr _].
  apply filter_In in Hr. apply Hr.
Qed.

Lemma average_summary_documented (params : dict) (df : DataFrame) (v : string)
    (vs : list pyval) :
  dict_get params "variables" = Some (PList (PStr v :: vs)) ->
  In v VOCABULARY ->
  documented df ->
  exists text, average_summary float_mean params df = Ok (PStr v, text).
Proof.
  intros Hv Hin Hd. unfold average_summary, dict_index. rewrite Hv.
  cbn [bind first_item in_columns]. rewrite (documented_has df v Hd).
  assert (C : forall name, name = "temperature" \/ name = "salinity" ->
            exists text,
              (cells <- column df name ;;
               meanv <- series_mean float_mean cells ;;
               Ok (PStr name, average_text name meanv df)) = Ok (PStr name, text)).
  { intros name Hn. destruct (documented_column df name Hd Hn) as [cells [-> Hc]].
    cbn [bind]. rewrite (series_mean_numeric float_mean cells Hc). cbn [bind]. eauto. }
  simpl in Hin. destruct Hin as [<-|[<-|[<-|[]]]]; cbn.
  - apply (C "temperature"). now left.
  - apply (C "salinity"). now right.
  - eauto.
Qed.

Lemma make_map_documented (df : DataFrame) :
  documented df -> exists h, make_map float_of_str df = Ok h.
Proof.
  intros Hd. unfold make_map. destruct (df_empty df); [eauto|].
  rewrite dropna_lat_lon by (rewrite (documented_has df _ Hd); reflexivity).
  cbn [bind columns rows].
  destruct (collect_features_readable float_of_str (columns df)
              (filter (fun r => notna (row_get (columns df) r "lat")
                                && (notna (row_get (columns df) r "lon") && true))
                      (rows df))) as [fs Hfs].
  { intros r Hr. apply filter_In in Hr. destruct Hr as [Hr _].
    apply (documented_rows df r Hd), typed_row_cases in Hr.
    split; apply numeric_readable; tauto. }
  rewrite Hfs. cbn [bind].
  destruct (map_center_total fs) as [c Hc]. rewrite Hc. cbn [bind]. eauto.
Qed.

Lemma make_plot_documented (df : DataFrame) (v : string) :
  documented df ->
  exists h, make_plot datetime_of_str datetime_of_num df (PStr v) = Ok (h, df).
Proof.
  intros Hd. unfold make_plot. destruct (df_empty df); [eauto|].
  cbn [in_columns bind]. destruct (has_column df v) eqn:Hv; [|eauto].
  rewrite (documented_has df "time" Hd). cbn.
  rewrite coerce_time_datetime.
  2:{ unfold time_is_datetime. apply forallb_forall. intros r Hr.
      apply (documented_rows df r Hd), typed_row_cases in Hr. tauto. }
  unfold dropna. cbn [forallb]. rewrite Hv, (documented_has df "time" Hd).
  cbn.
  match goal with |- context [df_empty ?t] => destruct (df_empty t) end; eauto.
Qed.

Lemma build_documented (params : dict) (df : DataFrame) (v qt : string)
    (vs : list pyval) :
  dict_get params "variables" = Some (PList (PStr v :: vs)) ->
  In v VOCABULARY ->
  Forall (fun x => is_text x = true) vs ->
  dict_get params "query_type" = Some (PStr qt) ->
  df = empty_frame \/ documented df ->
  exists out, build float_of_str datetime_of_str datetime_of_num float_mean params df = Ok out.
Proof.
  intros Hv Hin Hvs Hq Hdf. unfold build.
  destruct (df_empty df) eqn:Ee; cbn [negb]; [eauto|].
  destruct Hdf as [->|Hd]; [discriminate|].
  unfold dict_index. rewrite Hq, Hv. cbn [bind is_str py_len].
  destruct (average_summary_documented params df v vs Hv Hin Hd) as [text Ha].
  destruct (make_map_documented df Hd) as [m Hm].
  destruct (make_plot_documented df v Hd) as [h Hp].
  destruct (make_comparison_plot_returns datetime_of_str datetime_of_num df
              ["temperature"; "salinity"]) as (hc & dc & Hc).
  assert (J : exists names, join_names (PList (PStr v :: vs)) = Ok names).
  { unfold join_names. cbn [iter_values bind].
    destruct (mapM_names (PStr v :: vs)) as [names Hn]; [now constructor|].
    rewrite Hn. cbn [bind]. eauto. }
  destruct J as [names Hj].
  assert (Rest :
    exists out,
      (if String.eqb qt "map"
       then m0 <- make_map float_of_str df ;;
            Ok ("Showing float locations on the map.", Markup "", m0, df)
       else if String.eqb qt "summary"
       then vs0 <- average_summary float_mean params df ;; Ok (snd vs0, Markup "", Markup "", df)
       else vs0 <- average_summary float_mean params df ;;
            pd <- make_plot datetime_of_str datetime_of_num df (fst vs0) ;;
            m0 <- make_map float_of_str (snd pd) ;;
            Ok (snd vs0, fst pd, m0, snd pd)) = Ok out).
  { destruct (String.eqb qt "map"); [rewrite Hm; cbn [bind]; eauto|].
    destruct (String.eqb qt "summary"); rewrite Ha; cbn [bind fst snd]; [eauto|].
    rewrite Hp. cbn [bind fst snd]. rewrite Hm. cbn [bind]. eauto. }
  destruct (String.eqb qt "comparison"); cbn [bind]; [|exact Rest].
  destruct (1 <? List.length (PStr v :: vs))%nat; [|exact Rest].
  rewrite Hj. cbn [bind]. rewrite Hc. cbn [bind fst snd]. eauto.
Qed.

(** X16.  With no live source, a demo table that is missing, unreadable or
    the documented one (float_id, lon, lat, time, temperature, salinity,
    the coordinates and measurements numeric, the time a timestamp with or
    without a zone, any of them possibly missing), and an oracle that gives
    nothing, [chat_view] answers every POST whose query is not blank and
    has no count of more than 4300 digits with a results page: no step of
    interpretation, resolution or response building raises.  A query whose
    count has more than 4300 digits is answered by the [ValueError] of
    [int], which nothing catches. *)
Theorem chat_view_answers_every_heuristic_query (w : world) (o : oracle) (query : string) :
  argopy w = None ->
  (forall d, demo_file w = Some (Ok d) -> documented d) ->
  truthy (parse_query_with_openai o (Text.strip query)) = false ->
  blank query = false ->
  ((forall num unit,
       Text.search match_relative (Text.code_points (Text.lower (Text.strip query)))
       = Some (num, unit) ->
       (List.length num <= Text.MAX_STR_DIGITS)%nat) ->
   exists ctx,
     chat_view float_of_str datetime_of_str datetime_of_num float_mean w o "POST" query
     = Ok (Results ctx)
     /\ r_query ctx = Text.strip query)
  /\ (forall num unit,
         Text.search match_relative (Text.code_points (Text.lower (Text.strip query)))
         = Some (num, unit) ->
         (Text.MAX_STR_DIGITS < List.length num)%nat ->
         chat_view float_of_str datetime_of_str datetime_of_num float_mean w o "POST" query
         = Raise ValueError).
Proof.
  intros Ha Hd Ho Hb.
  unfold chat_view. rewrite String.eqb_refl.
  destruct (String.eqb (Text.strip query) "") eqn:E.
  { apply String.eqb_eq, strip_blank in E. congruence. }
  set (q := Text.strip query) in *.
  unfold interpret. rewrite Ho.
  pose proof (parse_query_offline_returns q) as R.
  split.
  2:{ intros num unit Hs L. rewrite Hs in R.
      destruct (int_cases num) as [[L' _]|[_ Hn]]; [lia|].
      rewrite Hn in R. rewrite R. reflexivity. }
  intros Hshort.
  assert (Hp : exists p0, parse_query_offline q = Ok p0).
  { destruct (Text.search match_relative (Text.code_points (Text.lower q)))
      as [[num unit]|]; [|exact R].
    destruct (int_cases num) as [[_ (n & Hn & _)]|[L' _]].
    - rewrite Hn in R. exact R.
    - specialize (Hshort num unit eq_refl). lia. }
  destruct Hp as [p0 Hp]. rewrite Hp. cbn [as_dict bind].
  destruct (heuristic_variables_shape q p0 Hp) as (v & vs & qt & Hv & Hin & Hvs & Hq).
  destruct (resolve_region_text p0 _ (proj1 (parse_query_offline_ok q p0 Hp)))
    as [box Hr].
  rewrite Hr. cbn [bind].
  set (p := dict_set p0 "bbox" box).
  assert (Hv' : dict_get p "variables" = Some (PList (PStr v :: vs))).
  { unfold p. rewrite dict_get_set. exact Hv. }
  assert (Hq' : dict_get p "query_type" = Some (PStr qt)).
  { unfold p. rewrite dict_get_set. exact Hq. }
  pose proof (load_table_documented w p Ha Hd) as Hl.
  assert (Hres : resolve datetime_of_str datetime_of_num w p
                 = Ok (load_table datetime_of_str datetime_of_num w p)).
  { unfold resolve, dict_get_default. rewrite Hv'. cbn [iter_values bind].
    apply ensure_variables_no_alias.
    - destruct Hl as [->|Hl]; [reflexivity|]. now rewrite (documented_has _ _ Hl).
    - destruct Hl as [->|Hl]; [reflexivity|]. now rewrite (documented_has _ _ Hl).
    - constructor; [reflexivity|exact Hvs]. }
  rewrite Hres. cbn [bind].
  destruct (build_documented p _ v qt vs Hv' Hin Hvs Hq' Hl) as [[[[s ph] mh] d] Hbuild].
  rewrite Hbuild. cbn [bind]. unfold dict_index. rewrite Hq'. cbn [bind].
  eexists. split; reflexivity.
Qed.

End Answers.

Lemma chat_view_answers_witness :
  argopy naive_world = None
  /\ blank ("average salinity near india last " ++ ARABIC_INDIC_THREE ++ " years") = false
  /\ exists ctx,
       chat_view no_float_text no_datetime_text no_datetime_number exact_mean naive_world None
         "POST" ("average salinity near india last " ++ ARABIC_INDIC_THREE ++ " years")
       = Ok (Results ctx)
       /\ r_query ctx
          = Text.strip ("average salinity near india last " ++ ARABIC_INDIC_THREE ++ " years").
Proof.
  split; [reflexivity|]. split; [vm_compute; reflexivity|].
  refine (proj1 (chat_view_answers_every_heuristic_query no_float_text no_datetime_text
                   no_datetime_number exact_mean naive_world None
                   ("average salinity near india last " ++ ARABIC_INDIC_THREE ++ " years")
                   eq_refl _ _ _) _).
  - intros d H. injection H as H. subst d. split; vm_compute; reflexivity.
  - vm_compute. reflexivity.
  - vm_compute. reflexivity.
  - intros num unit H. vm_compute in H. injection H as H _. subst num.
    apply Nat.leb_le. vm_compute. reflexivity.
Defined.

(** ** The labels of the live table *)

Lemma has_column_In (df : DataFrame) (c : string) :
  has_column df c = true <-> In c (columns df).
Proof.
  unfold has_column. rewrite index_of_existsb, existsb_exists. split.
  - intros [x [Hx E]]. apply String.eqb_eq in E. now subst.
  - intros H. exists c. split; [exact H|apply String.eqb_refl].
Qed.

Lemma columns_assign (df : DataFrame) (name : string) (vals : list cell) (c : string) :
  In c (columns (assign df name vals)) <-> In c (columns df) \/ c = name.
Proof.
  unfold assign. destruct (index_of name (columns df)) eqn:E; cbn [columns].
  - split; [tauto|]. intros [H| ->]; [exact H|].
    apply has_column_In. unfold has_column. now rewrite E.
  - rewrite in_app_iff. simpl. intuition.
Qed.

Lemma columns_copy (df : DataFrame) (dst src c : string) :
  In c (columns (copy_column_if (has_column df src) df dst src))
  <-> In c (columns df) \/ (In src (columns df) /\ c = dst).
Proof.
  unfold copy_column_if. destruct (has_column df src) eqn:H.
  - destruct (has_column_column df src H) as [vals ->]. rewrite columns_assign.
    apply has_column_In in H. tauto.
  - split; [tauto|]. intros [Hc|[Hs _]]; [exact Hc|].
    apply has_column_In in Hs. congruence.
Qed.

(** the renaming of lines 55-60, label by label *)
Lemma columns_rename_live (raw : DataFrame) (c : string) :
  In c (columns (rename raw
          ((if has_column raw "TEMP" then [("TEMP", "temperature")] else [])
           ++ (if has_column raw "PSAL" then [("PSAL", "salinity")] else []))%list))
  <-> (c = "temperature" /\ In "TEMP" (columns raw))
      \/ (c = "salinity" /\ In "PSAL" (columns raw))
      \/ (In c (columns raw) /\ c <> "TEMP" /\ c <> "PSAL").
Proof.
  unfold rename. cbn [columns]. rewrite in_map_iff. split.
  - intros [x [Hf Hx]].
    destruct (String.eqb "TEMP" x) eqn:E1.
    + apply String.eqb_eq in E1. subst x.
      pose proof (proj2 (has_column_In raw "TEMP") Hx) as HT. rewrite HT in Hf.
      cbn in Hf. left. split; [now symmetry|exact Hx].
    + destruct (String.eqb "PSAL" x) eqn:E2.
      * apply String.eqb_eq in E2. subst x.
        pose proof (proj2 (has_column_In raw "PSAL") Hx) as HP. rewrite HP in Hf.
        destruct (has_column raw "TEMP"); cbn in Hf;
          right; left; (split; [now symmetry|exact Hx]).
      * assert (Hcx : c = x).
        { destruct (has_column raw "TEMP"), (has_column raw "PSAL");
            cbn [app find fst snd] in Hf; rewrite ?E1, ?E2 in Hf; now symmetry. }
        clear Hf. subst c. right. right. split; [exact Hx|].
        apply String.eqb_neq in E1, E2. split; congruence.
  - intros [[-> HT]|[[-> HP]|[Hc [N1 N2]]]].
    + exists "TEMP". split; [|exact HT].
      apply has_column_In in HT. rewrite HT. reflexivity.
    + exists "PSAL". split; [|exact HP].
      apply has_column_In in HP. rewrite HP.
      destruct (has_column raw "TEMP"); reflexivity.
    + exists c. split; [|exact Hc].
      assert (E1 : String.eqb "TEMP" c = false) by (apply String.eqb_neq; congruence).
      assert (E2 : String.eqb "PSAL" c = false) by (apply String.eqb_neq; congruence).
      destruct (has_column raw "TEMP"), (has_column raw "PSAL");
        cbn [app find fst snd]; rewrite ?E1, ?E2; reflexivity.
Qed.

Section LiveTable.

Variable datetime_of_str : string -> option Z.
Variable datetime_of_num : Q -> option Z.

(** X17.  The live table as [fetch_argo_data] normalises it (lines 55-72),
    when the conversion of [JULD] does not fail: every label of the result
    is one of the documented six, the table is rectangular and has as many
    rows as the live one, and a documented label is there exactly when the
    live table has a column it is taken from: [float_id] from
    [platform_number], [lon] from [lon] or [longitude], [lat] from [lat] or
    [latitude], [time] from [time] or [JULD], [temperature] from
    [temperature] or [TEMP], [salinity] from [salinity] or [PSAL]. *)
Theorem normalize_live_labels (raw df : DataFrame) :
  normalize_live datetime_of_str datetime_of_num raw = Ok df ->
  incl (columns df) ARGO_COLUMNS
  /\ rectangular df = true
  /\ len df = len raw
  /\ has_column df "float_id" = has_column raw "platform_number"
  /\ has_column df "lon" = has_column raw "lon" || has_column raw "longitude"
  /\ has_column df "lat" = has_column raw "lat" || has_column raw "latitude"
  /\ has_column df "time" = has_column raw "time" || has_column raw "JULD"
  /\ has_column df "temperature" = has_column raw "temperature" || has_column raw "TEMP"
  /\ has_column df "salinity" = has_column raw "salinity" || has_column raw "PSAL".
Proof.
  intros H. unfold normalize_live in H. cbv zeta in H.
  pose proof (columns_rename_live raw) as C1.
  set (df1 := rename raw _) in *.
  pose proof (columns_copy df1 "lon" "longitude") as C2.
  set (df2 := copy_column_if (has_column df1 "longitude") df1 "lon" "longitude") in *.
  pose proof (columns_copy df2 "lat" "latitude") as C3.
  set (df3 := copy_column_if (has_column df2 "latitude") df2 "lat" "latitude") in *.
  assert (L3 : len df3 = len raw).
  { unfold df3, df2. now rewrite !len_copy. }
  match type of H with
  | bind ?step _ = _ => destruct step as [df4|] eqn:E4; [|discriminate]
  end.
  cbn [bind] in H.
  assert (C4 : forall c, In c (columns df4)
                         <-> In c (columns df3) \/ (In "JULD" (columns df3) /\ c = "time")).
  { intros c. destruct (has_column df3 "JULD") eqn:HJ.
    - destruct (column df3 "JULD") as [juld|]; [|discriminate]. cbn [bind] in E4.
      destruct (mapM _ juld) as [ts|]; [|discriminate]. cbn [bind] in E4.
      inversion E4. rewrite columns_assign. apply has_column_In in HJ. tauto.
    - inversion E4; subst df4. split; [tauto|]. intros [Hc|[Hs _]]; [exact Hc|].
      apply has_column_In in Hs. congruence. }
  assert (L4 : len df4 = len raw).
  { rewrite <- L3. destruct (has_column df3 "JULD").
    - unfold column in E4. destruct (index_of "JULD" (columns df3)); [|discriminate].
      cbn [bind] in E4.
      destruct (mapM _ _) as [ts|] eqn:Em; [|discriminate]. cbn [bind] in E4.
      inversion E4. apply len_assign. apply mapM_ok_inv in Em.
      destruct Em as [-> _]. apply length_map.
    - now inversion E4. }
  clearbody df1 df2 df3. clear E4.
  set (keep := filter (has_column df4)
                 ["platform_number"; "lon"; "lat"; "time"; "temperature"; "salinity"]) in *.
  assert (K : forall c, In c keep
                        <-> In c ["platform_number"; "lon"; "lat"; "time";
                                  "temperature"; "salinity"]
                            /\ In c (columns df4)).
  { intros c. unfold keep. rewrite filter_In, has_column_In. tauto. }
  assert (C6 : forall c, In c (columns df)
                         <-> (c = "float_id" /\ In "platform_number" keep)
                             \/ (In c keep /\ c <> "platform_number")).
  { intros c. inversion H as [Hdf]; clear H.
    destruct (has_column (project df4 keep) "platform_number") eqn:HP.
    - apply has_column_In in HP. cbn [project columns] in HP.
      unfold rename. cbn [columns project find fst snd]. rewrite in_map_iff. split.
      + intros [x [Hf Hx]]. destruct (String.eqb "platform_number" x) eqn:E.
        * left. split; [now symmetry|exact HP].
        * right. subst c. split; [exact Hx|]. apply String.eqb_neq in E. congruence.
      + intros [[-> _]|[Hc N]].
        * exists "platform_number". split; [reflexivity|exact HP].
        * exists c. split; [|exact Hc].
          assert (E : String.eqb "platform_number" c = false)
            by (apply String.eqb_neq; congruence).
          now rewrite E.
    - cbn [project columns]. split.
      + intros Hc. right. split; [exact Hc|]. intros ->.
        apply (proj2 (has_column_In (project df4 keep) "platform_number")) in Hc.
        congruence.
      + intros [[_ Hp]|[Hc _]]; [|exact Hc].
        apply (proj2 (has_column_In (project df4 keep) "platform_number")) in Hp.
        congruence. }
  assert (R : rectangular df = true /\ len df = len raw).
  { inversion H as [Hdf]; clear H.
    assert (P : rectangular (project df4 keep) = true /\ len (project df4 keep) = len raw).
    { split.
      - unfold rectangular, project. cbn [columns rows]. apply forallb_forall.
        intros r Hr. apply in_map_iff in Hr. destruct Hr as [r0 [<- _]].
        rewrite length_map. apply Nat.eqb_refl.
      - unfold len, project. cbn [rows]. rewrite length_map. exact L4. }
    destruct (has_column (project df4 keep) "platform_number"); [|exact P].
    destruct P as [P1 P2]. split; [|exact P2].
    unfold rectangular, rename in *. cbn [columns rows] in *.
    now rewrite length_map. }
  split.
  { intros c Hc. apply C6 in Hc. destruct Hc as [[-> _]|[Hc N]]; [simpl; tauto|].
    apply K in Hc. destruct Hc as [Hc _]. simpl in Hc. simpl.
    intuition congruence. }
  split; [apply R|]. split; [apply R|].
  repeat split; apply Bool.eq_iff_eq_true;
    rewrite ?orb_true_iff, !has_column_In, C6, !K, !C4, !C3, !C2, !C1; simpl;
    intuition (try discriminate; try congruence).
Qed.

End LiveTable.

(** ** The flags of the results page *)

Lemma resolve_region_ok (p0 p : dict) :
  resolve_region p0 = Ok p -> exists v, p = dict_set p0 "bbox" v.
Proof.
  unfold resolve_region.
  match goal with |- bind ?r _ = _ -> _ => destruct r as [box|] end; [|discriminate].
  cbn [bind]. intros H; inversion H. eauto.
Qed.

Section Flags.

Variable float_of_str : string -> option pyfloat.
Variable datetime_of_str : string -> option Z.
Variable datetime_of_num : Q -> option Z.
Variable float_mean : list Q -> pyfloat.

Lemma build_map_only (p : dict) (df d : DataFrame) (s : string) (ph mh : html) :
  dict_get p "query_type" = Some (PStr "map") ->
  build float_of_str datetime_of_str datetime_of_num float_mean p df = Ok (s, ph, mh, d) ->
  ph = Markup "".
Proof.
  intros Hq. unfold build, dict_index. rewrite Hq.
  destruct (df_empty df); cbn [negb bind is_str];
    [intros H; now inversion H|].
  change (String.eqb "map" "comparison") with false.
  change (String.eqb "map" "map") with true. cbn [bind].
  destruct (make_map float_of_str df); cbn [bind]; [|discriminate].
  intros H; now inversion H.
Qed.

Lemma build_comparison_only (p : dict) (df d : DataFrame) (s : string) (ph mh : html) :
  dict_get p "query_type" = Some (PStr "comparison") ->
  dict_get p "variables" = Some (PList [PStr "temperature"; PStr "salinity"]) ->
  build float_of_str datetime_of_str datetime_of_num float_mean p df = Ok (s, ph, mh, d) ->
  mh = Markup ""
  /\ (df_empty df = false -> s = "Comparison of temperature, salinity.").
Proof.
  intros Hq Hv. unfold build, dict_index. rewrite Hq, Hv.
  destruct (df_empty df); cbn [negb bind is_str];
    [intros H; inversion H; split; [reflexivity|discriminate]|].
  change (String.eqb "comparison" "comparison") with true.
  cbn [bind py_len List.length Nat.ltb Nat.leb].
  unfold join_names. cbn [iter_values mapM bind Text.join].
  destruct (make_comparison_plot _ _ df _); cbn [bind]; [|discriminate].
  intros H; inversion H. split; reflexivity.
Qed.

(** X18.  The flags of a results page and what the page carries (lines
    139-181): a page flagged [map_only] never carries a chart; and when the
    parameters are the heuristic parser's, a page flagged [comparison_only]
    never carries a map, its summary being the comparison sentence for
    temperature and salinity unless it is the no-data message. *)
Theorem results_page_flags (w : world) (o : oracle) (method query : string)
    (ctx : response) :
  chat_view float_of_str datetime_of_str datetime_of_num float_mean w o method query
  = Ok (Results ctx) ->
  (r_map_only ctx = true -> r_plot_html ctx = Markup "")
  /\ (truthy (parse_query_with_openai o (Text.strip query)) = false ->
      r_comparison_only ctx = true ->
      r_map_html ctx = Markup ""
      /\ (r_summary ctx = "Comparison of temperature, salinity."
          \/ r_summary ctx = NO_DATA)).
Proof.
  unfold chat_view.
  destruct (String.eqb method "POST"); [|discriminate].
  destruct (String.eqb (Text.strip query) ""); [discriminate|].
  set (q := Text.strip query).
  destruct (interpret o q) as [j|] eqn:Ej; [|discriminate]. cbn [bind].
  destruct (as_dict j) as [p0|] eqn:Ei; [|discriminate]. cbn [bind].
  destruct (resolve_region p0) as [p|] eqn:Er; [|discriminate]. cbn [bind].
  destruct (resolve datetime_of_str datetime_of_num w p) as [df|]; [|discriminate].
  cbn [bind].
  destruct (build float_of_str datetime_of_str datetime_of_num float_mean p df)
    as [[[[s ph] mh] d]|] eqn:Eb; [|discriminate].
  cbn [bind]. unfold dict_index.
  destruct (dict_get p "query_type") as [qt|] eqn:Eq; [|discriminate].
  cbn [bind]. intros H; inversion H; subst ctx; clear H.
  cbn [r_map_only r_plot_html r_comparison_only r_map_html r_summary].
  split.
  - intros Hm. apply is_str_eq in Hm. subst qt. exact (build_map_only p df d s ph mh Eq Eb).
  - intros Ho Hc. apply is_str_eq in Hc. subst qt.
    unfold interpret in Ej. rewrite Ho in Ej.
    destruct (parse_query_offline q) as [p1|] eqn:Hp; [|discriminate].
    cbn [bind] in Ej.
    assert (j = PDict p1) by congruence. subst j. cbn [as_dict] in Ei.
    assert (p1 = p0) by congruence. subst p1. clear Ei Ej.
    apply resolve_region_ok in Er. destruct Er as [box ->].
    rewrite dict_get_set in Eq. cbn in Eq.
    destruct (parse_query_offline_ok q p0 Hp) as (_ & Hq & Hv & _).
    assert (E : detected_query_type (Text.lower q) = "comparison") by congruence.
    rewrite (detected_comparison _ E) in Hv.
    assert (Hv' : dict_get (dict_set p0 "bbox" box) "variables"
                  = Some (PList [PStr "temperature"; PStr "salinity"])).
    { rewrite dict_get_set. exact Hv. }
    assert (Hq'' : dict_get (dict_set p0 "bbox" box) "query_type"
                   = Some (PStr "comparison")).
    { rewrite dict_get_set. exact Eq. }
    destruct (build_comparison_only _ df d s ph mh Hq'' Hv' Eb) as [M S].
    split; [exact M|].
    destruct (df_empty df) eqn:Ee; [|left; now apply S].
    right. unfold build in Eb. rewrite Ee in Eb. cbn [negb] in Eb. now inversion Eb.
Qed.

End Flags.

(** ** What a fetch can return *)

Section Fetch.

Variable datetime_of_str : string -> option Z.
Variable datetime_of_num : Q -> option Z.

Lemma filter_by_bbox_and_time_reads (w : world) (df : DataFrame) (b : Q * Q * Q * Q)
    (period_num period_unit : pyval) (n : nat) :
  (n <= snd (_filter_by_bbox_and_time datetime_of_str datetime_of_num w df b
               period_num period_unit n) <= S n)%nat.
Proof.
  unfold _filter_by_bbox_and_time, bindM, lift, utcnow.
  destruct (filter_bbox df b); cbn [snd]; lia.
Qed.

(** X19.  Whatever the source, a table [fetch_argo_data] returns is either
    the empty table (no source could be used) or a table that went through
    [_filter_by_bbox_and_time] with the requested box: the [bbox] of the
    parameters then is a list of four numbers and every row of the table
    lies inside it.  A fetch reads the clock at most three times. *)
Theorem fetched_rows_lie_in_the_box (w : world) (params : dict) (out : DataFrame)
    (n n' : nat) :
  fetch_argo_data datetime_of_str datetime_of_num w params n = (Ok out, n') ->
  (n <= n' <= n + 3)%nat
  /\ (out = empty_frame
      \/ exists b,
           bbox_of (dict_get_default params "bbox"
                      (PList [PInt (-180); PInt 180; PInt (-90); PInt 90])) = Ok b
           /\ forall r, In r (rows out) -> in_box b (columns out) r = true).
Proof.
  assert (Fallback : forall m m',
    match demo_file w with
    | Some read =>
        (df <~ lift read ;;
         b <~ lift (bbox_of (dict_get_default params "bbox"
                               (PList [PInt (-180); PInt 180; PInt (-90); PInt 90]))) ;;
         _filter_by_bbox_and_time datetime_of_str datetime_of_num w (ensure_lon_lat df) b
           (dict_get_default params "period_num" (dict_get_default params "years" (PInt 5)))
           (dict_get_default params "period_unit" (PStr "years")))
    | None => ret empty_frame
    end m = (Ok out, m') ->
    (m <= m' <= S m)%nat
    /\ (out = empty_frame
        \/ exists b,
             bbox_of (dict_get_default params "bbox"
                        (PList [PInt (-180); PInt 180; PInt (-90); PInt 90])) = Ok b
             /\ forall r, In r (rows out) -> in_box b (columns out) r = true)).
  { intros m m' H. destruct (demo_file w) as [[d|e]|] eqn:E.
    - unfold bindM, lift in H.
      destruct (bbox_of _) as [b|] eqn:Hb; [|discriminate].
      apply filter_by_bbox_and_time_shape in H. destruct H as [-> [p ->]].
      split; [lia|]. right. exists b. split; [reflexivity|]. cbn [columns rows].
      intros r Hr. apply filter_In in Hr. destruct Hr as [Hr _].
      apply filter_In in Hr. apply Hr.
    - discriminate.
    - inversion H. split; [lia|now left]. }
  unfold fetch_argo_data. destruct (argopy w) as [region|].
  - unfold try_M.
    match goal with
    | |- (match ?live n with _ => _ end) = _ -> _ =>
        destruct (live n) as [[o|e] k] eqn:L
    end.
    + intros H; inversion H; subst o k; clear H.
      unfold bindM, utcnow, lift in L.
      destruct (live_start _ _ _) as [start|]; [|discriminate].
      destruct (bbox_of _) as [b|] eqn:Hb; [|discriminate].
      destruct (region b _ _) as [raw|]; [|discriminate].
      destruct (normalize_live _ _ raw) as [df|]; [|discriminate].
      apply filter_by_bbox_and_time_shape in L. destruct L as [-> [p ->]].
      split; [lia|]. right. exists b. split; [reflexivity|]. cbn [columns rows].
      intros r Hr. apply filter_In in Hr. destruct Hr as [Hr _].
      apply filter_In in Hr. apply Hr.
    + intros H. apply Fallback in H.
      assert (K : (n <= k <= n + 2)%nat).
      { unfold bindM, utcnow, lift in L.
        destruct (live_start _ _ _) as [start|]; [|inversion L; lia].
        destruct (bbox_of _) as [b|]; [|inversion L; lia].
        destruct (region b _ _) as [raw|]; [|inversion L; lia].
        destruct (normalize_live _ _ raw) as [df|]; [|inversion L; lia].
        pose proof (filter_by_bbox_and_time_reads w df b
                      (dict_get_default params "period_num"
                         (dict_get_default params "years" (PInt 5)))
                      (dict_get_default params "period_unit" (PStr "years")) (S n)) as R.
        rewrite L in R. cbn [snd] in R. lia. }
      split; [lia|apply H].
  - intros H. apply Fallback in H. split; [lia|apply H].
Qed.

End Fetch.

Lemma fetched_rows_witness :
  fetch_argo_data no_datetime_text no_datetime_number gappy_world
    [("bbox", PList [PInt 68; PInt 98; PInt 6; PInt 30])] 0%nat
  = (Ok gappy_frame, 1%nat)
  /\ (0 <= 1 <= 0 + 3)%nat.
Proof.
  split; [reflexivity|].
  exact (proj1 (fetched_rows_lie_in_the_box no_datetime_text no_datetime_number gappy_world
                  [("bbox", PList [PInt 68; PInt 98; PInt 6; PInt 30])] gappy_frame
                  0%nat 1%nat eq_refl)).
Defined.

(** ** An adopted object without a query type *)

Lemma in_columns_raises (v : pyval) (df : DataFrame) (e : exn) :
  in_columns v df = Raise e -> e = TypeError.
Proof. destruct v; simpl; intros H; now inversion H. Qed.

Lemma ensure_variables_raises (vs : list pyval) (df : DataFrame) (e : exn) :
  ensure_variables vs df = Raise e -> e = TypeError.
Proof.
  revert df. induction vs as [|v vs IH]; intros df; [discriminate|].
  cbn [ensure_variables]. destruct (in_columns v df) as [present|e'] eqn:E; cbn [bind].
  - apply IH.
  - intros H; inversion H; subst. now apply in_columns_raises in E.
Qed.

Section MissingQueryType.

Variable float_of_str : string -> option pyfloat.
Variable datetime_of_str : string -> option Z.
Variable datetime_of_num : Q -> option Z.
Variable float_mean : list Q -> pyfloat.

Lemma resolve_raises (w : world) (p : dict) (e : exn) :
  resolve datetime_of_str datetime_of_num w p = Raise e -> e = TypeError.
Proof.
  unfold resolve.
  destruct (iter_values _) as [vs|e'] eqn:E; cbn [bind].
  - apply ensure_variables_raises.
  - intros H; inversion H; subst.
    destruct (dict_get_default p "variables" (PList [])); simpl in E; now inversion E.
Qed.

(** X20.  The oracle's object is adopted without any check, and line 171
    reads [params["query_type"]] on every path: when the adopted parameters
    have no [query_type], no POST with a query that is not blank is answered;
    [chat_view] raises a [KeyError], or a [TypeError] when the region or the
    variables of the object cannot be used before that. *)
Theorem missing_query_type_is_never_answered (w : world) (o : oracle)
    (query : string) (d : dict) :
  blank query = false ->
  interpret o (Text.strip query) = Ok (PDict d) ->
  dict_get d "query_type" = None ->
  chat_view float_of_str datetime_of_str datetime_of_num float_mean w o "POST" query
  = Raise KeyError
  \/ chat_view float_of_str datetime_of_str datetime_of_num float_mean w o "POST" query
     = Raise TypeError.
Proof.
  intros Hb Hi Hq. unfold chat_view. rewrite String.eqb_refl.
  destruct (String.eqb (Text.strip query) "") eqn:E.
  { apply String.eqb_eq, strip_blank in E. congruence. }
  rewrite Hi. cbn [as_dict bind].
  destruct (resolve_region d) as [p|e] eqn:Er; cbn [bind].
  2:{ right. unfold resolve_region in Er.
      destruct (dict_get_default d "region" (PStr "pacific")); cbn in Er;
        try discriminate; now inversion Er. }
  apply resolve_region_ok in Er. destruct Er as [box ->].
  assert (Hq' : dict_get (dict_set d "bbox" box) "query_type" = None).
  { rewrite dict_get_set. exact Hq. }
  destruct (resolve datetime_of_str datetime_of_num w (dict_set d "bbox" box))
    as [df|e] eqn:Es; cbn [bind].
  2:{ right. apply resolve_raises in Es. now subst. }
  unfold build, dict_index. rewrite Hq'.
  destruct (df_empty df); cbn [negb bind]; now left.
Qed.

End MissingQueryType.

Lemma missing_query_type_witness :
  chat_view no_float_text no_datetime_text no_datetime_number exact_mean gappy_world bare_oracle
    "POST" "how warm is it" = Raise KeyError
  \/ chat_view no_float_text no_datetime_text no_datetime_number exact_mean gappy_world bare_oracle
       "POST" "how warm is it" = Raise TypeError.
Proof.
  refine (missing_query_type_is_never_answered no_float_text no_datetime_text
            no_datetime_number exact_mean gappy_world bare_oracle "how warm is it"
            [("variables", PList [PStr "temperature"])] _ _ eq_refl);
    vm_compute; reflexivity.
Defined.

(** ** The window of a query that names none *)

Section DefaultWindow.

Variable datetime_of_str : string -> option Z.
Variable datetime_of_num : Q -> option Z.

(** X21.  A query in which the relative pattern does not match is resolved
    with a window of five years.  The heuristic parser returns, recording
    neither [period_num] nor [period_unit]; with its parameters, whatever
    box [chat_view] has stored in them, the filter [fetch_argo_data] applies
    is [_filter_by_bbox_and_time(df, bbox, 5, "years")], on the demo table
    when there is no live source; and on a table with numeric coordinates
    and zone-aware datetimes that call keeps the rows inside the box that
    are not older than sixty months before the clock reading. *)
Theorem heuristic_default_window (q : string) :
  Text.search match_relative (Text.code_points (Text.lower q)) = None ->
  exists p0,
    parse_query_offline q = Ok p0
    /\ dict_get p0 "period_num" = None
    /\ dict_get p0 "period_unit" = None
    /\ forall (box : pyval) (w : world) (n : nat),
         (forall df,
             requested_filter datetime_of_str datetime_of_num w
               (dict_set p0 "bbox" box) df n
             = (b <~ lift (bbox_of box) ;;
                _filter_by_bbox_and_time datetime_of_str datetime_of_num w df b
                  (PInt 5) (PStr "years")) n)
         /\ (forall raw,
                argopy w = None ->
                demo_file w = Some (Ok raw) ->
                fetch_argo_data datetime_of_str datetime_of_num w
                  (dict_set p0 "bbox" box) n
                = (b <~ lift (bbox_of box) ;;
                   _filter_by_bbox_and_time datetime_of_str datetime_of_num w
                     (ensure_lon_lat raw) b (PInt 5) (PStr "years")) n)
         /\ (forall df b start,
                has_column df "lon" = true ->
                has_column df "lat" = true ->
                numeric_coordinates df = true ->
                has_column df "time" = true ->
                time_is_datetime df = true ->
                zoned df = true ->
                Calendar.minus_months (clock w n) 60 = Ok start ->
                _filter_by_bbox_and_time datetime_of_str datetime_of_num w df b
                  (PInt 5) (PStr "years") n
                = (Ok (mkFrame (columns df)
                         (filter (in_window start (columns df))
                                 (filter (in_box b (columns df)) (rows df)))
                         (zoned df)),
                   S n)).
Proof.
  intros E.
  pose proof (parse_query_offline_returns q) as R. rewrite E in R.
  destruct R as [p0 Hp]. exists p0. split; [exact Hp|].
  pose proof (parse_query_offline_ok q p0 Hp) as (_ & _ & _ & Hy & T).
  rewrite E in T. destruct T as (Hn & Hu & _).
  split; [exact Hn|]. split; [exact Hu|].
  intros box w n.
  assert (B : dict_get_default (dict_set p0 "bbox" box) "bbox"
                (PList [PInt (-180); PInt 180; PInt (-90); PInt 90]) = box).
  { unfold dict_get_default. rewrite dict_get_set. reflexivity. }
  assert (N : dict_get_default (dict_set p0 "bbox" box) "period_num"
                (dict_get_default (dict_set p0 "bbox" box) "years" (PInt 5))
              = PInt 5).
  { unfold dict_get_default. rewrite !dict_get_set.
    cbn [String.eqb Ascii.eqb Bool.eqb]. rewrite Hn, Hy. reflexivity. }
  assert (U : dict_get_default (dict_set p0 "bbox" box) "period_unit" (PStr "years")
              = PStr "years").
  { unfold dict_get_default. rewrite dict_get_set.
    cbn [String.eqb Ascii.eqb Bool.eqb]. rewrite Hu. reflexivity. }
  assert (F : forall df,
             requested_filter datetime_of_str datetime_of_num w
               (dict_set p0 "bbox" box) df n
             = (b <~ lift (bbox_of box) ;;
                _filter_by_bbox_and_time datetime_of_str datetime_of_num w df b
                  (PInt 5) (PStr "years")) n).
  { intros df. unfold requested_filter. rewrite B, N, U. reflexivity. }
  split; [exact F|]. split.
  - intros raw Ha Hd.
    rewrite (fetch_static datetime_of_str datetime_of_num w _ raw n Ha Hd). apply F.
  - intros df b start Hlon Hlat Hnum Htime Hdt Hz Hs.
    exact (filter_by_bbox_and_time_rows datetime_of_str datetime_of_num w df b
             (PInt 5) (PStr "years") start n Hlon Hlat Hnum Htime Hdt Hz eq_refl Hs).
Qed.

End DefaultWindow.

Lemma heuristic_default_window_witness :
  Text.search match_relative (Text.code_points (Text.lower "temperature trend")) = None
  /\ exists p0,
       parse_query_offline "temperature trend" = Ok p0
       /\ fetch_argo_data no_datetime_text no_datetime_number world_2026
            (dict_set p0 "bbox" (PList [PInt (-180); PInt 180; PInt (-60); PInt 60])) 0%nat
          = (Ok (mkFrame ARGO_COLUMNS [] true), 1%nat).
Proof.
  assert (E : Text.search match_relative
                (Text.code_points (Text.lower "temperature trend")) = None)
    by (vm_compute; reflexivity).
  split; [exact E|].
  destruct (heuristic_default_window no_datetime_text no_datetime_number
              "temperature trend" E) as (p0 & Hp & _ & _ & H).
  exists p0. split; [exact Hp|].
  destruct (H (PList [PInt (-180); PInt 180; PInt (-60); PInt 60]) world_2026 0%nat)
    as (_ & Hfetch & _).
  rewrite (Hfetch old_frame eq_refl eq_refl).
  vm_compute. reflexivity.
Defined.

Lemma normalize_live_witness :
  exists df,
    normalize_live no_datetime_text no_datetime_number live_frame = Ok df
    /\ incl (columns df) ARGO_COLUMNS
    /\ len df = len live_frame
    /\ has_column df "float_id" = has_column live_frame "platform_number".
Proof.
  eexists. split; [reflexivity|].
  destruct (normalize_live_labels no_datetime_text no_datetime_number live_frame _ eq_refl)
    as (I & _ & L & F & _).
  split; [exact I|]. split; [exact L|exact F].
Defined.

Lemma results_page_flags_witness :
  exists ctx,
    chat_view no_float_text no_datetime_text no_datetime_number exact_mean gappy_world None "POST"
      "float locations near india" = Ok (Results ctx)
    /\ r_map_only ctx = true
    /\ r_plot_html ctx = Markup "".
Proof.
  eexists. split; [vm_compute; reflexivity|]. split; [reflexivity|].
  match goal with
  | |- r_plot_html ?c = _ =>
      refine (proj1 (results_page_flags no_float_text no_datetime_text no_datetime_number
                       exact_mean gappy_world None "POST" "float locations near india" c _)
                eq_refl)
  end.
  vm_compute. reflexivity.
Defined.

(** a query of a no-break space and a space is blank *)
Lemma chat_view_dispatch_witness :
  blank (NO_BREAK_SPACE ++ " ") = true
  /\ chat_view no_float_text no_datetime_text no_datetime_number exact_mean bare_world None
       "POST" (NO_BREAK_SPACE ++ " ")
     = Ok (Redirect "chat").
Proof.
  assert (B : blank (NO_BREAK_SPACE ++ " ") = true) by (vm_compute; reflexivity).
  split; [exact B|].
  exact (proj2 (proj1 (proj2 (chat_view_dispatch no_float_text no_datetime_text
                                no_datetime_number exact_mean
                                bare_world None "POST" (NO_BREAK_SPACE ++ " "))))
           B).
Defined.
